(** * DuCTTLearningController: a shallow embedding and its properties

    The controller of [src/dev/axydes/DuCTT/controllers/DuCTTLearningController.cpp]
    is embedded function by function.  Conventions of the embedding:

    - a C++ [double] is a rational [Q] with exact arithmetic (no rounding, no
      NaN, no infinities); [M_PI] is the decimal literal of the source's
      [#define];
    - [sin], [sqrt] and [atof] belong to the C library: the targets computed
      with [sin] are kept as unevaluated [Target] terms, [sqrt] and [atof] are
      parameters of the sections that use them;
    - [int] and [size_t] arithmetic that can leave its range is written in [Z]
      with the wrap-around spelled out ([as_int], [as_size_t]);
    - [operator[]] past the end of a [std::vector] or of a [new double[n]]
      array is undefined behaviour in C++; the embedding stops there with the
      fault [out_of_range] (and with [bad_pointer] at an access through an
      array pointer that is not allocated), so that a result [inr _] always
      stands for a run without such an access;
    - the robot model ([DuCTTRobotModel]), the learning adapters, the file
      system and [rand] are inputs; what the controller sends to the robot and
      to the adapter is collected as a list of [Command]s. *)

From Stdlib Require Import ZArith QArith Qabs Qminmax String Ascii List Bool Lia Lra Psatz.
Import ListNotations.

Set Implicit Arguments.

(* ================================================================= *)
(** ** Faults and the error monad *)

Inductive Fault : Type :=
| invalid_argument (what : string)        (* throw std::invalid_argument(what) *)
| out_of_range (index size : nat)         (* operator[] past the end *)
| bad_pointer                             (* access through a pointer that is not allocated *)
| assertion_failure (what : string).      (* assert(...) *)

Definition Res (A : Type) : Type := (Fault + A)%type.

Definition ret {A} (a : A) : Res A := inr a.

Definition bind {A B} (c : Res A) (k : A -> Res B) : Res B :=
  match c with
  | inl f => inl f
  | inr a => k a
  end.

Notation "x <- c ;; k" := (bind c (fun x => k))
  (at level 61, c at next level, right associativity).
Notation "' pat <- c ;; k" := (bind c (fun x => match x with pat => k end))
  (at level 61, pat pattern, c at next level, right associativity).

Fixpoint mapM {A B} (f : A -> Res B) (l : list A) : Res (list B) :=
  match l with
  | [] => ret []
  | a :: l' => b <- f a ;; bs <- mapM f l' ;; ret (b :: bs)
  end.

(* ================================================================= *)
(** ** Vectors, machine integers, comparisons on doubles *)

(** [v[i]] *)
Definition vec_at {A} (v : list A) (i : nat) : Res A :=
  match nth_error v i with
  | Some a => inr a
  | None => inl (out_of_range i (length v))
  end.

Fixpoint upd {A} (v : list A) (i : nat) (a : A) : list A :=
  match v, i with
  | [], _ => []
  | _ :: v', O => a :: v'
  | x :: v', S i' => x :: upd v' i' a
  end.

(** [v[i] = a] *)
Definition vec_set {A} (v : list A) (i : nat) (a : A) : Res (list A) :=
  if (i <? length v)%nat then inr (upd v i a)
  else inl (out_of_range i (length v)).

(** Conversion to [size_t] (64 bits) and to [int] (32 bits, two's complement). *)
Definition as_size_t (z : Z) : Z := (z mod 2 ^ 64)%Z.
Definition as_int (z : Z) : Z := ((z + 2 ^ 31) mod 2 ^ 32 - 2 ^ 31)%Z.

(** [x < y] and [x > y] on doubles *)
Definition Qltb (x y : Q) : bool := negb (Qle_bool y x).
Definition Qgtb (x y : Q) : bool := Qltb y x.

(* ================================================================= *)
(** ** Constants of the controller *)

Definition M_PI : Q := 3.14159265358979323846.
Definition N_PARAMS : nat := 4.

(** Set by the constructor's initialiser list and never assigned again. *)
Definition nClusters : nat := 2.
Definition musclesPerCluster : nat := 4.
Definition nPrisms : nat := 2.
Definition nActions : nat := nClusters + nPrisms.

(* ================================================================= *)
(** ** The robot model, as the controller sees it *)

Record btVector3 : Type := mkVec { vx : Q; vy : Q; vz : Q }.

(** [tgSpringCableActuator::SpringCableActuatorHistory], the two fields read. *)
Record SpringCableActuatorHistory : Type := mkHistory {
  tensionHistory : list Q;
  restLengths : list Q
}.

(** The two prismatic joints of the robot. *)
Inductive Prismatic : Type := BottomPrismatic | TopPrismatic.

Definition Prismatic_eqb (p q : Prismatic) : bool :=
  match p, q with
  | BottomPrismatic, BottomPrismatic => true
  | TopPrismatic, TopPrismatic => true
  | _, _ => false
  end.

(** A muscle is named by its position in [getAllMuscles()]. *)
Definition Muscle : Type := nat.

(** What the controller reads from [DuCTTRobotModel& subject] during one call.
    Touch sensors are given by the value of [isTouching()]. *)
Record DuCTTRobotModel : Type := mkSubject {
  getAllMuscles : list SpringCableActuatorHistory;
  findCluster : nat -> list Muscle;   (* find<tgBasicActuator>("string cluster" + k) *)
  topTouchSensors : list bool;
  bottomTouchSensors : list bool;
  getCOM : btVector3;
  getTetraCOM : bool -> btVector3;    (* argument [true]: bottom (the default) *)
  getMinLength : Prismatic -> Q;
  getActualLength : Prismatic -> Q
}.

(** A target computed as [amplitude * sin(angularFrequency * t + phase) + dcOffset],
    or a plain double. *)
Inductive Target : Type :=
| Plain (x : Q)
| Sine (amplitude angularFrequency t phase dcOffset : Q).

(** What the controller asks of the robot and of the learning adapter. *)
Inductive Command : Type :=
| setControlInput (m : Muscle) (input dt : Q)
| control (m : Muscle) (dt setPoint : Q) (newVelocity : Target)  (* imp_controller->control *)
| setPreferredLength (p : Prismatic) (len : Target)
| muscleMoveMotors (m : Muscle) (dt : Q)
| prismMoveMotors (p : Prismatic) (dt : Q)
| endEpisode (neuro : bool) (scores : list Q).

(* ================================================================= *)
(** ** The controller's state

    The members are those the constructor initialises and the member
    functions use.  The two debounce counters are counted in [Z]: an episode
    would need some 2^31 ticks without a transition to take them out of the
    range of an [int]. *)

Record Controller : Type := mkController {
  m_isLearning : bool;
  m_initialLength : Q;
  m_usingManualParams : bool;
  m_axis : Z;
  m_bUseNeuro : bool;
  m_totalTime : Q;
  m_bBadRun : bool;
  m_bIgnoreTouchSensors : bool;
  m_bRecordedStart : bool;
  bottomCounter : Z;
  topCounter : Z;
  m_dHistorisisSeconds : Q;
  m_bBottomPaused : bool;
  m_bTopPaused : bool;
  initPosition : btVector3;
  clusters : list (list (option Muscle));     (* [None]: a NULL pointer *)
  prisms : list (option Prismatic);
  (* the four [new double[nActions]] arrays; [None] when not allocated *)
  amplitude : option (list Q);
  angularFrequency : option (list Q);
  phaseChange : option (list Q);
  dcOffset : option (list Q);
  m_actions : list (list Q);
  (* [static const double maxCount] of [isLocked]: [None] until the first call *)
  isLocked_maxCount : option Q
}.

(* ================================================================= *)
(** ** Reading text: [std::getline] *)

Open Scope string_scope.

(** The strings that successive calls [getline(stream, str, delim)] extract
    from a fresh stream holding [s], up to the first call that fails; [cell]
    holds the characters of the current call. *)
Fixpoint getlines (delim : ascii) (s cell : string) : list string :=
  match s with
  | EmptyString => match cell with EmptyString => [] | _ => [cell] end
  | String c s' =>
      if Ascii.eqb c delim then cell :: getlines delim s' EmptyString
      else getlines delim s' (cell ++ String c EmptyString)
  end.

(** The value of [str] once a call has failed: a call on a stream that is
    still good erases [str] before it finds nothing to extract; a call on a
    stream whose last extraction ran into the end leaves [str] as it is. *)
Fixpoint str_after_failure (delim : ascii) (s cell : string) : string :=
  match s with
  | EmptyString => cell
  | String c s' =>
      if Ascii.eqb c delim then str_after_failure delim s' EmptyString
      else str_after_failure delim s' (cell ++ String c EmptyString)
  end.

(** [string line; if (infile.is_open()) for (i < lineNumber) getline(infile, line);]
    with [infile = None] for a file that cannot be opened. *)
Definition grabLine (infile : option string) (lineNumber : nat) : string :=
  match infile, lineNumber with
  | Some s, S k =>
      nth k (getlines "010" s EmptyString) (str_after_failure "010" s EmptyString)
  | _, _ => EmptyString
  end.

Close Scope string_scope.

(* ================================================================= *)
(** ** Assignments to the controller's members

    [set_f v st] is the state after [f = v]. *)

Definition set_m_totalTime v (st : Controller) : Controller :=
  mkController (m_isLearning st) (m_initialLength st) (m_usingManualParams st)
    (m_axis st) (m_bUseNeuro st) v (m_bBadRun st) (m_bIgnoreTouchSensors st)
    (m_bRecordedStart st) (bottomCounter st) (topCounter st)
    (m_dHistorisisSeconds st) (m_bBottomPaused st) (m_bTopPaused st)
    (initPosition st) (clusters st) (prisms st) (amplitude st) (angularFrequency
    st) (phaseChange st) (dcOffset st) (m_actions st) (isLocked_maxCount st).

Definition set_m_bBadRun v (st : Controller) : Controller :=
  mkController (m_isLearning st) (m_initialLength st) (m_usingManualParams st)
    (m_axis st) (m_bUseNeuro st) (m_totalTime st) v (m_bIgnoreTouchSensors st)
    (m_bRecordedStart st) (bottomCounter st) (topCounter st)
    (m_dHistorisisSeconds st) (m_bBottomPaused st) (m_bTopPaused st)
    (initPosition st) (clusters st) (prisms st) (amplitude st) (angularFrequency
    st) (phaseChange st) (dcOffset st) (m_actions st) (isLocked_maxCount st).

Definition set_m_bIgnoreTouchSensors v (st : Controller) : Controller :=
  mkController (m_isLearning st) (m_initialLength st) (m_usingManualParams st)
    (m_axis st) (m_bUseNeuro st) (m_totalTime st) (m_bBadRun st) v
    (m_bRecordedStart st) (bottomCounter st) (topCounter st)
    (m_dHistorisisSeconds st) (m_bBottomPaused st) (m_bTopPaused st)
    (initPosition st) (clusters st) (prisms st) (amplitude st) (angularFrequency
    st) (phaseChange st) (dcOffset st) (m_actions st) (isLocked_maxCount st).

Definition set_m_bRecordedStart v (st : Controller) : Controller :=
  mkController (m_isLearning st) (m_initialLength st) (m_usingManualParams st)
    (m_axis st) (m_bUseNeuro st) (m_totalTime st) (m_bBadRun st)
    (m_bIgnoreTouchSensors st) v (bottomCounter st) (topCounter st)
    (m_dHistorisisSeconds st) (m_bBottomPaused st) (m_bTopPaused st)
    (initPosition st) (clusters st) (prisms st) (amplitude st) (angularFrequency
    st) (phaseChange st) (dcOffset st) (m_actions st) (isLocked_maxCount st).

Definition set_bottomCounter v (st : Controller) : Controller :=
  mkController (m_isLearning st) (m_initialLength st) (m_usingManualParams st)
    (m_axis st) (m_bUseNeuro st) (m_totalTime st) (m_bBadRun st)
    (m_bIgnoreTouchSensors st) (m_bRecordedStart st) v (topCounter st)
    (m_dHistorisisSeconds st) (m_bBottomPaused st) (m_bTopPaused st)
    (initPosition st) (clusters st) (prisms st) (amplitude st) (angularFrequency
    st) (phaseChange st) (dcOffset st) (m_actions st) (isLocked_maxCount st).

Definition set_topCounter v (st : Controller) : Controller :=
  mkController (m_isLearning st) (m_initialLength st) (m_usingManualParams st)
    (m_axis st) (m_bUseNeuro st) (m_totalTime st) (m_bBadRun st)
    (m_bIgnoreTouchSensors st) (m_bRecordedStart st) (bottomCounter st) v
    (m_dHistorisisSeconds st) (m_bBottomPaused st) (m_bTopPaused st)
    (initPosition st) (clusters st) (prisms st) (amplitude st) (angularFrequency
    st) (phaseChange st) (dcOffset st) (m_actions st) (isLocked_maxCount st).

Definition set_m_dHistorisisSeconds v (st : Controller) : Controller :=
  mkController (m_isLearning st) (m_initialLength st) (m_usingManualParams st)
    (m_axis st) (m_bUseNeuro st) (m_totalTime st) (m_bBadRun st)
    (m_bIgnoreTouchSensors st) (m_bRecordedStart st) (bottomCounter st)
    (topCounter st) v (m_bBottomPaused st) (m_bTopPaused st) (initPosition st)
    (clusters st) (prisms st) (amplitude st) (angularFrequency st) (phaseChange
    st) (dcOffset st) (m_actions st) (isLocked_maxCount st).

Definition set_m_bBottomPaused v (st : Controller) : Controller :=
  mkController (m_isLearning st) (m_initialLength st) (m_usingManualParams st)
    (m_axis st) (m_bUseNeuro st) (m_totalTime st) (m_bBadRun st)
    (m_bIgnoreTouchSensors st) (m_bRecordedStart st) (bottomCounter st)
    (topCounter st) (m_dHistorisisSeconds st) v (m_bTopPaused st) (initPosition
    st) (clusters st) (prisms st) (amplitude st) (angularFrequency st)
    (phaseChange st) (dcOffset st) (m_actions st) (isLocked_maxCount st).

Definition set_m_bTopPaused v (st : Controller) : Controller :=
  mkController (m_isLearning st) (m_initialLength st) (m_usingManualParams st)
    (m_axis st) (m_bUseNeuro st) (m_totalTime st) (m_bBadRun st)
    (m_bIgnoreTouchSensors st) (m_bRecordedStart st) (bottomCounter st)
    (topCounter st) (m_dHistorisisSeconds st) (m_bBottomPaused st) v
    (initPosition st) (clusters st) (prisms st) (amplitude st) (angularFrequency
    st) (phaseChange st) (dcOffset st) (m_actions st) (isLocked_maxCount st).

Definition set_initPosition v (st : Controller) : Controller :=
  mkController (m_isLearning st) (m_initialLength st) (m_usingManualParams st)
    (m_axis st) (m_bUseNeuro st) (m_totalTime st) (m_bBadRun st)
    (m_bIgnoreTouchSensors st) (m_bRecordedStart st) (bottomCounter st)
    (topCounter st) (m_dHistorisisSeconds st) (m_bBottomPaused st) (m_bTopPaused
    st) v (clusters st) (prisms st) (amplitude st) (angularFrequency st)
    (phaseChange st) (dcOffset st) (m_actions st) (isLocked_maxCount st).

Definition set_clusters v (st : Controller) : Controller :=
  mkController (m_isLearning st) (m_initialLength st) (m_usingManualParams st)
    (m_axis st) (m_bUseNeuro st) (m_totalTime st) (m_bBadRun st)
    (m_bIgnoreTouchSensors st) (m_bRecordedStart st) (bottomCounter st)
    (topCounter st) (m_dHistorisisSeconds st) (m_bBottomPaused st) (m_bTopPaused
    st) (initPosition st) v (prisms st) (amplitude st) (angularFrequency st)
    (phaseChange st) (dcOffset st) (m_actions st) (isLocked_maxCount st).

Definition set_prisms v (st : Controller) : Controller :=
  mkController (m_isLearning st) (m_initialLength st) (m_usingManualParams st)
    (m_axis st) (m_bUseNeuro st) (m_totalTime st) (m_bBadRun st)
    (m_bIgnoreTouchSensors st) (m_bRecordedStart st) (bottomCounter st)
    (topCounter st) (m_dHistorisisSeconds st) (m_bBottomPaused st) (m_bTopPaused
    st) (initPosition st) (clusters st) v (amplitude st) (angularFrequency st)
    (phaseChange st) (dcOffset st) (m_actions st) (isLocked_maxCount st).

Definition set_amplitude v (st : Controller) : Controller :=
  mkController (m_isLearning st) (m_initialLength st) (m_usingManualParams st)
    (m_axis st) (m_bUseNeuro st) (m_totalTime st) (m_bBadRun st)
    (m_bIgnoreTouchSensors st) (m_bRecordedStart st) (bottomCounter st)
    (topCounter st) (m_dHistorisisSeconds st) (m_bBottomPaused st) (m_bTopPaused
    st) (initPosition st) (clusters st) (prisms st) v (angularFrequency st)
    (phaseChange st) (dcOffset st) (m_actions st) (isLocked_maxCount st).

Definition set_angularFrequency v (st : Controller) : Controller :=
  mkController (m_isLearning st) (m_initialLength st) (m_usingManualParams st)
    (m_axis st) (m_bUseNeuro st) (m_totalTime st) (m_bBadRun st)
    (m_bIgnoreTouchSensors st) (m_bRecordedStart st) (bottomCounter st)
    (topCounter st) (m_dHistorisisSeconds st) (m_bBottomPaused st) (m_bTopPaused
    st) (initPosition st) (clusters st) (prisms st) (amplitude st) v
    (phaseChange st) (dcOffset st) (m_actions st) (isLocked_maxCount st).

Definition set_phaseChange v (st : Controller) : Controller :=
  mkController (m_isLearning st) (m_initialLength st) (m_usingManualParams st)
    (m_axis st) (m_bUseNeuro st) (m_totalTime st) (m_bBadRun st)
    (m_bIgnoreTouchSensors st) (m_bRecordedStart st) (bottomCounter st)
    (topCounter st) (m_dHistorisisSeconds st) (m_bBottomPaused st) (m_bTopPaused
    st) (initPosition st) (clusters st) (prisms st) (amplitude st)
    (angularFrequency st) v (dcOffset st) (m_actions st) (isLocked_maxCount st).

Definition set_dcOffset v (st : Controller) : Controller :=
  mkController (m_isLearning st) (m_initialLength st) (m_usingManualParams st)
    (m_axis st) (m_bUseNeuro st) (m_totalTime st) (m_bBadRun st)
    (m_bIgnoreTouchSensors st) (m_bRecordedStart st) (bottomCounter st)
    (topCounter st) (m_dHistorisisSeconds st) (m_bBottomPaused st) (m_bTopPaused
    st) (initPosition st) (clusters st) (prisms st) (amplitude st)
    (angularFrequency st) (phaseChange st) v (m_actions st) (isLocked_maxCount
    st).

Definition set_m_actions v (st : Controller) : Controller :=
  mkController (m_isLearning st) (m_initialLength st) (m_usingManualParams st)
    (m_axis st) (m_bUseNeuro st) (m_totalTime st) (m_bBadRun st)
    (m_bIgnoreTouchSensors st) (m_bRecordedStart st) (bottomCounter st)
    (topCounter st) (m_dHistorisisSeconds st) (m_bBottomPaused st) (m_bTopPaused
    st) (initPosition st) (clusters st) (prisms st) (amplitude st)
    (angularFrequency st) (phaseChange st) (dcOffset st) v (isLocked_maxCount
    st).

Definition set_isLocked_maxCount v (st : Controller) : Controller :=
  mkController (m_isLearning st) (m_initialLength st) (m_usingManualParams st)
    (m_axis st) (m_bUseNeuro st) (m_totalTime st) (m_bBadRun st)
    (m_bIgnoreTouchSensors st) (m_bRecordedStart st) (bottomCounter st)
    (topCounter st) (m_dHistorisisSeconds st) (m_bBottomPaused st) (m_bTopPaused
    st) (initPosition st) (clusters st) (prisms st) (amplitude st)
    (angularFrequency st) (phaseChange st) (dcOffset st) (m_actions st) v.

(* ================================================================= *)
(** ** The controller's member functions *)

Open Scope Q_scope.

(** The constructor.  [learning] is the value the configuration file gives for
    the key "learning"; [start] is what the default-constructed [initPosition]
    happens to hold. *)
Definition DuCTTLearningController (initialLength : Q) (useManualParams : bool)
    (axis : Z) (neuro : bool) (learning : bool) (start : btVector3) : Controller :=
  {| m_isLearning := learning;
     m_initialLength := initialLength;
     m_usingManualParams := useManualParams;
     m_axis := axis;
     m_bUseNeuro := neuro;
     m_totalTime := 0.0;
     m_bBadRun := false;
     m_bIgnoreTouchSensors := true;
     m_bRecordedStart := false;
     bottomCounter := 0;
     topCounter := 0;
     m_dHistorisisSeconds := 0.5;
     m_bBottomPaused := false;
     m_bTopPaused := false;
     initPosition := start;
     clusters := repeat (repeat None musclesPerCluster) nClusters;
     prisms := repeat None nPrisms;
     amplitude := None;
     angularFrequency := None;
     phaseChange := None;
     dcOffset := None;
     m_actions := [];
     isLocked_maxCount := None |}.

(** [a[i]] and [a[i] = x] on one of the four raw arrays *)
Definition arr_at (a : option (list Q)) (i : nat) : Res Q :=
  match a with
  | Some v => vec_at v i
  | None => inl bad_pointer
  end.

Definition arr_set (a : option (list Q)) (i : nat) (x : Q) : Res (option (list Q)) :=
  match a with
  | Some v => v' <- vec_set v i x ;; ret (Some v')
  | None => inl bad_pointer
  end.

(** *** readManualParams *)

Definition numParams : nat := nActions * N_PARAMS + 2.

Section ReadManualParams.

Variable atof : string -> Q.

(** [while (getline(lineStream, cell, ',') && iCell <= numParams)
       { result[iCell] = atof(cell.c_str()); iCell++; }]
    over the cells that [getline] extracts from the line. *)
Fixpoint readCells (cells : list string) (iCell : nat) (result : list Q)
  : Res (list Q) :=
  match cells with
  | [] => ret result
  | cell :: cells' =>
      if (iCell <=? numParams)%nat then
        result' <- vec_set result iCell (atof cell) ;;
        readCells cells' (S iCell) result'
      else ret result
  end.

(** [seed = ((double) (rand() % 100)) / 100; result[i] += (0.01 * seed) - 0.005;]
    where [r] is the value [rand()] returns. *)
Definition tweak (r : Z) (x : Q) : Q :=
  let seed := inject_Z (Z.rem r 100) / 100 in
  x + ((0.01 * seed) - 0.005).

(** The last loop: [rand i] is the value of the call of [rand()] made for cell [i]. *)
Fixpoint tweakFrom (rand : nat -> Z) (i : nat) (result : list Q) : list Q :=
  match result with
  | [] => []
  | x :: result' => tweak (rand i) x :: tweakFrom rand (S i) result'
  end.

Definition readManualParams (rand : nat -> Z) (lineNumber : Z) (infile : option string)
  : Res (list Q) :=
  if (lineNumber <=? 0)%Z then inl (assertion_failure "lineNumber > 0")
  else
    let result := repeat 1.0 numParams in
    let line := grabLine infile (Z.to_nat lineNumber) in
    result <- readCells (getlines "," line EmptyString) 0 result ;;
    ret (tweakFrom rand 0 result).

(** *** transformActions *)

(** [mins], [maxes] and [ranges], each a [double[N_PARAMS]] *)
Definition mins : list Q := [0; 0.3; -1 * M_PI; 0].
Definition maxes : list Q := [40; 20; M_PI; 40].
Definition ranges : list Q :=
  [nth 0 maxes 0 - nth 0 mins 0; nth 1 maxes 0 - nth 1 mins 0;
   nth 2 maxes 0 - nth 2 mins 0; nth 3 maxes 0 - nth 3 mins 0].

(** [newActions[i][j] = params[i*N_PARAMS + j]*(ranges[j])+mins[j]] for [j < N_PARAMS] *)
Definition scaleChannel (params : list Q) (i : nat) : Res (list Q) :=
  mapM (fun j => p <- vec_at params (i * N_PARAMS + j) ;;
                 ret (p * (nth j ranges 0) + nth j mins 0))
       (seq 0 N_PARAMS).

(** The vector [params] that is decoded: the manual parameters or [actions[0]]. *)
Definition chooseParams (st : Controller) (rand : nat -> Z) (infile : option string)
    (actions : list (list Q)) : Res (list Q) :=
  if m_usingManualParams st then readManualParams rand 1 infile
  else vec_at actions 0.

(** The index [params.size() - off] where [int off = size - k]: the
    subtractions are made in [size_t], [off] is an [int]. *)
Definition flagIndex (paramsSize size : nat) (k : nat) : nat :=
  let off := as_int (as_size_t (Z.of_nat size - Z.of_nat k)) in
  Z.to_nat (as_size_t (Z.of_nat paramsSize - off)).

Definition transformActions (st : Controller) (rand : nat -> Z)
    (infile : option string) (actions : list (list Q))
  : Res (list (list Q) * Controller) :=
  params <- chooseParams st rand infile actions ;;
  newActions <- mapM (scaleChannel params) (seq 0 nActions) ;;
  st1 <- (if negb (length params mod 4 =? 0)%nat then
            actions0 <- vec_at actions 0 ;;
            touchParam <- vec_at params
              (flagIndex (length params) (length actions0) (nActions * N_PARAMS)) ;;
            ret (set_m_bIgnoreTouchSensors (Qltb touchParam 0.5) st)
          else ret st) ;;
  st2 <- (if negb (length params mod 4 =? 0)%nat then
            let minHistorisis := 0.0 in
            let maxHistorisis := 2.0 in
            let historisisRange := maxHistorisis - minHistorisis in
            p <- vec_at params
              (flagIndex (length params) (length params) (nActions * N_PARAMS + 1)) ;;
            ret (set_m_dHistorisisSeconds (p * historisisRange + minHistorisis) st1)
          else ret st1) ;;
  ret (newActions, st2).

End ReadManualParams.

(** *** populateClusters, initializeSineWaves, applyActions *)

Definition populateClusters (subject : DuCTTRobotModel) (st : Controller)
  : Res Controller :=
  cls <- (fix loop (cs : list nat) (cls : list (list (option Muscle))) :=
            match cs with
            | [] => ret cls
            | cluster :: cs' =>
                cls' <- vec_set cls cluster (map Some (findCluster subject (cluster + 1))) ;;
                loop cs' cls'
            end) (seq 0 nClusters) (clusters st) ;;
  prs <- (fix loop (ps : list nat) (prs : list (option Prismatic)) :=
            match ps with
            | [] => ret prs
            | prism :: ps' =>
                prs' <- match prism with
                        | 0%nat => vec_set prs prism (Some BottomPrismatic)
                        | 1%nat => vec_set prs prism (Some TopPrismatic)
                        | _ => ret prs
                        end ;;
                loop ps' prs'
            end) (seq 0 nPrisms) (prisms st) ;;
  ret (set_prisms prs (set_clusters cls st)).

(** [new double[nActions]] four times; [fresh k i] is what cell [i] of the
    [k]-th array holds before anything is written to it. *)
Definition initializeSineWaves (fresh : nat -> nat -> Q) (st : Controller) : Controller :=
  let alloc k := Some (map (fresh k) (seq 0 nActions)) in
  set_dcOffset (alloc 3%nat)
    (set_phaseChange (alloc 2%nat)
      (set_angularFrequency (alloc 1%nat)
        (set_amplitude (alloc 0%nat) st))).

(** The four assignments [amplitude[idx] = actions[idx][0]; ... dcOffset[idx] = actions[idx][3];] *)
Definition applyChannel (actions : list (list Q)) (idx : nat) (st : Controller)
  : Res Controller :=
  row <- vec_at actions idx ;;
  x0 <- vec_at row 0 ;; a <- arr_set (amplitude st) idx x0 ;;
  x1 <- vec_at row 1 ;; w <- arr_set (angularFrequency st) idx x1 ;;
  x2 <- vec_at row 2 ;; p <- arr_set (phaseChange st) idx x2 ;;
  x3 <- vec_at row 3 ;; d <- arr_set (dcOffset st) idx x3 ;;
  ret (set_dcOffset d (set_phaseChange p (set_angularFrequency w (set_amplitude a st)))).

(** [size_t idx = prism + clusters.size()-1] *)
Definition prismChannel (st : Controller) (prism : nat) : nat :=
  Z.to_nat (as_size_t (Z.of_nat prism + Z.of_nat (length (clusters st)) - 1)).

Fixpoint applyEach (actions : list (list Q)) (idxs : list nat) (st : Controller)
  : Res Controller :=
  match idxs with
  | [] => ret st
  | idx :: idxs' => st' <- applyChannel actions idx st ;; applyEach actions idxs' st'
  end.

Definition applyActions (actions : list (list Q)) (st : Controller) : Res Controller :=
  if negb (length actions =? nActions)%nat
  then inl (assertion_failure "actions.size() == nActions")
  else
    (* Apply actions by cluster *)
    st1 <- applyEach actions (seq 0 (length (clusters st))) st ;;
    (* Apply prism actions *)
    applyEach actions (map (prismChannel st1) (seq 0 (length (prisms st1)))) st1.

(** *** totalEnergySpent *)

(** The inner loop, [j] from [1] while [j < tensionHistory.size()] *)
Definition workDone (stringHist : SpringCableActuatorHistory) (j : nat) : Res Q :=
  previousTension <- vec_at (tensionHistory stringHist) (j - 1) ;;
  previousLength <- vec_at (restLengths stringHist) (j - 1) ;;
  currentLength <- vec_at (restLengths stringHist) j ;;
  let motorSpeed := currentLength - previousLength in
  let motorSpeed := if Qgtb motorSpeed 0 then 0 else motorSpeed in
  ret (previousTension * motorSpeed).

Fixpoint energyOfString (stringHist : SpringCableActuatorHistory) (js : list nat)
    (totalEnergySpent : Q) : Res Q :=
  match js with
  | [] => ret totalEnergySpent
  | j :: js' =>
      w <- workDone stringHist j ;;
      energyOfString stringHist js' (totalEnergySpent + w)
  end.

Fixpoint energyOfStrings (tmpStrings : list SpringCableActuatorHistory)
    (totalEnergySpent : Q) : Res Q :=
  match tmpStrings with
  | [] => ret totalEnergySpent
  | stringHist :: rest =>
      e <- energyOfString stringHist
             (seq 1 (length (tensionHistory stringHist) - 1)) totalEnergySpent ;;
      energyOfStrings rest e
  end.

Definition totalEnergySpent (subject : DuCTTRobotModel) : Res Q :=
  energyOfStrings (getAllMuscles subject) 0.

(** *** shouldPause, isLocked *)

Definition shouldPause (touchSensors : list bool) : bool :=
  fold_left (fun shouldPause isTouching => if negb isTouching then false else shouldPause)
            touchSensors true.

Definition isLocked (subject : DuCTTRobotModel) (isTop : bool) (st : Controller)
  : bool * Controller :=
  (* static const double maxCount = m_dHistorisisSeconds*1000; *)
  let maxCount := match isLocked_maxCount st with
                  | Some m => m
                  | None => m_dHistorisisSeconds st * 1000
                  end in
  let st := set_isLocked_maxCount (Some maxCount) st in
  let sPause := if isTop then shouldPause (topTouchSensors subject)
                else shouldPause (bottomTouchSensors subject) in
  let sUnPause := if isTop then shouldPause (bottomTouchSensors subject)
                  else shouldPause (topTouchSensors subject) in
  let st :=
    if isTop then
      if (sPause && negb (m_bTopPaused st)) || (sUnPause && m_bTopPaused st)
      then set_topCounter (topCounter st + 1)%Z st else st
    else
      if (sPause && negb (m_bBottomPaused st)) || (sUnPause && m_bBottomPaused st)
      then set_bottomCounter (bottomCounter st + 1)%Z st else st in
  if sPause then
    if isTop && Qgtb (inject_Z (topCounter st)) maxCount then
      if negb (m_bTopPaused st)
      then (true, set_topCounter 0%Z (set_m_bTopPaused true st))
      else (false, set_topCounter 0%Z (set_m_bTopPaused false st))
    else if negb isTop && Qgtb (inject_Z (bottomCounter st)) maxCount then
      if negb (m_bBottomPaused st)
      then (true, set_bottomCounter 0%Z (set_m_bBottomPaused true st))
      else (false, set_bottomCounter 0%Z (set_m_bBottomPaused false st))
    else (false, st)
  else (false, st).

(** *** setPreferredMuscleLengths, setPrismaticLengths, moveMotors *)

(** [amplitude[idx] * sin(angularFrequency[idx] * m_totalTime + phase) + dcOffset[idx]] *)
Definition sineOf (st : Controller) (idx : nat) (phase : Q) : Res Target :=
  a <- arr_at (amplitude st) idx ;;
  w <- arr_at (angularFrequency st) idx ;;
  d <- arr_at (dcOffset st) idx ;;
  ret (Sine a w (m_totalTime st) phase d).

Definition controlNode (st : Controller) (dt : Q) (cluster : nat) (phase : Q)
    (node : nat) : Res Command :=
  row <- vec_at (clusters st) cluster ;;
  pMuscle <- vec_at row node ;;
  match pMuscle with
  | None => inl (assertion_failure "pMuscle != NULL")
  | Some m =>
      newVelocity <- sineOf st cluster phase ;;
      ret (control m dt (m_initialLength st) newVelocity)
  end.

Fixpoint muscleLoop (st : Controller) (dt : Q) (cls : list nat) (phase : Q)
  : Res (list Command) :=
  match cls with
  | [] => ret []
  | cluster :: cls' =>
      cmds <- mapM (controlNode st dt cluster phase) (seq 0 musclesPerCluster) ;;
      pc <- arr_at (phaseChange st) cluster ;;
      more <- muscleLoop st dt cls' (phase + pc) ;;
      ret (cmds ++ more)
  end.

Definition setPreferredMuscleLengths (dt : Q) (st : Controller) : Res (list Command) :=
  let phase := 0 in
  muscleLoop st dt (seq 0 nClusters) phase.

Fixpoint prismLoop (subject : DuCTTRobotModel) (ps : list nat) (phase : Q)
    (st : Controller) : Res (Controller * list Command) :=
  match ps with
  | [] => ret (st, [])
  | prism :: ps' =>
      let idx := prismChannel st prism in
      pPrism <- vec_at (prisms st) prism ;;
      let isTop := match pPrism with Some TopPrismatic => true | _ => false end in
      let '(go, st1) :=
        if m_bIgnoreTouchSensors st then (true, st)
        else let '(locked, st') := isLocked subject isTop st in (negb locked, st') in
      cmds <- (if go then
                 newLength <- sineOf st1 idx phase ;;
                 match pPrism with
                 | Some p => ret [setPreferredLength p newLength]
                 | None => inl bad_pointer
                 end
               else ret []) ;;
      pc <- arr_at (phaseChange st1) idx ;;
      '(st2, more) <- prismLoop subject ps' (phase + pc) st1 ;;
      ret (st2, cmds ++ more)
  end.

Definition setPrismaticLengths (subject : DuCTTRobotModel) (st : Controller)
  : Res (Controller * list Command) :=
  let phase := 0 in
  prismLoop subject (seq 0 nPrisms) phase st.

Definition moveMotors (subject : DuCTTRobotModel) (dt : Q) : list Command :=
  map (fun i => muscleMoveMotors i dt) (seq 0 (length (getAllMuscles subject)))
  ++ [prismMoveMotors BottomPrismatic dt; prismMoveMotors TopPrismatic dt].

(** *** displacement, onStep, onTeardown, onSetup *)

Section Displacement.

Variable sqrt : Q -> Q.

Definition displacement (subject : DuCTTRobotModel) (st : Controller) : Q :=
  let finalPosition := getCOM subject in
  let newX := vx finalPosition in
  let newY := vy finalPosition in
  let newZ := vz finalPosition in
  let oldX := vx (initPosition st) in
  let oldY := vy (initPosition st) in
  let oldZ := vz (initPosition st) in
  let distanceMoved := sqrt ((newX-oldX) * (newX-oldX) +
                             (newY-oldY) * (newY-oldY) +
                             (newZ-oldZ) * (newZ-oldZ)) in
  match m_axis st with
  | 0%Z => Qabs (newX - oldX)
  | 2%Z => Qabs (newZ - oldZ)
  | 3%Z => distanceMoved
  | _ => newY - oldY
  end.

(** The outcome of a call from the simulation: how the call ended, the state
    it left and the commands it sent.  A call that ends with a fault other
    than an exception has met undefined behaviour: state and commands are then
    those reached before the faulting member function was entered. *)
Definition Outcome : Type := (Res unit * Controller * list Command)%type.

Definition onStep (subject : DuCTTRobotModel) (dt : Q) (st : Controller) : Outcome :=
  if Qle_bool dt 0.0 then (inl (invalid_argument "dt is not positive"), st, [])
  else
    let st := set_m_totalTime (m_totalTime st + dt) st in
    if Qltb (m_totalTime st) 3 then
      let '(locked, st) := isLocked subject false st in
      (ret tt, st,
       if locked
       then [setPreferredLength BottomPrismatic
               (Plain (getActualLength subject BottomPrismatic))]
       else [])
    else
      let st := if negb (m_bRecordedStart st)
                then set_m_bRecordedStart true (set_initPosition (getCOM subject) st)
                else st in
      let bottomCOM := getTetraCOM subject true in
      let topCOM := getTetraCOM subject false in
      let diffx := vx topCOM - vx bottomCOM in
      let diffy := vy topCOM - vy bottomCOM in
      let diffz := vz topCOM - vz bottomCOM in
      let tilting := if (m_axis st =? 1)%Z
                     then Qgtb (Qabs (diffx + diffz)) 1
                     else false in
      match setPreferredMuscleLengths dt st with
      | inl f => (inl f, st, [])
      | inr muscleCmds =>
          match setPrismaticLengths subject st with
          | inl f => (inl f, st, muscleCmds)
          | inr (st', prismCmds) =>
              let distance := displacement subject st' in
              (ret tt, st', muscleCmds ++ prismCmds ++ moveMotors subject dt)
          end
      end.

Definition onTeardown (subject : DuCTTRobotModel) (st : Controller) : Outcome :=
  let distance := displacement subject st in
  match totalEnergySpent subject with
  | inl f => (inl f, st, [])
  | inr energySpent =>
      let scores := [] in
      let scores := if negb (m_bBadRun st)
                    then scores ++ [distance]
                    else scores ++ [-1] in
      let scores := scores ++ [energySpent] in
      let sent := [endEpisode (m_bUseNeuro st) scores] in
      (* delete amplitude; delete angularFrequency; delete phaseChange; delete dcOffset; *)
      let st := set_dcOffset None (set_phaseChange None
                  (set_angularFrequency None (set_amplitude None st))) in
      let st := set_m_totalTime 0.0 st in
      let st := set_m_bRecordedStart false st in
      let st := set_m_bBadRun false st in
      (ret tt, st, sent)
  end.

End Displacement.

Section OnSetup.

Variable atof : string -> Q.

(** [step] is the value of [m_neuroAdapter.step(dt,state)] or of
    [m_evolutionAdapter.step(dt,state)], whichever is called. *)
Definition onSetup (subject : DuCTTRobotModel) (step : list (list Q))
    (rand : nat -> Z) (infile : option string) (fresh : nat -> nat -> Q)
    (st : Controller) : Outcome :=
  let dt := 0.0001 in
  let sent :=
    map (fun i => setControlInput i (m_initialLength st) dt)
        (seq 0 (length (getAllMuscles subject)))
    ++ [setPreferredLength BottomPrismatic (Plain (getMinLength subject BottomPrismatic));
        prismMoveMotors BottomPrismatic dt;
        setPreferredLength TopPrismatic (Plain (getMinLength subject TopPrismatic));
        prismMoveMotors TopPrismatic dt] in
  match populateClusters subject st with
  | inl f => (inl f, st, sent)
  | inr st =>
      let st := initializeSineWaves fresh st in
      let st := set_m_actions step st in
      match transformActions atof st rand infile (m_actions st) with
      | inl f => (inl f, st, sent)
      | inr (newActions, st) =>
          let st := set_m_actions newActions st in
          match applyActions (m_actions st) st with
          | inl f => (inl f, st, sent)
          | inr st => (ret tt, st, sent)
          end
      end
  end.

End OnSetup.

(* ================================================================= *)
(** ** Definitions used to state the properties *)

(** The decoding of one channel as the specification words it:
    [scaled = raw*(max-min)+min] with amplitude in [0,40], frequency in
    [0.3,20], phase in [-pi,pi] and offset in [0,40]. *)
Definition decodeChannel (r0 r1 r2 r3 : Q) : list Q :=
  [r0 * (40 - 0) + 0;
   r1 * (20 - 0.3) + 0.3;
   r2 * (M_PI - -1 * M_PI) + -1 * M_PI;
   r3 * (40 - 0) + 0].

(** Channel [i] is decoded from the four consecutive slots that start at [4*i]. *)
Definition channelOf (raw : list Q) (i : nat) : list Q :=
  decodeChannel (nth (i * N_PARAMS + 0) raw 0) (nth (i * N_PARAMS + 1) raw 0)
                (nth (i * N_PARAMS + 2) raw 0) (nth (i * N_PARAMS + 3) raw 0).

Definition channelsOf (raw : list Q) : list (list Q) :=
  map (channelOf raw) (seq 0 nActions).

(** A channel tuple whose four values lie in their declared ranges. *)
Definition InRange (channel : list Q) : Prop :=
  exists a w p d,
    channel = [a; w; p; d] /\
    (0 <= a <= 40) /\ (0.3 <= w <= 20) /\ (- M_PI <= p <= M_PI) /\ (0 <= d <= 40).

Definition unitInterval (r : Q) : Prop := 0 <= r <= 1.

(** The energy metric as the specification words it: over every actuator and
    every pair of consecutive history samples,
    [previousTension * min(0, currentRestLength - previousRestLength)]. *)
Fixpoint contractionWork (tensions rests : list Q) : Q :=
  match tensions, rests with
  | previousTension :: ((_ :: _) as tensions'),
    previousRestLength :: ((currentRestLength :: _) as rests') =>
      previousTension * Qmin 0 (currentRestLength - previousRestLength)
      + contractionWork tensions' rests'
  | _, _ => 0
  end.

Fixpoint energyMetric (muscles : list SpringCableActuatorHistory) : Q :=
  match muscles with
  | [] => 0
  | h :: muscles' =>
      contractionWork (tensionHistory h) (restLengths h) + energyMetric muscles'
  end.

(** Every rest-length delta between consecutive samples is nonnegative. *)
Fixpoint noContraction (rests : list Q) : Prop :=
  match rests with
  | previous :: ((current :: _) as rests') =>
      0 <= current - previous /\ noContraction rests'
  | _ => True
  end.

(** A history as the actuator records it: one rest length per tension sample. *)
Definition parallelHistory (h : SpringCableActuatorHistory) : Prop :=
  length (restLengths h) = length (tensionHistory h).

(** The lock state of one joint, and the two signals it reads. *)
Definition isPaused (isTop : bool) (st : Controller) : bool :=
  if isTop then m_bTopPaused st else m_bBottomPaused st.

Definition debounceCounter (isTop : bool) (st : Controller) : Z :=
  if isTop then topCounter st else bottomCounter st.

Definition pauseSignal (isTop : bool) (subject : DuCTTRobotModel) : bool :=
  if isTop then shouldPause (topTouchSensors subject)
  else shouldPause (bottomTouchSensors subject).

Definition unpauseSignal (isTop : bool) (subject : DuCTTRobotModel) : bool :=
  pauseSignal (negb isTop) subject.

(** One evaluation of the lock state machine of a joint per tick; [subjects]
    gives the robot at each tick.  The result lists what [isLocked] returned. *)
Fixpoint lockTicks (isTop : bool) (subjects : list DuCTTRobotModel) (st : Controller)
  : list bool * Controller :=
  match subjects with
  | [] => ([], st)
  | subject :: subjects' =>
      let '(locked, st') := isLocked subject isTop st in
      let '(more, st'') := lockTicks isTop subjects' st' in
      (locked :: more, st'')
  end.

(** The threshold the machine compares its counters with. *)
Definition maxCountOf (st : Controller) : Q :=
  match isLocked_maxCount st with
  | Some m => m
  | None => m_dHistorisisSeconds st * 1000
  end.

(** The static [maxCount] is not initialised yet, or holds the current
    [m_dHistorisisSeconds*1000]. *)
Definition maxCountCurrent (st : Controller) : Prop :=
  isLocked_maxCount st = None \/
  isLocked_maxCount st = Some (m_dHistorisisSeconds st * 1000).

(** Cells of the four arrays, and the muscle a cluster holds at a node. *)
Definition cell (a : option (list Q)) (i : nat) : Q :=
  match a with Some v => nth i v 0 | None => 0 end.

Definition muscleAt (st : Controller) (cluster node : nat) : Muscle :=
  match nth node (nth cluster (clusters st) []) None with
  | Some m => m
  | None => 0%nat
  end.

(** The arrays are allocated for [nActions] channels, every cluster holds
    [musclesPerCluster] muscles and the two joints are bound: the state
    [onSetup] establishes. *)
Definition allocated (a : option (list Q)) : Prop :=
  exists v, a = Some v /\ length v = nActions.

Definition isSetUp (st : Controller) : Prop :=
  allocated (amplitude st) /\ allocated (angularFrequency st) /\
  allocated (phaseChange st) /\ allocated (dcOffset st) /\
  length (clusters st) = nClusters /\
  Forall (fun row => length row = musclesPerCluster /\ Forall (fun m => m <> None) row)
         (clusters st) /\
  prisms st = [Some BottomPrismatic; Some TopPrismatic].

(** The phase an accumulator holds after it has added, one after the other
    and starting from [0], the [phaseChange] of the given channels. *)
Definition phaseAfter (st : Controller) (channels : list nat) : Q :=
  fold_left (fun phase idx => phase + cell (phaseChange st) idx) channels 0.

(** The sine target of a channel evaluated at a phase. *)
Definition sineTarget (st : Controller) (idx : nat) (phase : Q) : Target :=
  Sine (cell (amplitude st) idx) (cell (angularFrequency st) idx)
       (m_totalTime st) phase (cell (dcOffset st) idx).

(** The components of the center-of-mass displacement. *)
Definition deltaX (subject : DuCTTRobotModel) (st : Controller) : Q :=
  vx (getCOM subject) - vx (initPosition st).
Definition deltaY (subject : DuCTTRobotModel) (st : Controller) : Q :=
  vy (getCOM subject) - vy (initPosition st).
Definition deltaZ (subject : DuCTTRobotModel) (st : Controller) : Q :=
  vz (getCOM subject) - vz (initPosition st).

(** A result that is not the exception [std::invalid_argument]. *)
Definition noThrow {A} (r : Res A) : Prop :=
  forall what, r <> inl (invalid_argument what).

(** The signals that make the counter of a joint advance while its paused
    flag is [paused], with the pause signal raised. *)
Definition advancing (isTop paused : bool) (s : DuCTTRobotModel) : Prop :=
  pauseSignal isTop s = true /\ (paused = true -> unpauseSignal isTop s = true).

(** The pause group of the joint is fully touching; it alone is; both groups are. *)
Definition pausing (isTop : bool) (s : DuCTTRobotModel) : Prop :=
  pauseSignal isTop s = true.
Definition pausingOnly (isTop : bool) (s : DuCTTRobotModel) : Prop :=
  pauseSignal isTop s = true /\ unpauseSignal isTop s = false.
Definition pausingBoth (isTop : bool) (s : DuCTTRobotModel) : Prop :=
  pauseSignal isTop s = true /\ unpauseSignal isTop s = true.

(** What [setPreferredMuscleLengths] sends for a cluster evaluated at a phase. *)
Definition clusterCommands (st : Controller) (dt : Q) (cluster : nat) (phase : Q)
  : list Command :=
  map (fun node => control (muscleAt st cluster node) dt (m_initialLength st)
                     (sineTarget st cluster phase))
      (seq 0 musclesPerCluster).

(** Two states that differ in the lock state at most. *)
Definition sameFrame (st' st : Controller) : Prop :=
  amplitude st' = amplitude st /\ angularFrequency st' = angularFrequency st /\
  phaseChange st' = phaseChange st /\ dcOffset st' = dcOffset st /\
  m_totalTime st' = m_totalTime st /\ clusters st' = clusters st /\
  prisms st' = prisms st /\ m_bIgnoreTouchSensors st' = m_bIgnoreTouchSensors st.

(** What [setPrismaticLengths] sends for a joint: nothing when the joint is
    found locked. *)
Definition jointCommand (go : bool) (p : Prismatic) (target : Target) : list Command :=
  if go then [setPreferredLength p target] else [].

(** The work [totalEnergySpent] adds for sample [j] of a history. *)
Definition work (T R : list Q) (j : nat) : Q :=
  nth (j - 1) T 0 *
  (if Qgtb (nth j R 0 - nth (j - 1) R 0) 0 then 0 else nth j R 0 - nth (j - 1) R 0).

(** The sine target of a decoded channel tuple. *)
Definition channelTarget (channel : list Q) (t phase : Q) : Target :=
  Sine (nth 0 channel 0) (nth 1 channel 0) t phase (nth 3 channel 0).

(* ----------------------------------------------------------------- *)
(** *** Concrete episodes *)

(** A robot of eight muscles, "string cluster1" holding muscles 0 to 3 and
    "string cluster2" muscles 4 to 7, with one touch sensor per group. *)
Definition robot (bottomTouching topTouching : bool) (com : btVector3)
  : DuCTTRobotModel :=
  {| getAllMuscles := repeat (mkHistory [] []) 8;
     findCluster := fun k => map (fun node => ((k - 1) * 4 + node)%nat) (seq 0 4);
     topTouchSensors := [topTouching];
     bottomTouchSensors := [bottomTouching];
     getCOM := com;
     getTetraCOM := fun _ => com;
     getMinLength := fun _ => 1;
     getActualLength := fun _ => 2 |}.

Definition origin : btVector3 := mkVec 0 0 0.

(** The controller as constructed for learning along the y axis. *)
Definition newController : Controller :=
  DuCTTLearningController 1 false 1 false true origin.

(** The state [onSetup] leaves when the adapter hands out [raw]. *)
Definition afterSetup (atof : string -> Q) (raw : list Q) : Controller :=
  snd (fst (onSetup atof (robot false false origin) [raw] (fun _ => 0%Z) None
                    (fun _ _ => 7) newController)).

(** Channel [k] has raw amplitude [k mod 2] and raw offset [k / 2]: the four
    channels decode to four different tuples. *)
Definition rawDistinct : list Q :=
  [0; 0; 0; 0;   1; 0; 0; 0;   0; 0; 0; 1;   1; 0; 0; 1].

(** Every raw phase slot is [1]: every [phaseChange] decodes to [M_PI]. *)
Definition rawPhases : list Q :=
  [0; 0; 1; 0;   0; 0; 1; 0;   0; 0; 1; 0;   0; 0; 1; 0].

(** Sixteen zeros and the two flags: do not ignore the touch sensors, no hysteresis. *)
Definition rawFlags : list Q := repeat 0 16 ++ [1; 0].

(** Sixteen zeros and the two flags: do not ignore the touch sensors, a
    hysteresis of one millisecond ([0.0005 * 2] seconds). *)
Definition rawQuick : list Q := repeat 0 16 ++ [1; 0.0005].

(** A robot of two muscles: the first contracts from rest length 5 to 4 under
    tension 1 and then lengthens, the second keeps its rest length. *)
Definition contractingRobot : DuCTTRobotModel :=
  {| getAllMuscles := [mkHistory [1; 2; 3] [5; 4; 6]; mkHistory [2; 2] [1; 1]];
     findCluster := fun _ => [];
     topTouchSensors := [];
     bottomTouchSensors := [];
     getCOM := mkVec 0 5 0;
     getTetraCOM := fun _ => origin;
     getMinLength := fun _ => 1;
     getActualLength := fun _ => 2 |}.

(** A line of nineteen fields. *)
Definition nineteenFields : string :=
  "0,0,0,0,0,0,0,0,0,0,0,0,0,0,0,0,0,0,0".

(* ================================================================= *)
(** ** Definitions for the further properties *)

(** The content of one array after [applyActions]: column [k] of the first
    [nActions - 1] rows of [actions], then the old last cell. *)
Definition copiedColumn (actions : list (list Q)) (k : nat) (old : option (list Q))
  : option (list Q) :=
  Some (map (fun i => nth k (nth i actions []) 0) (seq 0 (nActions - 1))
        ++ [cell old (nActions - 1)]).

(** The clusters and joints [populateClusters] binds. *)
Definition boundClusters (subject : DuCTTRobotModel) : list (list (option Muscle)) :=
  map (fun cluster => map Some (findCluster subject (cluster + 1))) (seq 0 nClusters).

Definition boundPrisms : list (option Prismatic) :=
  [Some BottomPrismatic; Some TopPrismatic].

(** The lengths of an adapter vector that [transformActions] decodes without
    reading past its end. *)
Definition acceptedLength (n : nat) : Prop :=
  (4 * nActions <= n)%nat /\
  ((n mod 4 = 0)%nat \/ ((4 * nActions + 2 <= n)%nat /\ (Z.of_nat n < 2 ^ 31)%Z)).

(** The state after the two flag blocks of [transformActions]. *)
Definition decodedFlags (raw : list Q) (st : Controller) : Controller :=
  if (length raw mod 4 =? 0)%nat then st
  else set_m_dHistorisisSeconds (nth (4 * nActions + 1) raw 0 * (2.0 - 0.0) + 0.0)
         (set_m_bIgnoreTouchSensors (Qltb (nth (4 * nActions) raw 0) 0.5) st).

(** The state after [applyActions]. *)
Definition copiedChannels (actions : list (list Q)) (st : Controller) : Controller :=
  set_dcOffset (copiedColumn actions 3 (dcOffset st))
    (set_phaseChange (copiedColumn actions 2 (phaseChange st))
      (set_angularFrequency (copiedColumn actions 1 (angularFrequency st))
        (set_amplitude (copiedColumn actions 0 (amplitude st)) st))).

(** The state [onSetup] leaves when the adapter hands out [step], whose first
    vector is [raw]. *)
Definition setUpState (subject : DuCTTRobotModel) (step : list (list Q))
    (fresh : nat -> nat -> Q) (raw : list Q) (st : Controller) : Controller :=
  copiedChannels (channelsOf raw)
    (set_m_actions (channelsOf raw)
      (decodedFlags raw
        (set_m_actions step
          (initializeSineWaves fresh
            (set_prisms boundPrisms (set_clusters (boundClusters subject) st)))))).

(** The commands [onSetup] sends. *)
Definition setupCommands (subject : DuCTTRobotModel) (st : Controller) : list Command :=
  map (fun i => setControlInput i (m_initialLength st) 0.0001)
      (seq 0 (length (getAllMuscles subject)))
  ++ [setPreferredLength BottomPrismatic (Plain (getMinLength subject BottomPrismatic));
      prismMoveMotors BottomPrismatic 0.0001;
      setPreferredLength TopPrismatic (Plain (getMinLength subject TopPrismatic));
      prismMoveMotors TopPrismatic 0.0001].

(** [st'] is [st] but for the lock state. *)
Definition lockOnly (st' st : Controller) : Prop :=
  st' = set_isLocked_maxCount (isLocked_maxCount st')
          (set_m_bTopPaused (m_bTopPaused st')
            (set_topCounter (topCounter st')
              (set_m_bBottomPaused (m_bBottomPaused st')
                (set_bottomCounter (bottomCounter st') st)))).

(** The state of a tick past the warm-up, before the targets are computed:
    the time has advanced and the start position is recorded. *)
Definition steppedState (subject : DuCTTRobotModel) (dt : Q) (st : Controller)
  : Controller :=
  let st := set_m_totalTime (m_totalTime st + dt) st in
  if negb (m_bRecordedStart st)
  then set_m_bRecordedStart true (set_initPosition (getCOM subject) st)
  else st.

(** What the loop over the joints decides: whether each joint is driven, and
    the state it leaves. *)
Definition jointDecisions (subject : DuCTTRobotModel) (st : Controller)
  : bool * bool * Controller :=
  if m_bIgnoreTouchSensors st then (true, true, st)
  else
    let bottom := isLocked subject false st in
    let top := isLocked subject true (snd bottom) in
    (negb (fst bottom), negb (fst top), snd top).

(** The commands of a tick past the warm-up. *)
Definition activeCommands (subject : DuCTTRobotModel) (dt : Q) (st : Controller)
    (go0 go1 : bool) : list Command :=
  flat_map (fun cluster => clusterCommands st dt cluster (phaseAfter st (seq 0 cluster)))
           (seq 0 nClusters)
  ++ (jointCommand go0 BottomPrismatic
        (sineTarget st (prismChannel st 0) (phaseAfter st []))
      ++ jointCommand go1 TopPrismatic
           (sineTarget st (prismChannel st 1) (phaseAfter st [prismChannel st 0])))
  ++ moveMotors subject dt.

(** Every recorded tension is nonnegative. *)
Definition tensionsNonnegative (h : SpringCableActuatorHistory) : Prop :=
  Forall (fun tension => 0 <= tension) (tensionHistory h).

(** A controller that reads its parameters from the manual file. *)
Definition manualController : Controller :=
  DuCTTLearningController 1 true 1 false true origin.

(** A controller scored along the x axis. *)
Definition xAxisController : Controller :=
  DuCTTLearningController 1 false 0 false true origin.

(** Vectors of three, seventeen, nineteen and twenty slots. *)
Definition rawThree : list Q := [0; 1; 0].
Definition rawSeventeen : list Q := repeat 0 16 ++ [1].
Definition rawNineteen : list Q := repeat 0 16 ++ [1; 0; 1].
Definition rawTwenty : list Q := repeat 0 16 ++ [1; 0; 1; 0].

(** A robot whose only muscle has recorded two tensions and one rest length. *)
Definition shortRestRobot : DuCTTRobotModel :=
  {| getAllMuscles := [mkHistory [1; 2] [5]];
     findCluster := fun _ => [];
     topTouchSensors := [];
     bottomTouchSensors := [];
     getCOM := origin;
     getTetraCOM := fun _ => origin;
     getMinLength := fun _ => 1;
     getActualLength := fun _ => 2 |}.

(** A parameter file of one line with two fields. *)
Definition twoFields : string := "0.5,0.25".

(** A line of eighteen fields: sixteen channel slots, then the flag slots
    [0] (ignore the touch sensors) and [1] (the longest hysteresis). *)
Definition eighteenFields : string :=
  "0,0,0,0,0,0,0,0,0,0,0,0,0,0,0,0,0,1".

(** Every channel has raw amplitude [1] and raw phase slot [0.625]: every
    amplitude decodes to 40 and every [phaseChange] to [M_PI / 4]. *)
Definition rawLagged : list Q :=
  [1; 0; 0.625; 0;   1; 0; 0.625; 0;   1; 0; 0.625; 0;   1; 0; 0.625; 0].

(** The same channels and the two flags: do not ignore the touch sensors, no
    hysteresis. *)
Definition rawLaggedFlags : list Q := rawLagged ++ [1; 0].

(* ================================================================= *)
(** * Properties *)

(* ================================================================= *)
(** ** Basic facts: the monad, vectors, comparisons *)

Lemma vec_at_nth {A} (v : list A) (i : nat) (d : A) :
  (i < length v)%nat -> vec_at v i = inr (nth i v d).
Proof.
  intros Hi. unfold vec_at.
  rewrite (nth_error_nth' v d Hi). reflexivity.
Qed.

Lemma vec_at_inr {A} (v : list A) (i : nat) (a : A) :
  nth_error v i = Some a -> vec_at v i = inr a.
Proof. unfold vec_at. intros ->. reflexivity. Qed.

Lemma mapM_map {A B} (f : A -> Res B) (g : A -> B) (l : list A) :
  (forall a, In a l -> f a = inr (g a)) -> mapM f l = inr (map g l).
Proof.
  induction l as [|a l IH]; intros Hf; simpl.
  - reflexivity.
  - rewrite (Hf a (or_introl eq_refl)). simpl.
    rewrite IH by (intros; apply Hf; now right). reflexivity.
Qed.

Lemma upd_length {A} (v : list A) (i : nat) (a : A) : length (upd v i a) = length v.
Proof.
  revert i. induction v as [|x v IH]; intros [|i]; simpl; auto.
Qed.

Lemma Qltb_lt (x y : Q) : Qltb x y = true <-> x < y.
Proof.
  unfold Qltb. rewrite negb_true_iff.
  split; intros H.
  - apply Qnot_le_lt. intros Hle. apply Qle_bool_iff in Hle. congruence.
  - destruct (Qle_bool y x) eqn:E; [|reflexivity].
    apply Qle_bool_iff in E. exfalso. apply (Qlt_not_le _ _ H E).
Qed.

Lemma Qltb_ge (x y : Q) : Qltb x y = false <-> y <= x.
Proof.
  unfold Qltb. rewrite negb_false_iff. apply Qle_bool_iff.
Qed.

(* ================================================================= *)
(** ** transformActions *)

Lemma scale_in_range (r lo hi : Q) :
  0 <= r <= 1 -> lo <= hi -> lo <= r * (hi - lo) + lo <= hi.
Proof. intros [H0 H1] Hlh. split; nra. Qed.

Lemma scaleChannel_channelOf (params : list Q) (i : nat) :
  (i * N_PARAMS + 3 < length params)%nat ->
  scaleChannel params i = inr (channelOf params i).
Proof.
  intros Hlen. unfold scaleChannel, channelOf, decodeChannel.
  change (seq 0 N_PARAMS) with [0; 1; 2; 3]%nat. cbn [mapM].
  rewrite !(@vec_at_nth Q params _ 0) by lia.
  reflexivity.
Qed.

Lemma decode_channels (params : list Q) :
  (nActions * N_PARAMS <= length params)%nat ->
  mapM (scaleChannel params) (seq 0 nActions) = inr (channelsOf params).
Proof.
  intros Hlen. unfold channelsOf. apply mapM_map.
  intros i Hi. apply in_seq in Hi. apply scaleChannel_channelOf.
  unfold nActions, nClusters, nPrisms, N_PARAMS in *. simpl in Hlen. lia.
Qed.

Lemma channelOf_in_range (raw : list Q) (i : nat) :
  Forall unitInterval raw -> (i * N_PARAMS + 3 < length raw)%nat ->
  InRange (channelOf raw i).
Proof.
  intros Hall Hlen.
  assert (Hnth : forall k, (k < length raw)%nat -> unitInterval (nth k raw 0)).
  { intros k Hk. rewrite Forall_forall in Hall. apply Hall. now apply nth_In. }
  unfold channelOf, decodeChannel.
  do 4 eexists. split; [reflexivity|].
  assert (H0 := Hnth (i * N_PARAMS + 0)%nat ltac:(lia)).
  assert (H1 := Hnth (i * N_PARAMS + 1)%nat ltac:(lia)).
  assert (H2 := Hnth (i * N_PARAMS + 2)%nat ltac:(lia)).
  assert (H3 := Hnth (i * N_PARAMS + 3)%nat ltac:(lia)).
  unfold unitInterval in *.
  repeat split.
  - apply (scale_in_range H0). lra.
  - apply (scale_in_range H0). lra.
  - apply (scale_in_range H1). lra.
  - apply (scale_in_range H1). lra.
  - pose proof (scale_in_range (lo := -1 * M_PI) (hi := M_PI) H2) as S.
    unfold M_PI in *. lra.
  - pose proof (scale_in_range (lo := -1 * M_PI) (hi := M_PI) H2) as S.
    unfold M_PI in *. lra.
  - apply (scale_in_range H3). lra.
  - apply (scale_in_range H3). lra.
Qed.

Lemma channelsOf_in_range (raw : list Q) :
  Forall unitInterval raw -> (nActions * N_PARAMS <= length raw)%nat ->
  Forall InRange (channelsOf raw).
Proof.
  intros Hall Hlen. unfold channelsOf. apply Forall_map, Forall_forall.
  intros i Hi. apply in_seq in Hi. apply channelOf_in_range; [assumption|].
  unfold nActions, nClusters, nPrisms, N_PARAMS in *. simpl in Hlen. lia.
Qed.

(** Decoding a vector of exactly [4*nActions] slots. *)
Lemma decode_without_flags (atof : string -> Q) (st : Controller) (rand : nat -> Z)
    (infile : option string) (actions : list (list Q)) (raw : list Q) :
  chooseParams atof st rand infile actions = inr raw ->
  length raw = (4 * nActions)%nat ->
  Forall unitInterval raw ->
  transformActions atof st rand infile actions = inr (channelsOf raw, st) /\
  length (channelsOf raw) = nActions /\
  Forall InRange (channelsOf raw).
Proof.
  intros Hraw Hlen Hall.
  assert (Hle : (nActions * N_PARAMS <= length raw)%nat).
  { rewrite Hlen. unfold N_PARAMS. lia. }
  split; [|split].
  - unfold transformActions. rewrite Hraw. cbn [bind].
    rewrite (decode_channels _ Hle). cbn [bind].
    rewrite Hlen. reflexivity.
  - unfold channelsOf. now rewrite length_map, length_seq.
  - now apply channelsOf_in_range.
Qed.

(** Claim C6.  A parameter vector of exactly [4*nActions] slots, all in
    [0,1], decodes to [nActions] channel tuples, channel [i] being
    [raw*(max-min)+min] of the four slots from [4*i] on; every amplitude lies
    in [0,40], every frequency in [0.3,20], every phase in [-pi,pi] and every
    offset in [0,40]; neither flag is read: the controller is left as it was,
    [m_bIgnoreTouchSensors] and [m_dHistorisisSeconds] included. *)
Theorem decode_exact_length (atof : string -> Q) (st : Controller) (rand : nat -> Z)
    (infile : option string) (actions : list (list Q)) (raw : list Q) :
  chooseParams atof st rand infile actions = inr raw ->
  length raw = (4 * nActions)%nat ->
  Forall unitInterval raw ->
  transformActions atof st rand infile actions = inr (channelsOf raw, st) /\
  length (channelsOf raw) = nActions /\
  Forall InRange (channelsOf raw).
Proof. apply decode_without_flags. Qed.

Lemma channelsOf_firstn (raw : list Q) :
  channelsOf (firstn (4 * nActions) raw) = channelsOf raw.
Proof.
  unfold channelsOf. apply map_ext_in. intros i Hi. apply in_seq in Hi.
  unfold channelOf. rewrite !nth_firstn.
  unfold nActions, nClusters, nPrisms, N_PARAMS in *. simpl in Hi.
  repeat match goal with
         | |- context [(?a <? ?b)%nat] =>
             let E := fresh in
             destruct (Nat.ltb_spec a b) as [E|E]; [|exfalso; simpl in E; lia]
         end.
  reflexivity.
Qed.

(** The flags when the adapter's vector has [4*nActions + 2] slots.  For a
    decoded vector of [4*nActions + 2] slots in [0,1] (the vector the adapter
    hands out, or the manual one when the adapter's has that length too), the
    slot at index [4*nActions] sets [m_bIgnoreTouchSensors], to true exactly
    when its value is below 0.5, the slot at index [4*nActions + 1] sets
    [m_dHistorisisSeconds] to its value rescaled into [0,2], nothing else of
    the controller changes, and the channel tuples are those that the first
    [4*nActions] slots decode to on their own. *)
Lemma decode_with_flags (atof : string -> Q) (st : Controller) (rand : nat -> Z)
    (infile : option string) (actions : list (list Q)) (source raw : list Q) :
  nth_error actions 0 = Some source ->
  length source = (4 * nActions + 2)%nat ->
  chooseParams atof st rand infile actions = inr raw ->
  length raw = (4 * nActions + 2)%nat ->
  Forall unitInterval raw ->
  let touchParam := nth (4 * nActions) raw 0 in
  let hysteresis := nth (4 * nActions + 1) raw 0 in
  exists st',
    transformActions atof st rand infile actions = inr (channelsOf raw, st') /\
    st' = set_m_dHistorisisSeconds (hysteresis * (2.0 - 0.0) + 0.0)
            (set_m_bIgnoreTouchSensors (Qltb touchParam 0.5) st) /\
    (m_bIgnoreTouchSensors st' = true <-> touchParam < 0.5) /\
    m_dHistorisisSeconds st' == hysteresis * 2 /\
    0 <= m_dHistorisisSeconds st' <= 2 /\
    forall st2 rand2 infile2 actions2,
      chooseParams atof st2 rand2 infile2 actions2 = inr (firstn (4 * nActions) raw) ->
      transformActions atof st2 rand2 infile2 actions2 = inr (channelsOf raw, st2).
Proof.
  intros Hsrc Hslen Hraw Hlen Hall touchParam hysteresis.
  assert (Hle : (nActions * N_PARAMS <= length raw)%nat).
  { rewrite Hlen. unfold N_PARAMS. lia. }
  assert (Hh : unitInterval hysteresis).
  { rewrite Forall_forall in Hall. apply Hall, nth_In. rewrite Hlen. lia. }
  eexists. split; [|split; [reflexivity|]].
  - unfold transformActions. rewrite Hraw. cbn [bind].
    rewrite (decode_channels _ Hle). cbn [bind].
    rewrite Hlen.
    change (negb ((4 * nActions + 2) mod 4 =? 0)%nat) with true. cbn iota.
    rewrite (vec_at_inr _ _ Hsrc). cbn [bind]. rewrite Hslen.
    change (flagIndex (4 * nActions + 2) (4 * nActions + 2) (nActions * N_PARAMS))
      with (4 * nActions)%nat.
    change (flagIndex (4 * nActions + 2) (4 * nActions + 2) (nActions * N_PARAMS + 1))
      with (4 * nActions + 1)%nat.
    rewrite !(@vec_at_nth Q raw _ 0) by (rewrite Hlen; lia).
    reflexivity.
  - unfold unitInterval in Hh.
    split; [apply Qltb_lt|].
    split; [cbn; ring|]. split; [cbn; fold hysteresis; split; lra|].
    intros st2 rand2 infile2 actions2 Hlead.
    assert (Hl : length (firstn (4 * nActions) raw) = (4 * nActions)%nat).
    { rewrite length_firstn, Hlen. lia. }
    assert (Hu : Forall unitInterval (firstn (4 * nActions) raw)).
    { rewrite Forall_forall in *. intros r Hr. apply Hall.
      rewrite <- (firstn_skipn (4 * nActions) raw). apply in_or_app. now left. }
    destruct (decode_without_flags atof st2 rand2 infile2 actions2 Hlead Hl Hu) as [H _].
    rewrite H, channelsOf_firstn. reflexivity.
Qed.

(* ================================================================= *)
(** ** The lock state machine *)

(** One evaluation of [isLocked], in terms of the joint's own lock state. *)
Lemma isLocked_step (isTop : bool) (subject : DuCTTRobotModel) (st : Controller) :
  let paused := isPaused isTop st in
  let counter :=
    if (pauseSignal isTop subject && negb paused) || (unpauseSignal isTop subject && paused)
    then (debounceCounter isTop st + 1)%Z else debounceCounter isTop st in
  let fires := pauseSignal isTop subject && Qgtb (inject_Z counter) (maxCountOf st) in
  fst (isLocked subject isTop st) = fires && negb paused /\
  isPaused isTop (snd (isLocked subject isTop st)) = xorb fires paused /\
  debounceCounter isTop (snd (isLocked subject isTop st)) = (if fires then 0%Z else counter) /\
  isLocked_maxCount (snd (isLocked subject isTop st)) = Some (maxCountOf st) /\
  m_dHistorisisSeconds (snd (isLocked subject isTop st)) = m_dHistorisisSeconds st.
Proof.
  unfold isLocked, isPaused, debounceCounter, pauseSignal, unpauseSignal, maxCountOf.
  destruct st; cbn -[Qgtb inject_Z Z.add Qmult].
  destruct isTop; cbn -[Qgtb inject_Z Z.add Qmult];
    destruct (shouldPause (topTouchSensors subject)),
             (shouldPause (bottomTouchSensors subject));
    cbn -[Qgtb inject_Z Z.add Qmult].
  all: match goal with
       | m_bTopPaused0 : bool, m_bBottomPaused0 : bool |- _ =>
           destruct m_bTopPaused0, m_bBottomPaused0; cbn -[Qgtb inject_Z Z.add Qmult]
       end.
  all: repeat match goal with
         | |- context [Qgtb ?a ?b] => destruct (Qgtb a b); cbn -[Qgtb inject_Z Z.add Qmult]
         end.
  all: repeat split; reflexivity.
Qed.

Lemma Qgtb_gt (x y : Q) : Qgtb x y = true <-> y < x.
Proof. apply Qltb_lt. Qed.

Lemma Qgtb_le (x y : Q) : Qgtb x y = false <-> x <= y.
Proof. apply Qltb_ge. Qed.

Lemma maxCountOf_isLocked (isTop : bool) (subject : DuCTTRobotModel) (st : Controller) :
  maxCountOf (snd (isLocked subject isTop st)) = maxCountOf st.
Proof.
  destruct (isLocked_step isTop subject st) as (_ & _ & _ & Hm & _).
  unfold maxCountOf at 1. now rewrite Hm.
Qed.

Lemma lockTicks_cons (isTop : bool) (s : DuCTTRobotModel) (ss : list DuCTTRobotModel)
    (st : Controller) :
  lockTicks isTop (s :: ss) st =
  (fst (isLocked s isTop st) :: fst (lockTicks isTop ss (snd (isLocked s isTop st))),
   snd (lockTicks isTop ss (snd (isLocked s isTop st)))).
Proof.
  simpl. destruct (isLocked s isTop st) as [locked st'].
  simpl. destruct (lockTicks isTop ss st'). reflexivity.
Qed.

Lemma lockTicks_app (isTop : bool) (ss1 ss2 : list DuCTTRobotModel) (st : Controller) :
  lockTicks isTop (ss1 ++ ss2) st =
  (fst (lockTicks isTop ss1 st) ++ fst (lockTicks isTop ss2 (snd (lockTicks isTop ss1 st))),
   snd (lockTicks isTop ss2 (snd (lockTicks isTop ss1 st)))).
Proof.
  revert st. induction ss1 as [|s ss1 IH]; intros st.
  - simpl. now destruct (lockTicks isTop ss2 st).
  - rewrite <- app_comm_cons, !lockTicks_cons, IH. reflexivity.
Qed.


(** While the counter has not passed the threshold nothing fires. *)
Lemma debounce_counting (isTop paused : bool) (ss : list DuCTTRobotModel) :
  forall st,
    Forall (advancing isTop paused) ss ->
    isPaused isTop st = paused ->
    inject_Z (debounceCounter isTop st + Z.of_nat (length ss)) <= maxCountOf st ->
    fst (lockTicks isTop ss st) = repeat false (length ss) /\
    isPaused isTop (snd (lockTicks isTop ss st)) = paused /\
    debounceCounter isTop (snd (lockTicks isTop ss st))
      = (debounceCounter isTop st + Z.of_nat (length ss))%Z /\
    maxCountOf (snd (lockTicks isTop ss st)) = maxCountOf st.
Proof.
  induction ss as [|s ss IH]; intros st Hall Hp Hmax.
  - simpl. rewrite Z.add_0_r. auto.
  - inversion Hall as [|? ? [HP HU] Hall']; subst.
    rewrite lockTicks_cons. cbn [fst snd length repeat].
    destruct (isLocked_step isTop s st) as (Hl & Hp' & Hc & _).
    pose proof (maxCountOf_isLocked isTop s st) as Hm.
    rewrite HP in Hl, Hp', Hc. cbn [andb] in Hl, Hp', Hc.
    assert (Hadv : (negb (isPaused isTop st) || unpauseSignal isTop s && isPaused isTop st)
                   = true).
    { destruct (isPaused isTop st); [rewrite HU by reflexivity|]; reflexivity. }
    rewrite Hadv in Hl, Hp', Hc.
    assert (Hno : Qgtb (inject_Z (debounceCounter isTop st + 1)) (maxCountOf st) = false).
    { apply Qgtb_le. eapply Qle_trans; [|exact Hmax].
      rewrite <- Zle_Qle. cbn [length]. lia. }
    rewrite Hno in Hl, Hp', Hc. cbn in Hl, Hp', Hc.
    destruct (IH (snd (isLocked s isTop st))) as (I1 & I2 & I3 & I4); auto.
    + rewrite Hc, Hm. eapply Qle_trans; [|exact Hmax].
      rewrite <- Zle_Qle. cbn [length]. lia.
    + rewrite Hl, I1, I2, I3, I4, Hc, Hm. repeat split; auto.
      cbn [length]. lia.
Qed.

(** The first tick on which the counter passes the threshold toggles the flag. *)
Lemma debounce_trip (isTop : bool) (s : DuCTTRobotModel) (st : Controller) :
  advancing isTop (isPaused isTop st) s ->
  maxCountOf st < inject_Z (debounceCounter isTop st + 1) ->
  fst (isLocked s isTop st) = negb (isPaused isTop st) /\
  isPaused isTop (snd (isLocked s isTop st)) = negb (isPaused isTop st) /\
  debounceCounter isTop (snd (isLocked s isTop st)) = 0%Z.
Proof.
  intros [HP HU] Hmax.
  destruct (isLocked_step isTop s st) as (Hl & Hp' & Hc & _).
  rewrite HP in Hl, Hp', Hc. cbn [andb] in Hl, Hp', Hc.
  assert (Hadv : (negb (isPaused isTop st) || unpauseSignal isTop s && isPaused isTop st)
                 = true).
  { destruct (isPaused isTop st); [rewrite HU by reflexivity|]; reflexivity. }
  rewrite Hadv in Hl, Hp', Hc.
  apply Qgtb_gt in Hmax. rewrite Hmax in Hl, Hp', Hc.
  rewrite Hl, Hp', Hc. destruct (isPaused isTop st); auto.
Qed.

(** A paused joint whose unpause group is not fully touching stays as it is. *)
Lemma paused_holds (isTop : bool) (ss : list DuCTTRobotModel) :
  forall st,
    Forall (fun s => pauseSignal isTop s = true /\ unpauseSignal isTop s = false) ss ->
    isPaused isTop st = true ->
    debounceCounter isTop st = 0%Z ->
    0 <= maxCountOf st ->
    fst (lockTicks isTop ss st) = repeat false (length ss) /\
    isPaused isTop (snd (lockTicks isTop ss st)) = true /\
    debounceCounter isTop (snd (lockTicks isTop ss st)) = 0%Z.
Proof.
  induction ss as [|s ss IH]; intros st Hall Hp Hc0 Hmax.
  - simpl. auto.
  - inversion Hall as [|? ? [HP HU] Hall']; subst.
    rewrite lockTicks_cons. cbn [fst snd length repeat].
    destruct (isLocked_step isTop s st) as (Hl & Hp' & Hc & _).
    pose proof (maxCountOf_isLocked isTop s st) as Hm.
    rewrite HP, HU, Hp, Hc0 in Hl, Hp', Hc. cbn [andb negb orb] in Hl, Hp', Hc.
    assert (Hno : Qgtb (inject_Z 0) (maxCountOf st) = false) by now apply Qgtb_le.
    rewrite Hno in Hl, Hp', Hc. cbn in Hl, Hp', Hc.
    destruct (IH (snd (isLocked s isTop st))) as (I1 & I2 & I3); auto.
    + now rewrite Hm.
    + rewrite Hl, I1. auto.
Qed.

Lemma maxCountCurrent_eq (st : Controller) :
  maxCountCurrent st -> maxCountOf st = m_dHistorisisSeconds st * 1000.
Proof. unfold maxCountCurrent, maxCountOf. intros [-> | ->]; reflexivity. Qed.


Lemma pausing_advancing (isTop : bool) (ss : list DuCTTRobotModel) :
  Forall (pausing isTop) ss -> Forall (advancing isTop false) ss.
Proof.
  apply Forall_impl. intros s H. split; [exact H | discriminate].
Qed.

Lemma pausingBoth_advancing (isTop b : bool) (ss : list DuCTTRobotModel) :
  Forall (pausingBoth isTop) ss -> Forall (advancing isTop b) ss.
Proof.
  apply Forall_impl. intros s [H1 H2]. split; auto.
Qed.

(** Claim C2, as the code has it.  A joint starts UNPAUSED with its counter
    at 0, the threshold being the current [m_dHistorisisSeconds*1000] with
    [N <= m_dHistorisisSeconds*1000 < N + 1].  While its pause group is fully
    touching on every tick, nothing fires during the first [N] ticks and the
    joint becomes PAUSED on tick [N + 1], with "locked" reported on that tick
    only.  From then on the pause signal alone changes nothing, however long
    it lasts: the counter of a PAUSED joint advances only on ticks on which
    the unpause group is fully touching.  When both groups are fully
    touching, the joint stays PAUSED for [N] ticks and goes back to UNPAUSED
    on tick [N + 1], reporting "not locked". *)
Theorem lock_hysteresis (isTop : bool) (N : nat) (st : Controller) :
  isPaused isTop st = false ->
  debounceCounter isTop st = 0%Z ->
  maxCountCurrent st ->
  inject_Z (Z.of_nat N) <= m_dHistorisisSeconds st * 1000 ->
  m_dHistorisisSeconds st * 1000 < inject_Z (Z.of_nat N) + 1 ->
  (* no transition during the first N ticks *)
  (forall ticks,
      (length ticks <= N)%nat -> Forall (pausing isTop) ticks ->
      fst (lockTicks isTop ticks st) = repeat false (length ticks) /\
      isPaused isTop (snd (lockTicks isTop ticks st)) = false) /\
  (* the transition to PAUSED on tick N + 1 *)
  (forall ticks trip,
      length ticks = N -> Forall (pausing isTop) (ticks ++ [trip]) ->
      let st1 := snd (lockTicks isTop (ticks ++ [trip]) st) in
      fst (lockTicks isTop (ticks ++ [trip]) st) = repeat false N ++ [true] /\
      isPaused isTop st1 = true /\
      debounceCounter isTop st1 = 0%Z /\
      (* afterwards the pause signal alone changes nothing *)
      (forall more,
          Forall (pausingOnly isTop) more ->
          fst (lockTicks isTop more st1) = repeat false (length more) /\
          isPaused isTop (snd (lockTicks isTop more st1)) = true /\
          debounceCounter isTop (snd (lockTicks isTop more st1)) = 0%Z) /\
      (* with the unpause signal too, the joint stays PAUSED for N ticks ... *)
      (forall more,
          (length more <= N)%nat -> Forall (pausingBoth isTop) more ->
          isPaused isTop (snd (lockTicks isTop more st1)) = true) /\
      (* ... and goes back to UNPAUSED on tick N + 1, reporting "not locked" *)
      (forall more back,
          length more = N -> Forall (pausingBoth isTop) (more ++ [back]) ->
          fst (lockTicks isTop (more ++ [back]) st1) = repeat false (N + 1) /\
          isPaused isTop (snd (lockTicks isTop (more ++ [back]) st1)) = false)).
Proof.
  intros Hp Hc Hcur Hlo Hhi.
  pose proof (maxCountCurrent_eq Hcur) as Hmax.
  assert (Hcount : forall b ticks st0,
             (length ticks <= N)%nat -> Forall (advancing isTop b) ticks ->
             isPaused isTop st0 = b -> debounceCounter isTop st0 = 0%Z ->
             maxCountOf st0 = maxCountOf st ->
             fst (lockTicks isTop ticks st0) = repeat false (length ticks) /\
             isPaused isTop (snd (lockTicks isTop ticks st0)) = b /\
             debounceCounter isTop (snd (lockTicks isTop ticks st0))
               = Z.of_nat (length ticks) /\
             maxCountOf (snd (lockTicks isTop ticks st0)) = maxCountOf st).
  { intros b ticks st0 Hlen Hall Hb Hc0 Hm0.
    destruct (@debounce_counting isTop b ticks st0 Hall Hb) as (D1 & D2 & D3 & D4).
    - rewrite Hc0, Hm0, Hmax. eapply Qle_trans; [|exact Hlo].
      rewrite <- Zle_Qle. lia.
    - rewrite D3, D4, Hc0, Hm0. auto. }
  assert (Htrip : forall b ticks trip st0,
             length ticks = N -> Forall (advancing isTop b) (ticks ++ [trip]) ->
             isPaused isTop st0 = b -> debounceCounter isTop st0 = 0%Z ->
             maxCountOf st0 = maxCountOf st ->
             fst (lockTicks isTop (ticks ++ [trip]) st0) = repeat false N ++ [negb b] /\
             isPaused isTop (snd (lockTicks isTop (ticks ++ [trip]) st0)) = negb b /\
             debounceCounter isTop (snd (lockTicks isTop (ticks ++ [trip]) st0)) = 0%Z /\
             maxCountOf (snd (lockTicks isTop (ticks ++ [trip]) st0)) = maxCountOf st).
  { intros b ticks trip st0 Hlen Hall Hb Hc0 Hm0.
    apply Forall_app in Hall. destruct Hall as [Hall Htr].
    apply Forall_inv in Htr.
    destruct (Hcount b ticks st0) as (D1 & D2 & D3 & D4); auto; [lia|].
    rewrite lockTicks_app, lockTicks_cons. cbn [fst snd lockTicks].
    set (stN := snd (lockTicks isTop ticks st0)) in *.
    destruct (@debounce_trip isTop trip stN) as (T1 & T2 & T3).
    - now rewrite D2.
    - rewrite D3, D4, Hmax, Hlen, inject_Z_plus. exact Hhi.
    - rewrite D1, T1, T2, T3, D2, maxCountOf_isLocked, D4, Hlen. auto. }
  split.
  - intros ticks Hlen Hall.
    destruct (Hcount false ticks st) as (D1 & D2 & _); auto using pausing_advancing.
  - intros ticks trip Hlen Hall st1.
    destruct (Htrip false ticks trip st) as (T1 & T2 & T3 & T4);
      auto using pausing_advancing.
    fold st1 in T2, T3, T4. cbn [negb] in T1, T2.
    split; [exact T1|]. split; [exact T2|]. split; [exact T3|].
    split; [|split].
    + intros more Hall'. apply paused_holds; auto.
      rewrite T4, Hmax. eapply Qle_trans; [|exact Hlo].
      change 0 with (inject_Z 0). rewrite <- Zle_Qle. lia.
    + intros more Hlen' Hall'.
      destruct (Hcount true more st1) as (_ & D2 & _);
        auto using pausingBoth_advancing.
    + intros more back Hlen' Hall'.
      destruct (Htrip true more back st1) as (B1 & B2 & _);
        auto using pausingBoth_advancing.
      split; [|exact B2].
      rewrite B1. cbn [negb]. now rewrite repeat_app.
Qed.



(* ================================================================= *)
(** ** totalEnergySpent *)


Lemma clamp_is_min (x : Q) : (if Qgtb x 0 then 0 else x) == Qmin 0 x.
Proof.
  destruct (Qgtb x 0) eqn:E.
  - apply Qgtb_gt in E. symmetry. apply Q.min_l. now apply Qlt_le_weak.
  - apply Qgtb_le in E. symmetry. now apply Q.min_r.
Qed.

Lemma workDone_work (T R : list Q) (j : nat) :
  (1 <= j)%nat -> (j < length T)%nat -> (j < length R)%nat ->
  workDone (mkHistory T R) j = inr (work T R j).
Proof.
  intros H1 HT HR. unfold workDone, work. cbn [tensionHistory restLengths].
  rewrite (@vec_at_nth Q T (j - 1) 0) by lia.
  rewrite (@vec_at_nth Q R (j - 1) 0) by lia.
  rewrite (@vec_at_nth Q R j 0) by lia.
  reflexivity.
Qed.

Lemma energyOfString_fold (T R : list Q) (js : list nat) :
  forall acc,
    Forall (fun j => 1 <= j /\ j < length T /\ j < length R)%nat js ->
    energyOfString (mkHistory T R) js acc
    = inr (fold_left (fun a j => a + work T R j) js acc).
Proof.
  induction js as [|j js IH]; intros acc Hall; simpl.
  - reflexivity.
  - inversion Hall as [|? ? (H1 & HT & HR) Hall']; subst.
    rewrite workDone_work by assumption. simpl. now apply IH.
Qed.

Lemma fold_work_sum (f : nat -> Q) (js : list nat) :
  forall acc,
    fold_left (fun a j => a + f j) js acc == acc + fold_right Qplus 0 (map f js).
Proof.
  induction js as [|j js IH]; intros acc; simpl.
  - ring.
  - rewrite IH. ring.
Qed.

Lemma work_shift (t r : Q) (T R : list Q) (j : nat) :
  (1 <= j)%nat -> work (t :: T) (r :: R) (S j) = work T R j.
Proof.
  intros H1. unfold work.
  replace (S j - 1)%nat with (S (j - 1)) by lia.
  reflexivity.
Qed.

Lemma sum_work_contractionWork (T : list Q) :
  forall R,
    (length T <= length R)%nat ->
    fold_right Qplus 0 (map (work T R) (seq 1 (length T - 1))) == contractionWork T R.
Proof.
  induction T as [|t0 T IH]; intros R Hlen.
  - reflexivity.
  - destruct T as [|t1 T'].
    + simpl. destruct R as [|? [|? ?]]; reflexivity.
    + destruct R as [|r0 [|r1 R']]; cbn [length] in Hlen; try lia.
      replace (length (t0 :: t1 :: T') - 1)%nat with (S (length (t1 :: T') - 1))
        by (cbn [length]; lia).
      cbn [seq map fold_right].
      rewrite <- seq_shift, map_map.
      rewrite (map_ext_in _ (work (t1 :: T') (r1 :: R'))).
      2:{ intros j Hj. apply in_seq in Hj. apply work_shift. lia. }
      rewrite IH by (cbn [length]; lia).
      cbn [contractionWork].
      unfold work at 1. cbn [nth Nat.sub].
      rewrite clamp_is_min. reflexivity.
Qed.

Lemma energyOfStrings_metric (hs : list SpringCableActuatorHistory) :
  forall acc,
    Forall parallelHistory hs ->
    exists e, energyOfStrings hs acc = inr e /\ e == acc + energyMetric hs.
Proof.
  induction hs as [|h hs IH]; intros acc Hall.
  - exists acc. split; [reflexivity|]. simpl. ring.
  - inversion Hall as [|? ? Hpar Hall']; subst.
    destruct h as [T R]. unfold parallelHistory in Hpar. cbn in Hpar.
    cbn [energyOfStrings tensionHistory restLengths].
    rewrite energyOfString_fold.
    2:{ apply Forall_forall. intros j Hj. apply in_seq in Hj. lia. }
    cbn [bind].
    destruct (IH (fold_left (fun a j => a + work T R j) (seq 1 (length T - 1)) acc) Hall')
      as (e & He & Heq).
    exists e. split; [exact He|].
    rewrite Heq, fold_work_sum, sum_work_contractionWork by lia.
    cbn [energyMetric tensionHistory restLengths]. ring.
Qed.

Lemma contractionWork_zero (T : list Q) :
  forall R, noContraction R -> contractionWork T R == 0.
Proof.
  induction T as [|t0 T IH]; intros R Hno.
  - reflexivity.
  - destruct T as [|t1 T']; [destruct R as [|? [|? ?]]; reflexivity|].
    destruct R as [|r0 [|r1 R']]; try reflexivity.
    cbn [contractionWork]. destruct Hno as [Hd Hno].
    rewrite (IH _ Hno), (Q.min_l _ _ Hd). ring.
Qed.

Lemma energyMetric_zero (hs : list SpringCableActuatorHistory) :
  Forall (fun h => noContraction (restLengths h)) hs -> energyMetric hs == 0.
Proof.
  induction 1 as [|h hs Hh _ IH]; simpl.
  - reflexivity.
  - rewrite IH, (contractionWork_zero _ _ Hh). ring.
Qed.

(** Claim C8.  With one rest length per tension sample, [totalEnergySpent]
    returns the sum, over all actuators and all pairs of consecutive history
    samples, of [previousTension * min(0, currentRestLength - previousRestLength)]
    (equal as rationals); when no rest-length delta is negative the result
    is 0: lengthening contributes nothing. *)
Theorem energy_counts_contraction_only (subject : DuCTTRobotModel) :
  Forall parallelHistory (getAllMuscles subject) ->
  exists energySpent,
    totalEnergySpent subject = inr energySpent /\
    energySpent == energyMetric (getAllMuscles subject) /\
    (Forall (fun h => noContraction (restLengths h)) (getAllMuscles subject) ->
     energySpent == 0).
Proof.
  intros Hpar. unfold totalEnergySpent.
  destruct (energyOfStrings_metric 0 Hpar) as (e & He & Heq).
  exists e. split; [exact He|]. split.
  - rewrite Heq. ring.
  - intros Hno. rewrite Heq, (energyMetric_zero Hno). ring.
Qed.

(* ================================================================= *)
(** ** onTeardown and displacement *)

(** Claim C7.  When [totalEnergySpent] returns, [onTeardown] reports to the
    adapter a vector of exactly two scores, the second being the energy.  The
    first is -1 whenever [m_bBadRun] is set, whatever the center of mass did;
    otherwise it is [|dx|] for axis 0, [|dz|] for axis 2, the square root of
    [dx*dx + dy*dy + dz*dz] for axis 3, and the signed [dy] for axis 1 and
    every other axis value. *)
Theorem teardown_scores (sqrt : Q -> Q) (subject : DuCTTRobotModel) (st : Controller)
    (energySpent : Q) :
  totalEnergySpent subject = inr energySpent ->
  exists first st',
    onTeardown sqrt subject st
    = (inr tt, st', [endEpisode (m_bUseNeuro st) [first; energySpent]]) /\
    (m_bBadRun st = true -> first = -1) /\
    (m_bBadRun st = false ->
       (m_axis st = 0%Z -> first = Qabs (deltaX subject st)) /\
       (m_axis st = 2%Z -> first = Qabs (deltaZ subject st)) /\
       (m_axis st = 3%Z ->
          first = sqrt (deltaX subject st * deltaX subject st +
                        deltaY subject st * deltaY subject st +
                        deltaZ subject st * deltaZ subject st)) /\
       (m_axis st <> 0%Z -> m_axis st <> 2%Z -> m_axis st <> 3%Z ->
          first = deltaY subject st)).
Proof.
  intros He. unfold onTeardown. rewrite He.
  destruct (m_bBadRun st) eqn:Ebad; cbn [negb app].
  - do 2 eexists. split; [reflexivity|]. split; [reflexivity|discriminate].
  - do 2 eexists. split; [reflexivity|]. split; [discriminate|].
    intros _. unfold displacement, deltaX, deltaY, deltaZ.
    repeat split.
    + intros ->. reflexivity.
    + intros ->. reflexivity.
    + intros ->. reflexivity.
    + intros H0 H2 H3.
      destruct (m_axis st) as [|[[|[]|]|[]|]|]; try reflexivity; congruence.
Qed.

(* ================================================================= *)
(** ** onStep: the exception *)

Lemma noThrow_bind {A B} (c : Res A) (k : A -> Res B) :
  noThrow c -> (forall a, noThrow (k a)) -> noThrow (bind c k).
Proof.
  intros Hc Hk what. destruct c as [f|a]; simpl.
  - intros E. apply (Hc what). congruence.
  - apply Hk.
Qed.

Lemma noThrow_ret {A} (a : A) : noThrow (ret a).
Proof. intros what. discriminate. Qed.

Lemma noThrow_vec_at {A} (v : list A) (i : nat) : noThrow (vec_at v i).
Proof. intros what. unfold vec_at. destruct (nth_error v i); discriminate. Qed.

Lemma noThrow_arr_at (a : option (list Q)) (i : nat) : noThrow (arr_at a i).
Proof.
  destruct a as [v|]; simpl; [apply noThrow_vec_at|]. intros what. discriminate.
Qed.

Lemma noThrow_mapM {A B} (f : A -> Res B) (l : list A) :
  (forall a, noThrow (f a)) -> noThrow (mapM f l).
Proof.
  intros Hf. induction l as [|a l IH]; simpl.
  - apply noThrow_ret.
  - apply noThrow_bind; [apply Hf|]. intros b.
    apply noThrow_bind; [exact IH|]. intros bs. apply noThrow_ret.
Qed.

Lemma noThrow_sineOf (st : Controller) (idx : nat) (phase : Q) :
  noThrow (sineOf st idx phase).
Proof.
  unfold sineOf.
  repeat (apply noThrow_bind; [apply noThrow_arr_at|intros ?]).
  apply noThrow_ret.
Qed.

Lemma noThrow_controlNode (st : Controller) (dt : Q) (cluster : nat) (phase : Q)
    (node : nat) :
  noThrow (controlNode st dt cluster phase node).
Proof.
  unfold controlNode.
  repeat (apply noThrow_bind; [apply noThrow_vec_at|intros ?]).
  destruct a0 as [m|].
  - apply noThrow_bind; [apply noThrow_sineOf|]. intros ?. apply noThrow_ret.
  - intros what. discriminate.
Qed.

Lemma noThrow_muscleLoop (st : Controller) (dt : Q) (cls : list nat) :
  forall phase, noThrow (muscleLoop st dt cls phase).
Proof.
  induction cls as [|c cls IH]; intros phase; cbn [muscleLoop].
  - apply noThrow_ret.
  - apply noThrow_bind; [apply noThrow_mapM, noThrow_controlNode|]. intros cmds.
    apply noThrow_bind; [apply noThrow_arr_at|]. intros pc.
    apply noThrow_bind; [apply IH|]. intros more. apply noThrow_ret.
Qed.

Lemma noThrow_prismLoop (subject : DuCTTRobotModel) (ps : list nat) :
  forall phase st, noThrow (prismLoop subject ps phase st).
Proof.
  induction ps as [|p ps IH]; intros phase st; cbn [prismLoop].
  - apply noThrow_ret.
  - apply noThrow_bind; [apply noThrow_vec_at|]. intros pPrism.
    destruct (if m_bIgnoreTouchSensors st then _ else _) as [go st1].
    apply noThrow_bind.
    + destruct go; [|apply noThrow_ret].
      apply noThrow_bind; [apply noThrow_sineOf|]. intros tgt.
      destruct pPrism; [apply noThrow_ret|]. intros what. discriminate.
    + intros cmds. apply noThrow_bind; [apply noThrow_arr_at|]. intros pc.
      apply noThrow_bind; [apply IH|]. intros [st2 more]. apply noThrow_ret.
Qed.

(** Claim C9.  [onStep] ends with [std::invalid_argument] if and only if
    [dt <= 0]; in that case nothing else has happened: the controller is
    unchanged ([m_totalTime] too) and no command has been sent. *)
Theorem onStep_rejects_nonpositive_dt (sqrt : Q -> Q) (subject : DuCTTRobotModel)
    (dt : Q) (st : Controller) :
  ((exists what, fst (fst (onStep sqrt subject dt st)) = inl (invalid_argument what))
   <-> dt <= 0) /\
  (dt <= 0 ->
   onStep sqrt subject dt st = (inl (invalid_argument "dt is not positive"), st, [])).
Proof.
  assert (Hthrow : dt <= 0 ->
            onStep sqrt subject dt st
            = (inl (invalid_argument "dt is not positive"), st, [])).
  { intros Hdt. unfold onStep.
    assert (E : Qle_bool dt 0.0 = true) by (apply Qle_bool_iff; unfold Qle in *; simpl in *; lia).
    rewrite E. reflexivity. }
  split; [split|exact Hthrow].
  - intros [what Hw].
    destruct (Qlt_le_dec 0 dt) as [Hpos|Hle]; [exfalso|exact Hle].
    unfold onStep in Hw.
    assert (E : Qle_bool dt 0.0 = false).
    { destruct (Qle_bool dt 0.0) eqn:E; [|reflexivity].
      apply Qle_bool_iff in E. exfalso. apply (Qlt_not_le _ _ Hpos).
      unfold Qle in *; simpl in *; lia. }
    rewrite E in Hw.
    destruct (Qltb _ 3).
    + destruct (isLocked subject false _) as [locked st1]. discriminate.
    + match type of Hw with
      | context [setPreferredMuscleLengths dt ?s] =>
          pose proof (@noThrow_muscleLoop s dt (seq 0 nClusters) 0) as Hm;
          pose proof (@noThrow_prismLoop subject (seq 0 nPrisms) 0 s) as Hp;
          fold (setPreferredMuscleLengths dt s) in Hm;
          fold (setPrismaticLengths subject s) in Hp;
          destruct (setPreferredMuscleLengths dt s) as [f|mc];
          [cbn [fst] in Hw; injection Hw as ->; exact (Hm what eq_refl)|];
          destruct (setPrismaticLengths subject s) as [f|[st' pc]];
          [cbn [fst] in Hw; injection Hw as ->; exact (Hp what eq_refl)|discriminate]
      end.
  - intros Hdt. rewrite (Hthrow Hdt). eexists. reflexivity.
Qed.

(* ================================================================= *)
(** ** The sine traversals *)

(** [isLocked] touches the lock state only. *)
Lemma isLocked_frame (subject : DuCTTRobotModel) (isTop : bool) (st : Controller) :
  sameFrame (snd (isLocked subject isTop st)) st.
Proof.
  unfold sameFrame, isLocked. destruct st; cbn -[Qgtb inject_Z Z.add Qmult].
  repeat match goal with
         | |- context [if ?b then _ else _] => destruct b; cbn -[Qgtb inject_Z Z.add Qmult]
         end.
  all: repeat split; reflexivity.
Qed.

Lemma sameFrame_refl (st : Controller) : sameFrame st st.
Proof. unfold sameFrame. repeat split; reflexivity. Qed.

Lemma sameFrame_trans (st2 st1 st : Controller) :
  sameFrame st2 st1 -> sameFrame st1 st -> sameFrame st2 st.
Proof.
  unfold sameFrame. intros (A1 & A2 & A3 & A4 & A5 & A6 & A7 & A8)
                           (B1 & B2 & B3 & B4 & B5 & B6 & B7 & B8).
  repeat split; congruence.
Qed.

Lemma sameFrame_isSetUp (st' st : Controller) :
  sameFrame st' st -> isSetUp st -> isSetUp st'.
Proof.
  unfold sameFrame, isSetUp.
  intros (A1 & A2 & A3 & A4 & A5 & A6 & A7 & A8). rewrite A1, A2, A3, A4, A6, A7. auto.
Qed.

Lemma sameFrame_sineTarget (st' st : Controller) (idx : nat) (phase : Q) :
  sameFrame st' st -> sineTarget st' idx phase = sineTarget st idx phase.
Proof.
  unfold sameFrame, sineTarget.
  intros (A1 & A2 & A3 & A4 & A5 & A6 & A7 & A8). now rewrite A1, A2, A4, A5.
Qed.

Lemma sameFrame_prismChannel (st' st : Controller) (prism : nat) :
  sameFrame st' st -> prismChannel st' prism = prismChannel st prism.
Proof.
  unfold sameFrame, prismChannel.
  intros (A1 & A2 & A3 & A4 & A5 & A6 & A7 & A8). now rewrite A6.
Qed.

(** With [nClusters] clusters the channel of joint [prism] is [nClusters + prism - 1]. *)
Lemma prismChannel_setUp (st : Controller) (prism : nat) :
  length (clusters st) = nClusters -> (prism < nPrisms)%nat ->
  prismChannel st prism = (nClusters + prism - 1)%nat.
Proof.
  intros Hlen Hp. unfold prismChannel, as_size_t. rewrite Hlen.
  unfold nClusters, nPrisms in *.
  rewrite Z.mod_small; lia.
Qed.

Lemma allocated_cell (a : option (list Q)) (i : nat) :
  allocated a -> (i < nActions)%nat -> arr_at a i = inr (cell a i).
Proof.
  intros (v & -> & Hlen) Hi. simpl. apply vec_at_nth. now rewrite Hlen.
Qed.

Lemma sineOf_sineTarget (st : Controller) (idx : nat) (phase : Q) :
  isSetUp st -> (idx < nActions)%nat ->
  sineOf st idx phase = inr (sineTarget st idx phase).
Proof.
  intros (Ha & Hw & _ & Hd & _) Hi. unfold sineOf.
  rewrite !allocated_cell by assumption. reflexivity.
Qed.

Lemma controlNode_control (st : Controller) (dt : Q) (cluster node : nat) (phase : Q) :
  isSetUp st -> (cluster < nClusters)%nat -> (node < musclesPerCluster)%nat ->
  controlNode st dt cluster phase node
  = inr (control (muscleAt st cluster node) dt (m_initialLength st)
                 (sineTarget st cluster phase)).
Proof.
  intros Hset Hc Hn.
  pose proof Hset as (_ & _ & _ & _ & Hlen & Hrows & _).
  unfold controlNode, muscleAt.
  rewrite (@vec_at_nth _ (clusters st) cluster []) by now rewrite Hlen.
  cbn [bind].
  assert (Hrow : In (nth cluster (clusters st) []) (clusters st))
    by (apply nth_In; now rewrite Hlen).
  rewrite Forall_forall in Hrows. destruct (Hrows _ Hrow) as [Hrl Hnn].
  rewrite (@vec_at_nth _ (nth cluster (clusters st) []) node None) by now rewrite Hrl.
  cbn [bind].
  assert (Hin : In (nth node (nth cluster (clusters st) []) None)
                   (nth cluster (clusters st) []))
    by (apply nth_In; now rewrite Hrl).
  rewrite Forall_forall in Hnn. specialize (Hnn _ Hin).
  destruct (nth node (nth cluster (clusters st) []) None) as [m|]; [|congruence].
  rewrite sineOf_sineTarget; [reflexivity|assumption|].
  unfold nActions, nClusters, nPrisms in *. lia.
Qed.

(** The commands of one cluster at a phase. *)
Lemma muscleLoop_commands (st : Controller) (dt : Q) (cls : list nat) :
  forall done,
    isSetUp st ->
    Forall (fun c => c < nClusters)%nat (done ++ cls) ->
    muscleLoop st dt cls (phaseAfter st done)
    = inr (flat_map
             (fun k =>
                clusterCommands st dt (nth k (done ++ cls) 0%nat)
                                (phaseAfter st (firstn k (done ++ cls))))
             (seq (length done) (length cls))).
Proof.
  induction cls as [|c cls IH]; intros done Hset Hall.
  - reflexivity.
  - cbn [muscleLoop].
    assert (Hc : (c < nClusters)%nat).
    { rewrite Forall_forall in Hall. apply Hall, in_or_app. right. now left. }
    rewrite (mapM_map _ (fun node => control (muscleAt st c node) dt (m_initialLength st)
                                       (sineTarget st c (phaseAfter st done)))).
    2:{ intros node Hn. apply in_seq in Hn. apply controlNode_control; auto. lia. }
    cbn [bind].
    pose proof Hset as (_ & _ & Hp & _).
    rewrite (allocated_cell Hp) by (unfold nActions, nClusters, nPrisms in *; lia).
    cbn [bind].
    replace (phaseAfter st done + cell (phaseChange st) c)
      with (phaseAfter st (done ++ [c]))
      by (unfold phaseAfter; now rewrite fold_left_app).
    specialize (IH (done ++ [c])).
    rewrite <- app_assoc in IH. cbn [app] in IH.
    rewrite IH by assumption.
    cbn [bind ret length seq flat_map].
    rewrite length_app. cbn [length]. rewrite Nat.add_1_r.
    rewrite nth_middle, firstn_app, Nat.sub_diag, firstn_all. cbn [firstn].
    rewrite app_nil_r. reflexivity.
Qed.

(** One turn of the loop over the joints. *)
Lemma prismLoop_cons (subject : DuCTTRobotModel) (prism : nat) (ps : list nat)
    (phase : Q) (st0 st : Controller) (p : Prismatic) :
  sameFrame st0 st -> isSetUp st -> (prism < nPrisms)%nat ->
  nth_error (prisms st) prism = Some (Some p) ->
  exists go st1,
    sameFrame st1 st /\
    (m_bIgnoreTouchSensors st = true -> go = true /\ st1 = st0) /\
    prismLoop subject (prism :: ps) phase st0
    = ('(st2, more) <-
         prismLoop subject ps (phase + cell (phaseChange st) (prismChannel st prism)) st1 ;;
       ret (st2, jointCommand go p (sineTarget st (prismChannel st prism) phase) ++ more)).
Proof.
  intros Hf Hset Hp Hnth.
  pose proof Hf as (_ & _ & F3 & _ & _ & _ & F7 & F8).
  pose proof Hset as (_ & _ & Hpc & _ & Hlen & _).
  assert (Hidx : (prismChannel st prism < nActions)%nat).
  { rewrite prismChannel_setUp by assumption. unfold nActions, nClusters, nPrisms in *. lia. }
  cbn [prismLoop]. rewrite F7, (vec_at_inr _ _ Hnth). cbn [bind].
  rewrite (sameFrame_prismChannel _ Hf), F8.
  set (isTop := match p with TopPrismatic => true | BottomPrismatic => false end).
  destruct (m_bIgnoreTouchSensors st) eqn:Eig.
  - exists true, st0. split; [exact Hf|]. split; [auto|].
    rewrite (sineOf_sineTarget _ (sameFrame_isSetUp Hf Hset) Hidx).
    cbn [bind]. rewrite F3, (allocated_cell Hpc Hidx). cbn [bind].
    rewrite (sameFrame_sineTarget _ _ Hf). reflexivity.
  - pose proof (isLocked_frame subject isTop st0) as Hf1.
    destruct (isLocked subject isTop st0) as [locked st1]. cbn [snd] in Hf1.
    pose proof (sameFrame_trans Hf1 Hf) as Hf1'.
    pose proof Hf1' as (_ & _ & G3 & _).
    exists (negb locked), st1. split; [exact Hf1'|]. split; [discriminate|].
    destruct locked; cbn [negb jointCommand].
    + cbn [bind ret]. rewrite G3, (allocated_cell Hpc Hidx). reflexivity.
    + rewrite (sineOf_sineTarget _ (sameFrame_isSetUp Hf1' Hset) Hidx).
      cbn [bind]. rewrite G3, (allocated_cell Hpc Hidx). cbn [bind].
      rewrite (sameFrame_sineTarget _ _ Hf1'). reflexivity.
Qed.

(* ================================================================= *)
(** ** readManualParams: the bound of the loop over the cells *)

Lemma vec_set_length {A} (v v' : list A) (i : nat) (a : A) :
  vec_set v i a = inr v' -> length v' = length v.
Proof.
  unfold vec_set. destruct (i <? length v)%nat; [|discriminate].
  intros E. injection E as <-. apply upd_length.
Qed.

Lemma readCells_length (atof : string -> Q) (cells : list string) :
  forall iCell result result',
    readCells atof cells iCell result = inr result' -> length result' = length result.
Proof.
  induction cells as [|c cells IH]; intros iCell result result' E; simpl in E.
  - now injection E as <-.
  - destruct (iCell <=? numParams)%nat; [|now injection E as <-].
    destruct (vec_set result iCell (atof c)) as [f|r] eqn:Es; [discriminate|].
    simpl in E. rewrite (IH _ _ _ E). now apply vec_set_length in Es.
Qed.

Lemma tweakFrom_length (rand : nat -> Z) (result : list Q) :
  forall i, length (tweakFrom rand i result) = length result.
Proof. induction result as [|x result IH]; intros i; simpl; auto. Qed.

(** A call that returns hands back [nActions*4 + 2] values. *)
Lemma readManualParams_length (atof : string -> Q) (rand : nat -> Z) (lineNumber : Z)
    (infile : option string) (result : list Q) :
  readManualParams atof rand lineNumber infile = inr result ->
  length result = (nActions * 4 + 2)%nat.
Proof.
  unfold readManualParams. destruct (lineNumber <=? 0)%Z; [discriminate|].
  destruct (readCells _ _ _ _) as [f|r] eqn:Er; [discriminate|].
  simpl. intros E. injection E as <-.
  rewrite tweakFrom_length, (readCells_length _ _ _ _ Er), repeat_length. reflexivity.
Qed.

(** Cell number [numParams] passes the test [iCell <= numParams]. *)
Lemma readCells_past_the_end (atof : string -> Q) (cells : list string) :
  forall iCell result,
    length result = numParams -> (iCell <= numParams < iCell + length cells)%nat ->
    readCells atof cells iCell result = inl (out_of_range numParams numParams).
Proof.
  induction cells as [|c cells IH]; intros iCell result Hlen Hi; cbn [length] in Hi.
  - lia.
  - cbn [readCells].
    destruct (Nat.leb_spec iCell numParams) as [Hle|Hgt]; [|lia].
    unfold vec_set. rewrite Hlen.
    destruct (Nat.ltb_spec iCell numParams) as [Hlt|Hge].
    + cbn [bind]. apply IH; [now rewrite upd_length|lia].
    + replace iCell with numParams by lia. reflexivity.
Qed.

(** Claim C10, at a line of nineteen fields.  [readManualParams] sizes its
    result for [nActions*4 + 2 = 18] values, and the loop over the cells
    stops at [iCell <= numParams]: the nineteenth field is stored at index
    18, one past the last element of the vector. *)
Theorem readManualParams_writes_past_the_end (atof : string -> Q) (rand : nat -> Z) :
  length (getlines "," nineteenFields EmptyString) = 19%nat /\
  numParams = 18%nat /\
  readManualParams atof rand 1 (Some nineteenFields) = inl (out_of_range 18 18).
Proof.
  split; [reflexivity|]. split; [reflexivity|].
  unfold readManualParams. cbn [Z.leb Z.compare].
  rewrite readCells_past_the_end.
  - reflexivity.
  - apply repeat_length.
  - vm_compute. lia.
Qed.

(* ================================================================= *)
(** ** Concrete episodes *)

(** Claim C1, at an episode whose four channels decode to four different
    tuples.  Joint [j] is evaluated on channel [nClusters + j - 1]: the
    bottom joint is sent the sine of channel 1, the tuple decoded from slots
    4 to 7 that also drives the muscles of the second cluster, and the top
    joint that of channel 2; the last channel is never copied into the
    arrays, whose last cell keeps what the allocation left there. *)
Theorem joint_shares_last_cluster_channel (atof : string -> Q) (sqrt : Q -> Q) :
  let st := afterSetup atof rawDistinct in
  let channel := channelOf rawDistinct in
  let t := 0.0 + 3 in
  m_actions st = channelsOf rawDistinct /\
  prismChannel st 0 = (nClusters - 1)%nat /\
  prismChannel st 1 = nClusters /\
  cell (amplitude st) (nActions - 1) = 7 /\
  (exists st',
      onStep sqrt (robot false false origin) 3 st
      = (inr tt, st',
         map (fun m => control m 3 1 (channelTarget (channel 0%nat) t 0)) [0; 1; 2; 3]%nat
         ++ map (fun m => control m 3 1
                            (channelTarget (channel 1%nat) t (0 + nth 2 (channel 0%nat) 0)))
                [4; 5; 6; 7]%nat
         ++ [setPreferredLength BottomPrismatic (channelTarget (channel 1%nat) t 0);
             setPreferredLength TopPrismatic
               (channelTarget (channel 2%nat) t (0 + nth 2 (channel 1%nat) 0))]
         ++ moveMotors (robot false false origin) 3)) /\
  ~ nth 0 (channel 1%nat) 0 == nth 0 (channel 2%nat) 0.
Proof.
  cbv zeta. split; [vm_compute; reflexivity|].
  split; [vm_compute; reflexivity|]. split; [vm_compute; reflexivity|].
  split; [vm_compute; reflexivity|]. split.
  - eexists. vm_compute. reflexivity.
  - vm_compute. discriminate.
Qed.

(** Claim C3, at an episode of two warm-up ticks.  The bottom touch group
    is fully touching on the first tick, which pauses the bottom joint, and
    the top group on the second, which advances the bottom counter.
    [onTeardown] resets [m_totalTime], [m_bRecordedStart] and [m_bBadRun];
    the paused flag and the counter keep the values the episode left, which
    are not those of a new controller. *)
Theorem teardown_keeps_lock_state (atof : string -> Q) (sqrt : Q -> Q) :
  let st0 := afterSetup atof rawFlags in
  let st1 := snd (fst (onStep sqrt (robot true false origin) 1 st0)) in
  let st2 := snd (fst (onStep sqrt (robot false true origin) 1 st1)) in
  let st3 := snd (fst (onTeardown sqrt (robot false true origin) st2)) in
  fst (fst (onTeardown sqrt (robot false true origin) st2)) = inr tt /\
  m_bBottomPaused newController = false /\ bottomCounter newController = 0%Z /\
  m_bBottomPaused st2 = true /\ bottomCounter st2 = 1%Z /\
  m_bBottomPaused st3 = true /\ bottomCounter st3 = 1%Z /\
  m_totalTime st3 = 0.0 /\ m_bRecordedStart st3 = false /\ m_bBadRun st3 = false.
Proof.
  cbv zeta. repeat split; vm_compute; reflexivity.
Qed.

(** What [onTeardown] leaves of the lock state, in every state. *)
Lemma onTeardown_lock_state (sqrt : Q -> Q) (subject : DuCTTRobotModel) (st : Controller) :
  let st' := snd (fst (onTeardown sqrt subject st)) in
  m_bBottomPaused st' = m_bBottomPaused st /\ m_bTopPaused st' = m_bTopPaused st /\
  bottomCounter st' = bottomCounter st /\ topCounter st' = topCounter st /\
  isLocked_maxCount st' = isLocked_maxCount st.
Proof.
  unfold onTeardown. destruct (totalEnergySpent subject); repeat split; reflexivity.
Qed.

(** With a hysteresis of one millisecond the bottom joint is PAUSED on the
    second tick; two more ticks of the same signals (pause group fully
    touching, unpause group not) leave it PAUSED. *)
Lemma pause_signal_alone_does_not_unpause :
  let st := afterSetup (fun _ => 0) rawQuick in
  let s := robot true false origin in
  pauseSignal false s = true /\ unpauseSignal false s = false /\
  isPaused false st = false /\ debounceCounter false st = 0%Z /\
  m_dHistorisisSeconds st * 1000 == 1 /\
  isPaused false (snd (lockTicks false [s] st)) = false /\
  isPaused false (snd (lockTicks false [s; s] st)) = true /\
  isPaused false (snd (lockTicks false [s; s; s; s] st)) <> false.
Proof.
  cbv zeta. repeat split; try (vm_compute; reflexivity).
  vm_compute. discriminate.
Qed.

(* ================================================================= *)
(** ** The theorems at concrete inputs *)

Lemma decode_exact_length_witness :
  transformActions (fun _ => 0) newController (fun _ => 0%Z) None [rawDistinct]
  = inr (channelsOf rawDistinct, newController) /\
  length (channelsOf rawDistinct) = nActions /\
  Forall InRange (channelsOf rawDistinct).
Proof.
  apply (@decode_exact_length (fun _ => 0) newController (fun _ => 0%Z) None
           [rawDistinct] rawDistinct).
  - reflexivity.
  - reflexivity.
  - unfold rawDistinct. repeat constructor; discriminate.
Defined.

Lemma decode_with_flags_witness :
  exists st',
    transformActions (fun _ => 0) newController (fun _ => 0%Z) None [rawFlags]
    = inr (channelsOf rawFlags, st') /\
    st' = set_m_dHistorisisSeconds (nth (4 * nActions + 1) rawFlags 0 * (2.0 - 0.0) + 0.0)
            (set_m_bIgnoreTouchSensors (Qltb (nth (4 * nActions) rawFlags 0) 0.5)
               newController) /\
    (m_bIgnoreTouchSensors st' = true <-> nth (4 * nActions) rawFlags 0 < 0.5) /\
    m_dHistorisisSeconds st' == nth (4 * nActions + 1) rawFlags 0 * 2 /\
    0 <= m_dHistorisisSeconds st' <= 2 /\
    forall st2 rand2 infile2 actions2,
      chooseParams (fun _ => 0) st2 rand2 infile2 actions2
      = inr (firstn (4 * nActions) rawFlags) ->
      transformActions (fun _ => 0) st2 rand2 infile2 actions2
      = inr (channelsOf rawFlags, st2).
Proof.
  apply (@decode_with_flags (fun _ => 0) newController (fun _ => 0%Z) None
           [rawFlags] rawFlags rawFlags).
  - reflexivity.
  - reflexivity.
  - reflexivity.
  - reflexivity.
  - unfold rawFlags. cbn [repeat app]. repeat constructor; discriminate.
Defined.

Lemma teardown_scores_witness :
  totalEnergySpent contractingRobot = inr (0 + 1 * (4 - 5) + 2 * 0 + 2 * (1 - 1)) /\
  exists first st',
    onTeardown (fun x => x) contractingRobot newController
    = (inr tt, st',
       [endEpisode (m_bUseNeuro newController)
                   [first; 0 + 1 * (4 - 5) + 2 * 0 + 2 * (1 - 1)]]) /\
    (m_bBadRun newController = true -> first = -1) /\
    (m_bBadRun newController = false ->
       (m_axis newController = 0%Z -> first = Qabs (deltaX contractingRobot newController)) /\
       (m_axis newController = 2%Z -> first = Qabs (deltaZ contractingRobot newController)) /\
       (m_axis newController = 3%Z ->
          first = (fun x => x)
                    (deltaX contractingRobot newController * deltaX contractingRobot newController +
                     deltaY contractingRobot newController * deltaY contractingRobot newController +
                     deltaZ contractingRobot newController * deltaZ contractingRobot newController)) /\
       (m_axis newController <> 0%Z -> m_axis newController <> 2%Z ->
        m_axis newController <> 3%Z ->
          first = deltaY contractingRobot newController)).
Proof.
  split; [reflexivity|].
  apply (@teardown_scores (fun x => x) contractingRobot newController).
  reflexivity.
Defined.

Lemma energy_counts_contraction_only_witness :
  Forall parallelHistory (getAllMuscles contractingRobot) /\
  exists energySpent,
    totalEnergySpent contractingRobot = inr energySpent /\
    energySpent == energyMetric (getAllMuscles contractingRobot) /\
    (Forall (fun h => noContraction (restLengths h)) (getAllMuscles contractingRobot) ->
     energySpent == 0).
Proof.
  assert (H : Forall parallelHistory (getAllMuscles contractingRobot))
    by (repeat constructor).
  split; [exact H|].
  apply (@energy_counts_contraction_only contractingRobot H).
Defined.

Lemma lock_hysteresis_witness :
  (forall ticks,
      (length ticks <= 500)%nat -> Forall (pausing false) ticks ->
      fst (lockTicks false ticks newController) = repeat false (length ticks) /\
      isPaused false (snd (lockTicks false ticks newController)) = false) /\
  (forall ticks trip,
      length ticks = 500%nat -> Forall (pausing false) (ticks ++ [trip]) ->
      let st1 := snd (lockTicks false (ticks ++ [trip]) newController) in
      fst (lockTicks false (ticks ++ [trip]) newController) = repeat false 500 ++ [true] /\
      isPaused false st1 = true /\
      debounceCounter false st1 = 0%Z /\
      (forall more,
          Forall (pausingOnly false) more ->
          fst (lockTicks false more st1) = repeat false (length more) /\
          isPaused false (snd (lockTicks false more st1)) = true /\
          debounceCounter false (snd (lockTicks false more st1)) = 0%Z) /\
      (forall more,
          (length more <= 500)%nat -> Forall (pausingBoth false) more ->
          isPaused false (snd (lockTicks false more st1)) = true) /\
      (forall more back,
          length more = 500%nat -> Forall (pausingBoth false) (more ++ [back]) ->
          fst (lockTicks false (more ++ [back]) st1) = repeat false (500 + 1) /\
          isPaused false (snd (lockTicks false (more ++ [back]) st1)) = false)).
Proof.
  apply (@lock_hysteresis false 500 newController).
  - reflexivity.
  - reflexivity.
  - left. reflexivity.
  - vm_compute. discriminate.
  - vm_compute. reflexivity.
Defined.

(* ================================================================= *)
(** * Further properties *)

(* ================================================================= *)
(** ** readManualParams on a line that fits *)

Lemma upd_middle {A} (pre : list A) :
  forall a x rest, upd (pre ++ x :: rest) (length pre) a = pre ++ a :: rest.
Proof.
  induction pre as [|p pre IH]; intros a x rest; cbn [app length upd].
  - reflexivity.
  - now rewrite IH.
Qed.

(** Cells that fit are stored one after the other from [iCell] on. *)
Lemma readCells_fills (atof : string -> Q) (cells : list string) :
  forall pre rest,
    length (pre ++ rest) = numParams -> (length cells <= length rest)%nat ->
    readCells atof cells (length pre) (pre ++ rest)
    = inr (pre ++ map atof cells ++ skipn (length cells) rest).
Proof.
  induction cells as [|c cells IH]; intros pre rest Hlen Hc; cbn [length] in Hc.
  - reflexivity.
  - destruct rest as [|x rest]; cbn [length] in Hc; [lia|].
    cbn [readCells]. rewrite length_app in Hlen. cbn [length] in Hlen.
    destruct (Nat.leb_spec (length pre) numParams) as [_|Hgt]; [|lia].
    unfold vec_set. rewrite length_app. cbn [length].
    destruct (Nat.ltb_spec (length pre) (length pre + S (length rest))) as [_|Hge]; [|lia].
    cbn [bind]. rewrite upd_middle.
    replace (S (length pre)) with (length (pre ++ [atof c]))
      by (rewrite length_app; cbn [length]; lia).
    replace (pre ++ atof c :: rest) with ((pre ++ [atof c]) ++ rest)
      by (now rewrite <- app_assoc).
    rewrite IH by (rewrite ?length_app; cbn [length]; lia).
    cbn [map skipn]. now rewrite <- !app_assoc.
Qed.

Lemma nth_tweakFrom (rand : nat -> Z) (result : list Q) :
  forall k i,
    (i < length result)%nat ->
    nth i (tweakFrom rand k result) 0 = tweak (rand (k + i)%nat) (nth i result 0).
Proof.
  induction result as [|x result IH]; intros k [|i] Hi; cbn [length] in Hi; try lia.
  - cbn. now rewrite Nat.add_0_r.
  - cbn [tweakFrom nth]. rewrite IH by lia. f_equal. f_equal. lia.
Qed.

(** The perturbation lies between -0.005 and +0.0049. *)
Lemma tweak_bounds (r : Z) (x : Q) :
  (0 <= r)%Z -> x - 0.005 <= tweak r x <= x + 0.0049.
Proof.
  intros Hr. unfold tweak.
  assert (Hrem : (0 <= Z.rem r 100 <= 99)%Z).
  { pose proof (Z.rem_bound_pos r 100 Hr ltac:(lia)). lia. }
  assert (H0 : 0 <= inject_Z (Z.rem r 100)).
  { change 0 with (inject_Z 0). rewrite <- Zle_Qle. lia. }
  assert (H1 : inject_Z (Z.rem r 100) <= 99).
  { change 99 with (inject_Z 99). rewrite <- Zle_Qle. lia. }
  set (q := inject_Z (Z.rem r 100)) in *.
  assert (E : q / 100 == q * (1 # 100)) by (unfold Qdiv; reflexivity).
  rewrite E. split; lra.
Qed.

Lemma nth_filled (atof : string -> Q) (cells : list string) (i : nat) :
  (length cells <= numParams)%nat -> (i < numParams)%nat ->
  nth i (map atof cells ++ repeat 1.0 (numParams - length cells)) 0
  = nth i (map atof cells) 1.0.
Proof.
  intros Hc Hi.
  destruct (Nat.lt_ge_cases i (length cells)) as [Hlt|Hge].
  - rewrite app_nth1 by now rewrite length_map.
    apply nth_indep. now rewrite length_map.
  - rewrite app_nth2 by (rewrite length_map; lia).
    rewrite (nth_overflow (map atof cells)) by (rewrite length_map; lia).
    rewrite length_map. apply nth_repeat_lt. lia.
Qed.

Lemma skipn_repeat_sub {A} (x : A) (m : nat) :
  forall n, skipn n (repeat x m) = repeat x (m - n).
Proof.
  induction m as [|m IH]; intros [|n]; cbn [repeat skipn Nat.sub]; auto.
Qed.

Lemma readManualParams_fits (atof : string -> Q) (rand : nat -> Z) (lineNumber : Z)
    (infile : option string) :
  (0 < lineNumber)%Z ->
  let cells := getlines "," (grabLine infile (Z.to_nat lineNumber)) EmptyString in
  (length cells <= numParams)%nat ->
  readManualParams atof rand lineNumber infile
  = inr (tweakFrom rand 0 (map atof cells ++ repeat 1.0 (numParams - length cells))).
Proof.
  intros Hl cells Hc. unfold readManualParams.
  destruct (Z.leb_spec lineNumber 0) as [Hle|_]; [lia|].
  fold cells.
  pose proof (@readCells_fills atof cells [] (repeat 1.0 numParams)) as H.
  cbn [app length] in H. rewrite H by (rewrite ?repeat_length; lia).
  cbn [bind]. unfold ret. do 3 f_equal.
  apply skipn_repeat_sub.
Qed.

(** Property X1.  For a positive line number and a line of at most
    [numParams] = 18 comma-separated fields, [readManualParams] returns a
    vector of exactly 18 values.  Slot [i] holds the number read from field
    [i], or the default 1.0 where the line has no field [i], moved by the
    random perturbation, which lies between -0.005 and +0.0049 ([rand()] is
    nonnegative). *)
Theorem readManualParams_stays_near_the_line (atof : string -> Q) (rand : nat -> Z)
    (lineNumber : Z) (infile : option string) :
  (0 < lineNumber)%Z ->
  (forall k, 0 <= rand k)%Z ->
  let cells := getlines "," (grabLine infile (Z.to_nat lineNumber)) EmptyString in
  (length cells <= numParams)%nat ->
  exists result,
    readManualParams atof rand lineNumber infile = inr result /\
    length result = numParams /\
    forall i, (i < numParams)%nat ->
      nth i (map atof cells) 1.0 - 0.005 <= nth i result 0
      /\ nth i result 0 <= nth i (map atof cells) 1.0 + 0.0049.
Proof.
  intros Hl Hrand cells Hc.
  eexists. split; [apply readManualParams_fits; assumption|].
  fold cells.
  assert (Hlen : length (map atof cells ++ repeat 1.0 (numParams - length cells))
                 = numParams).
  { rewrite length_app, length_map, repeat_length. lia. }
  split; [now rewrite tweakFrom_length|].
  intros i Hi. rewrite nth_tweakFrom by now rewrite Hlen.
  rewrite nth_filled by assumption.
  apply tweak_bounds, Hrand.
Qed.

(** Property X2.  When there is no line to read (the file cannot be opened,
    or the requested line is empty), [readManualParams] raises nothing and
    returns 18 values, each the default 1.0 with its perturbation: between
    0.995 and 1.0049. *)
Theorem readManualParams_defaults_without_a_line (atof : string -> Q) (rand : nat -> Z)
    (lineNumber : Z) (infile : option string) :
  (0 < lineNumber)%Z ->
  (forall k, 0 <= rand k)%Z ->
  grabLine infile (Z.to_nat lineNumber) = EmptyString ->
  exists result,
    readManualParams atof rand lineNumber infile = inr result /\
    length result = numParams /\
    Forall (fun x => 0.995 <= x /\ x <= 1.0049) result.
Proof.
  intros Hl Hrand Hline.
  pose proof (@readManualParams_fits atof rand lineNumber infile Hl) as H.
  rewrite Hline in H. cbn [getlines length map app Nat.sub] in H.
  specialize (H ltac:(lia)).
  eexists. split; [exact H|].
  split; [now rewrite tweakFrom_length, repeat_length|].
  apply Forall_forall. intros x Hx.
  apply (In_nth _ _ 0) in Hx. destruct Hx as (i & Hi & <-).
  rewrite tweakFrom_length, repeat_length in Hi.
  rewrite nth_tweakFrom by now rewrite repeat_length.
  rewrite nth_repeat_lt by assumption.
  pose proof (@tweak_bounds (rand (0 + i)%nat) 1.0 (Hrand _)) as [B1 B2].
  split; lra.
Qed.

(* ================================================================= *)
(** ** transformActions on vectors of other lengths *)

(** Without wrap-around the flag index is [paramsSize - (size - k)]. *)
Lemma flagIndex_plain (paramsSize size k : nat) :
  (k <= size)%nat -> (size - k <= paramsSize)%nat ->
  (Z.of_nat size < 2 ^ 31)%Z -> (Z.of_nat paramsSize < 2 ^ 31)%Z ->
  flagIndex paramsSize size k = (paramsSize - (size - k))%nat.
Proof.
  intros Hk Hp Hs Hps. unfold flagIndex, as_int, as_size_t.
  rewrite (Z.mod_small (Z.of_nat size - Z.of_nat k)) by lia.
  rewrite (Z.mod_small (Z.of_nat size - Z.of_nat k + 2 ^ 31)) by lia.
  rewrite Z.mod_small by lia. lia.
Qed.

Lemma mod4_test (n : nat) : (n mod 4 =? 0)%nat = true <-> (n mod 4 = 0)%nat.
Proof. apply Nat.eqb_eq. Qed.

Lemma transformActions_multiple_of_four (atof : string -> Q)
    (st : Controller) (rand : nat -> Z) (infile : option string)
    (actions : list (list Q)) (raw : list Q) :
  chooseParams atof st rand infile actions = inr raw ->
  (4 * nActions <= length raw)%nat ->
  (length raw mod 4 = 0)%nat ->
  transformActions atof st rand infile actions = inr (channelsOf raw, st).
Proof.
  intros Hraw Hlen Hmod.
  assert (Hle : (nActions * N_PARAMS <= length raw)%nat) by (unfold N_PARAMS; lia).
  unfold transformActions. rewrite Hraw. cbn [bind].
  rewrite (decode_channels _ Hle). cbn [bind].
  apply mod4_test in Hmod. rewrite Hmod. reflexivity.
Qed.

(** Property X3.  When the decoded vector has at least [4*nActions] slots and
    its length is a multiple of four (16, 20, 24, ...), [transformActions]
    decodes the four channels from the first 16 slots, reads no flag, and
    leaves the controller as it was: the slots from 16 on are ignored. *)
Theorem transformActions_ignores_slots_beyond_the_channels (atof : string -> Q)
    (st : Controller) (rand : nat -> Z) (infile : option string)
    (actions : list (list Q)) (raw : list Q) :
  chooseParams atof st rand infile actions = inr raw ->
  (4 * nActions <= length raw)%nat ->
  (length raw mod 4 = 0)%nat ->
  transformActions atof st rand infile actions = inr (channelsOf raw, st).
Proof. apply transformActions_multiple_of_four. Qed.

Lemma transformActions_with_flags (atof : string -> Q)
    (st : Controller) (rand : nat -> Z) (infile : option string)
    (actions : list (list Q)) (source raw : list Q) :
  nth_error actions 0 = Some source ->
  length source = length raw ->
  chooseParams atof st rand infile actions = inr raw ->
  (4 * nActions + 2 <= length raw)%nat ->
  (length raw mod 4 <> 0)%nat ->
  (Z.of_nat (length raw) < 2 ^ 31)%Z ->
  transformActions atof st rand infile actions
  = inr (channelsOf raw,
         set_m_dHistorisisSeconds (nth (4 * nActions + 1) raw 0 * (2.0 - 0.0) + 0.0)
           (set_m_bIgnoreTouchSensors (Qltb (nth (4 * nActions) raw 0) 0.5) st)).
Proof.
  intros Hsrc Hslen Hraw Hlen Hmod Hint.
  assert (Hle : (nActions * N_PARAMS <= length raw)%nat) by (unfold N_PARAMS; lia).
  unfold transformActions. rewrite Hraw. cbn [bind].
  rewrite (decode_channels _ Hle). cbn [bind].
  destruct (length raw mod 4 =? 0)%nat eqn:E; [apply mod4_test in E; lia|].
  cbn [negb]. rewrite (vec_at_inr _ _ Hsrc). cbn [bind]. rewrite Hslen.
  assert (Hn : (nActions * N_PARAMS = 16)%nat) by reflexivity.
  assert (H4 : (4 * nActions = 16)%nat) by reflexivity.
  rewrite !flagIndex_plain by lia.
  replace (length raw - (length raw - nActions * N_PARAMS))%nat with (4 * nActions)%nat
    by lia.
  replace (length raw - (length raw - (nActions * N_PARAMS + 1)))%nat
    with (4 * nActions + 1)%nat by lia.
  rewrite !(@vec_at_nth Q raw _ 0) by lia.
  reflexivity.
Qed.

(** Property X4.  When the decoded vector has at least [4*nActions + 2] slots
    and its length is not a multiple of four (and the adapter vector has the
    same length), the two flags are read at the fixed slots 16 and 17,
    whatever follows them: touch sensors are ignored iff slot 16 is below 0.5,
    and the hysteresis is slot 17 scaled to [0, 2] seconds. *)
Theorem transformActions_reads_flags_at_fixed_slots (atof : string -> Q)
    (st : Controller) (rand : nat -> Z) (infile : option string)
    (actions : list (list Q)) (source raw : list Q) :
  nth_error actions 0 = Some source ->
  length source = length raw ->
  chooseParams atof st rand infile actions = inr raw ->
  (4 * nActions + 2 <= length raw)%nat ->
  (length raw mod 4 <> 0)%nat ->
  (Z.of_nat (length raw) < 2 ^ 31)%Z ->
  transformActions atof st rand infile actions
  = inr (channelsOf raw,
         set_m_dHistorisisSeconds (nth (4 * nActions + 1) raw 0 * (2.0 - 0.0) + 0.0)
           (set_m_bIgnoreTouchSensors (Qltb (nth (4 * nActions) raw 0) 0.5) st)).
Proof. apply transformActions_with_flags. Qed.

(** Property X5.  A vector of [4*nActions + 1] = 17 slots from the optimizer
    passes the length test for the flags ([17 % 4 != 0]); the first flag is
    read from slot 16 and the second from slot 17, one past the end of the
    vector. *)
Theorem transformActions_overruns_on_one_trailing_slot (atof : string -> Q)
    (st : Controller) (rand : nat -> Z) (infile : option string)
    (actions : list (list Q)) (raw : list Q) :
  m_usingManualParams st = false ->
  nth_error actions 0 = Some raw ->
  length raw = (4 * nActions + 1)%nat ->
  transformActions atof st rand infile actions
  = inl (out_of_range (4 * nActions + 1) (4 * nActions + 1)).
Proof.
  intros Hman Hsrc Hlen.
  assert (Hraw : chooseParams atof st rand infile actions = inr raw).
  { unfold chooseParams. rewrite Hman. now apply vec_at_inr. }
  assert (Hle : (nActions * N_PARAMS <= length raw)%nat)
    by (rewrite Hlen; unfold N_PARAMS; lia).
  unfold transformActions. rewrite Hraw. cbn [bind].
  rewrite (decode_channels _ Hle). cbn [bind].
  rewrite Hlen. change (negb ((4 * nActions + 1) mod 4 =? 0)%nat) with true. cbn iota.
  rewrite (vec_at_inr _ _ Hsrc). cbn [bind]. rewrite Hlen.
  change (flagIndex (4 * nActions + 1) (4 * nActions + 1) (nActions * N_PARAMS))
    with (4 * nActions)%nat.
  change (flagIndex (4 * nActions + 1) (4 * nActions + 1) (nActions * N_PARAMS + 1))
    with (4 * nActions + 1)%nat.
  rewrite (@vec_at_nth Q raw (4 * nActions) 0) by (rewrite Hlen; lia).
  cbn [bind ret]. unfold vec_at.
  assert (Hnone : nth_error raw (4 * nActions + 1) = None)
    by (apply nth_error_None; rewrite Hlen; lia).
  rewrite Hnone, Hlen. reflexivity.
Qed.

(** The first channel read past the end of a short vector. *)
Lemma decode_short (params : list Q) :
  (length params < nActions * N_PARAMS)%nat ->
  mapM (scaleChannel params) (seq 0 nActions)
  = inl (out_of_range (length params) (length params)).
Proof.
  intros Hlen. change (nActions * N_PARAMS)%nat with 16%nat in Hlen.
  do 16 (destruct params as [|? params]; [reflexivity|]).
  cbn [length] in Hlen. lia.
Qed.

(** Property X6.  [transformActions] does not check the length of what the
    optimizer hands out: with no vector at all, [actions[0]] is read out of
    range, and with a first vector of fewer than [4*nActions] slots the
    channel loop reads slot [length raw], the first one past its end. *)
Theorem transformActions_overruns_on_a_short_vector (atof : string -> Q)
    (st : Controller) (rand : nat -> Z) (infile : option string)
    (actions : list (list Q)) :
  m_usingManualParams st = false ->
  (actions = [] ->
   transformActions atof st rand infile actions = inl (out_of_range 0 0)) /\
  (forall raw,
      nth_error actions 0 = Some raw ->
      (length raw < 4 * nActions)%nat ->
      transformActions atof st rand infile actions
      = inl (out_of_range (length raw) (length raw))).
Proof.
  intros Hman. split.
  - intros ->. unfold transformActions, chooseParams. rewrite Hman. reflexivity.
  - intros raw Hsrc Hlen.
    unfold transformActions, chooseParams. rewrite Hman, (vec_at_inr _ _ Hsrc).
    cbn [bind]. rewrite decode_short by (unfold N_PARAMS; lia). reflexivity.
Qed.

(** Property X7.  With manual parameters the 18 values come from the file, but
    the flag indices are computed from the size of the adapter's vector
    [actions[0]].  If that vector has [4*nActions] = 16 slots, the first flag
    is read from slot 18 of the 18 manual values, past their end. *)
Theorem transformActions_manual_needs_the_flag_slots (atof : string -> Q)
    (st : Controller) (rand : nat -> Z) (infile : option string)
    (actions : list (list Q)) (source params : list Q) :
  m_usingManualParams st = true ->
  readManualParams atof rand 1 infile = inr params ->
  nth_error actions 0 = Some source ->
  length source = (4 * nActions)%nat ->
  transformActions atof st rand infile actions
  = inl (out_of_range (4 * nActions + 2) (4 * nActions + 2)).
Proof.
  intros Hman Hread Hsrc Hslen.
  pose proof (readManualParams_length _ _ _ _ Hread) as Hlen.
  assert (Hle : (nActions * N_PARAMS <= length params)%nat)
    by (rewrite Hlen; unfold N_PARAMS; lia).
  unfold transformActions, chooseParams. rewrite Hman, Hread. cbn [bind].
  rewrite (decode_channels _ Hle). cbn [bind].
  rewrite Hlen. change (negb ((nActions * 4 + 2) mod 4 =? 0)%nat) with true. cbn iota.
  rewrite (vec_at_inr _ _ Hsrc). cbn [bind]. rewrite Hslen.
  change (flagIndex (nActions * 4 + 2) (4 * nActions) (nActions * N_PARAMS))
    with (4 * nActions + 2)%nat.
  unfold vec_at.
  assert (Hnone : nth_error params (4 * nActions + 2) = None)
    by (apply nth_error_None; rewrite Hlen; lia).
  rewrite Hnone, Hlen. reflexivity.
Qed.

(* ================================================================= *)
(** ** shouldPause and isLocked, one evaluation *)

Lemma shouldPause_fold (touchSensors : list bool) :
  forall acc,
    fold_left (fun shouldPause isTouching =>
                 if negb isTouching then false else shouldPause) touchSensors acc
    = acc && forallb (fun t => t) touchSensors.
Proof.
  induction touchSensors as [|t ts IH]; intros acc; cbn [fold_left forallb].
  - now rewrite andb_true_r.
  - rewrite IH. destruct t, acc; reflexivity.
Qed.

(** Property X8.  [shouldPause] answers true exactly when every touch sensor
    of the group reports contact, and false exactly when some sensor reports
    none; for a group without sensors it answers true. *)
Theorem shouldPause_iff_no_sensor_is_off (touchSensors : list bool) :
  (shouldPause touchSensors = true <-> Forall (fun t => t = true) touchSensors) /\
  (shouldPause touchSensors = false <-> In false touchSensors) /\
  shouldPause [] = true.
Proof.
  unfold shouldPause. rewrite shouldPause_fold. cbn [andb].
  split; [|split; [|reflexivity]].
  - rewrite forallb_forall, Forall_forall. reflexivity.
  - split.
    + intros H. induction touchSensors as [|t ts IH]; [discriminate|].
      cbn [forallb] in H. destruct t; [right; apply IH; exact H|now left].
    + intros H. destruct (forallb (fun t => t) touchSensors) eqn:E; [|reflexivity].
      rewrite forallb_forall in E. now apply E in H.
Qed.

Lemma isLocked_other_joint (subject : DuCTTRobotModel) (isTop : bool)
    (st : Controller) :
  isPaused (negb isTop) (snd (isLocked subject isTop st)) = isPaused (negb isTop) st /\
  debounceCounter (negb isTop) (snd (isLocked subject isTop st))
  = debounceCounter (negb isTop) st.
Proof.
  unfold isLocked, isPaused, debounceCounter.
  destruct st.
  destruct isTop; cbn -[Qgtb inject_Z Z.add Qmult];
    destruct (shouldPause (topTouchSensors subject)),
             (shouldPause (bottomTouchSensors subject));
    cbn -[Qgtb inject_Z Z.add Qmult].
  all: match goal with
       | m_bTopPaused0 : bool, m_bBottomPaused0 : bool |- _ =>
           destruct m_bTopPaused0, m_bBottomPaused0; cbn -[Qgtb inject_Z Z.add Qmult]
       end.
  all: repeat match goal with
         | |- context [Qgtb ?a ?b] => destruct (Qgtb a b); cbn -[Qgtb inject_Z Z.add Qmult]
         end.
  all: split; reflexivity.
Qed.

(** Property X9.  One evaluation of [isLocked] for a joint never changes the
    paused flag or the debounce counter of the other joint. *)
Theorem isLocked_leaves_the_other_joint (subject : DuCTTRobotModel) (isTop : bool)
    (st : Controller) :
  isPaused (negb isTop) (snd (isLocked subject isTop st)) = isPaused (negb isTop) st /\
  debounceCounter (negb isTop) (snd (isLocked subject isTop st))
  = debounceCounter (negb isTop) st.
Proof. apply isLocked_other_joint. Qed.

(** Property X10.  [isLocked] answers true only on a tick on which the joint
    goes from unpaused to paused: its pause group is fully touching, the joint
    was not paused, the counter after its increment exceeds the threshold,
    and on return the joint is paused with its counter back at 0. *)
Theorem isLocked_true_only_on_the_pausing_tick (subject : DuCTTRobotModel)
    (isTop : bool) (st : Controller) :
  fst (isLocked subject isTop st) = true ->
  pauseSignal isTop subject = true /\
  isPaused isTop st = false /\
  maxCountOf st < inject_Z (debounceCounter isTop st + 1) /\
  isPaused isTop (snd (isLocked subject isTop st)) = true /\
  debounceCounter isTop (snd (isLocked subject isTop st)) = 0%Z.
Proof.
  intros Hl.
  destruct (isLocked_step isTop subject st) as (H1 & H2 & H3 & _).
  rewrite Hl in H1. symmetry in H1.
  apply andb_true_iff in H1. destruct H1 as [Hf Hp].
  apply negb_true_iff in Hp. rewrite Hp in *. cbn [negb andb orb] in *.
  rewrite Hf in H2, H3.
  apply andb_true_iff in Hf. destruct Hf as [HP Hg].
  rewrite HP in Hg. cbn [andb orb] in Hg. apply Qgtb_gt in Hg.
  repeat split; assumption.
Qed.

(** Property X11.  While the pause group of a joint is not fully touching,
    [isLocked] answers false and the paused flag keeps its value, so a paused
    joint stays paused; the counter advances by one only if the joint is
    paused and its unpause group is fully touching. *)
Theorem isLocked_needs_the_pause_signal (subject : DuCTTRobotModel) (isTop : bool)
    (st : Controller) :
  pauseSignal isTop subject = false ->
  fst (isLocked subject isTop st) = false /\
  isPaused isTop (snd (isLocked subject isTop st)) = isPaused isTop st /\
  debounceCounter isTop (snd (isLocked subject isTop st))
  = (if unpauseSignal isTop subject && isPaused isTop st
     then debounceCounter isTop st + 1 else debounceCounter isTop st)%Z.
Proof.
  intros HP.
  destruct (isLocked_step isTop subject st) as (H1 & H2 & H3 & _).
  rewrite HP in H1, H2, H3. cbn [andb orb xorb] in H1, H2, H3.
  rewrite H1, H3. split; [reflexivity|]. split; [|reflexivity].
  rewrite H2. now destruct (isPaused isTop st).
Qed.

(** Property X12.  The threshold [maxCount] is a function-static variable: once
    it has been initialised, a later change of [m_dHistorisisSeconds] (a
    hysteresis decoded by a later [onSetup]) has no effect on [isLocked], and
    the stored threshold stays as it is. *)
Theorem isLocked_threshold_is_latched (subject : DuCTTRobotModel) (isTop : bool)
    (st : Controller) (m h : Q) :
  isLocked_maxCount st = Some m ->
  isLocked subject isTop (set_m_dHistorisisSeconds h st)
  = (fst (isLocked subject isTop st),
     set_m_dHistorisisSeconds h (snd (isLocked subject isTop st))) /\
  isLocked_maxCount (snd (isLocked subject isTop st)) = Some m.
Proof.
  intros Hm. unfold isLocked. destruct st. cbn in Hm. subst.
  destruct isTop; cbn -[Qgtb inject_Z Z.add Qmult];
    destruct (shouldPause (topTouchSensors subject)),
             (shouldPause (bottomTouchSensors subject));
    cbn -[Qgtb inject_Z Z.add Qmult].
  all: match goal with
       | m_bTopPaused0 : bool, m_bBottomPaused0 : bool |- _ =>
           destruct m_bTopPaused0, m_bBottomPaused0; cbn -[Qgtb inject_Z Z.add Qmult]
       end.
  all: repeat match goal with
         | |- context [Qgtb ?a ?b] => destruct (Qgtb a b); cbn -[Qgtb inject_Z Z.add Qmult]
         end.
  all: split; reflexivity.
Qed.

(* ================================================================= *)
(** ** populateClusters, applyActions, onSetup *)

(** Case analysis on a list whose length is known. *)
Ltac list_of_length l H :=
  repeat (destruct l as [|? l]; cbn [length] in H; try lia);
  try clear H.

Lemma populateClusters_ok (subject : DuCTTRobotModel) (st : Controller) :
  length (clusters st) = nClusters ->
  length (prisms st) = nPrisms ->
  populateClusters subject st
  = inr (set_prisms boundPrisms (set_clusters (boundClusters subject) st)).
Proof.
  intros Hc Hp. unfold populateClusters.
  destruct (clusters st) as [|c0 [|c1 [|? ?]]]; try discriminate Hc.
  destruct (prisms st) as [|p0 [|p1 [|? ?]]]; try discriminate Hp.
  reflexivity.
Qed.

(** Property X13.  On a controller whose [clusters] and [prisms] vectors have
    the sizes the constructor gives them, [populateClusters] binds cluster [c]
    to the muscles the robot tags [c + 1] (tags are 1-based) and the joints to
    bottom then top, and changes nothing else.  If [clusters] is shorter than
    [nClusters], the assignment [clusters[cluster] = ...] is out of range. *)
Theorem populateClusters_binds_clusters_and_joints (subject : DuCTTRobotModel)
    (st : Controller) :
  (length (clusters st) = nClusters -> length (prisms st) = nPrisms ->
   populateClusters subject st
   = inr (set_prisms boundPrisms (set_clusters (boundClusters subject) st))) /\
  (length (clusters st) < nClusters ->
   populateClusters subject st
   = inl (out_of_range (length (clusters st)) (length (clusters st))))%nat.
Proof.
  split; [apply populateClusters_ok|].
  intros Hc. unfold populateClusters.
  destruct (clusters st) as [|c0 [|c1 ?]]; try reflexivity.
  cbn [length] in Hc. unfold nClusters in Hc. lia.
Qed.

Lemma nth_map_seq {A} (f : nat -> A) (n i : nat) (d : A) :
  (i < n)%nat -> nth i (map f (seq 0 n)) d = f i.
Proof.
  intros Hi.
  rewrite (nth_indep _ d (f 0%nat)) by (rewrite length_map, length_seq; exact Hi).
  rewrite map_nth, seq_nth by exact Hi. reflexivity.
Qed.

Lemma applyActions_ok (actions : list (list Q)) (st : Controller) :
  allocated (amplitude st) -> allocated (angularFrequency st) ->
  allocated (phaseChange st) -> allocated (dcOffset st) ->
  length (clusters st) = nClusters -> length (prisms st) = nPrisms ->
  length actions = nActions ->
  Forall (fun row => N_PARAMS <= length row)%nat actions ->
  applyActions actions st
  = inr (set_dcOffset (copiedColumn actions 3 (dcOffset st))
          (set_phaseChange (copiedColumn actions 2 (phaseChange st))
            (set_angularFrequency (copiedColumn actions 1 (angularFrequency st))
              (set_amplitude (copiedColumn actions 0 (amplitude st)) st)))).
Proof.
  intros (a & Ea & Ha) (w & Ew & Hw) (p & Ep & Hp) (d & Ed & Hd) Hc Hpr Hact Hrows.
  unfold applyActions, copiedColumn. rewrite Hact, Nat.eqb_refl. cbn [negb].
  destruct st; cbn in *; subst.
  unfold nActions, nClusters, nPrisms in *. cbn in Ha, Hw, Hp, Hd, Hact, Hc, Hpr.
  list_of_length a Ha. list_of_length w Hw. list_of_length p Hp. list_of_length d Hd.
  repeat match goal with
         | H : length ?l = _ |- _ => is_var l; list_of_length l H
         end.
  list_of_length actions Hact.
  repeat match goal with
         | H : Forall _ (_ :: _) |- _ => inversion H; clear H; subst
         end.
  unfold N_PARAMS in *.
  repeat match goal with
         | H : (4 <= length ?row)%nat |- _ =>
             do 4 (destruct row as [|? row]; cbn [length] in H; try lia); clear H
         end.
  reflexivity.
Qed.

Lemma cell_copiedColumn (actions : list (list Q)) (k i : nat) (old : option (list Q)) :
  (i < nActions - 1)%nat ->
  cell (copiedColumn actions k old) i = nth k (nth i actions []) 0.
Proof.
  intros Hi. unfold copiedColumn, cell.
  rewrite app_nth1 by (rewrite length_map, length_seq; exact Hi).
  now rewrite nth_map_seq.
Qed.

(** Property X14.  On allocated arrays and four rows of at least four values,
    [applyActions] returns; it copies the rows 0 to [nActions - 2] into the
    cells 0 to [nActions - 2] of [amplitude], [angularFrequency],
    [phaseChange] and [dcOffset] (column 0 to 3 in this order), and leaves
    the last cell of each array as it was: the last row is never copied. *)
Theorem applyActions_copies_all_rows_but_the_last (actions : list (list Q))
    (st : Controller) :
  allocated (amplitude st) -> allocated (angularFrequency st) ->
  allocated (phaseChange st) -> allocated (dcOffset st) ->
  length (clusters st) = nClusters -> length (prisms st) = nPrisms ->
  length actions = nActions ->
  Forall (fun row => N_PARAMS <= length row)%nat actions ->
  let st' := copiedChannels actions st in
  applyActions actions st = inr st' /\
  (forall i, (i < nActions - 1)%nat ->
     cell (amplitude st') i = nth 0 (nth i actions []) 0 /\
     cell (angularFrequency st') i = nth 1 (nth i actions []) 0 /\
     cell (phaseChange st') i = nth 2 (nth i actions []) 0 /\
     cell (dcOffset st') i = nth 3 (nth i actions []) 0) /\
  cell (amplitude st') (nActions - 1) = cell (amplitude st) (nActions - 1) /\
  cell (angularFrequency st') (nActions - 1) = cell (angularFrequency st) (nActions - 1) /\
  cell (phaseChange st') (nActions - 1) = cell (phaseChange st) (nActions - 1) /\
  cell (dcOffset st') (nActions - 1) = cell (dcOffset st) (nActions - 1).
Proof.
  intros Ha Hw Hp Hd Hc Hpr Hact Hrows st'.
  split; [now apply applyActions_ok|].
  split; [intros i Hi; subst st'; repeat split; apply cell_copiedColumn; exact Hi|].
  repeat split; reflexivity.
Qed.

Lemma channelsOf_rows (raw : list Q) :
  length (channelsOf raw) = nActions /\
  Forall (fun row => N_PARAMS <= length row)%nat (channelsOf raw).
Proof.
  split.
  - unfold channelsOf. now rewrite length_map, length_seq.
  - unfold channelsOf. apply Forall_map, Forall_forall. intros i _.
    unfold channelOf, decodeChannel, N_PARAMS. cbn [length]. lia.
Qed.

Lemma allocated_fresh (fresh : nat -> Q) : allocated (Some (map fresh (seq 0 nActions))).
Proof. eexists. split; [reflexivity|]. now rewrite length_map, length_seq. Qed.

Lemma onSetup_ok (atof : string -> Q) (subject : DuCTTRobotModel)
    (step : list (list Q)) (rand : nat -> Z) (infile : option string)
    (fresh : nat -> nat -> Q) (st : Controller) (raw : list Q) :
  m_usingManualParams st = false ->
  length (clusters st) = nClusters -> length (prisms st) = nPrisms ->
  nth_error step 0 = Some raw ->
  acceptedLength (length raw) ->
  onSetup atof subject step rand infile fresh st
  = (inr tt, setUpState subject step fresh raw st, setupCommands subject st).
Proof.
  intros Hman Hc Hp Hstep [Hmin Hacc].
  unfold onSetup. rewrite (@populateClusters_ok subject st Hc Hp).
  set (s1 := set_m_actions step
               (initializeSineWaves fresh
                  (set_prisms boundPrisms (set_clusters (boundClusters subject) st)))).
  change (m_actions s1) with step.
  assert (Hchoose : chooseParams atof s1 rand infile step = inr raw).
  { unfold chooseParams. change (m_usingManualParams s1) with (m_usingManualParams st).
    rewrite Hman. now apply vec_at_inr. }
  assert (Htr : transformActions atof s1 rand infile step
                = inr (channelsOf raw, decodedFlags raw s1)).
  { unfold decodedFlags. destruct (length raw mod 4 =? 0)%nat eqn:E.
    - apply transformActions_multiple_of_four; auto. now apply Nat.eqb_eq.
    - apply Nat.eqb_neq in E. destruct Hacc as [Hmod|[Hlen Hint]]; [contradiction|].
      apply (@transformActions_with_flags atof s1 rand infile step raw raw); auto. }
  rewrite Htr.
  set (s3 := set_m_actions (channelsOf raw) (decodedFlags raw s1)).
  change (m_actions s3) with (channelsOf raw).
  destruct (channelsOf_rows raw) as [Hrows Hrow4].
  rewrite (@applyActions_ok (channelsOf raw) s3); [reflexivity| | | | | | |assumption|assumption].
  all: subst s3 s1; unfold decodedFlags; destruct (length raw mod 4 =? 0)%nat.
  all: try apply allocated_fresh.
  all: try (unfold boundClusters; now rewrite length_map, length_seq).
  all: reflexivity.
Qed.

Lemma allocated_copied (actions : list (list Q)) (k : nat) (old : option (list Q)) :
  allocated (copiedColumn actions k old).
Proof.
  eexists. split; [reflexivity|].
  rewrite length_app, length_map, length_seq. reflexivity.
Qed.

Lemma cell_copied (raw : list Q) (k i : nat) (old : option (list Q)) :
  (i < nActions - 1)%nat ->
  cell (copiedColumn (channelsOf raw) k old) i = nth k (channelOf raw i) 0.
Proof.
  intros Hi. unfold copiedColumn, cell.
  rewrite app_nth1 by (rewrite length_map, length_seq; exact Hi).
  rewrite nth_map_seq by exact Hi.
  unfold channelsOf. rewrite nth_map_seq; [reflexivity|].
  unfold nActions, nClusters, nPrisms in *. cbn in Hi |- *. lia.
Qed.

Lemma setUpState_isSetUp (subject : DuCTTRobotModel) (step : list (list Q))
    (fresh : nat -> nat -> Q) (raw : list Q) (st : Controller) :
  (forall c, c < nClusters -> length (findCluster subject (c + 1)) = musclesPerCluster)%nat ->
  isSetUp (setUpState subject step fresh raw st).
Proof.
  intros Hfind.
  assert (Hcl : clusters (setUpState subject step fresh raw st) = boundClusters subject).
  { unfold setUpState, decodedFlags. destruct (length raw mod 4 =? 0)%nat; reflexivity. }
  assert (Hpr : prisms (setUpState subject step fresh raw st) = boundPrisms).
  { unfold setUpState, decodedFlags. destruct (length raw mod 4 =? 0)%nat; reflexivity. }
  unfold isSetUp. rewrite Hcl, Hpr.
  split; [apply allocated_copied|]. split; [apply allocated_copied|].
  split; [apply allocated_copied|]. split; [apply allocated_copied|].
  split; [unfold boundClusters; now rewrite length_map, length_seq|].
  split; [|reflexivity].
  unfold boundClusters. apply Forall_map, Forall_forall.
  intros c Hin. apply in_seq in Hin. split.
  - rewrite length_map. apply Hfind. lia.
  - apply Forall_map, Forall_forall. intros m _. discriminate.
Qed.

(** Property X15.  In the optimizer mode, on a controller with [clusters] and
    [prisms] as constructed, a robot with [musclesPerCluster] muscles per tag
    and a first adapter vector of an accepted length (at least 16, and either
    a multiple of four or at least 18), [onSetup] returns.  It sends the
    initial length to every muscle and the minimum length to both joints,
    leaves the controller set up with the decoded channels in [m_actions] and
    in the first three cells of the arrays, and does not touch the episode
    time, the recorded start or the lock state. *)
Theorem onSetup_sets_up (atof : string -> Q) (subject : DuCTTRobotModel)
    (step : list (list Q)) (rand : nat -> Z) (infile : option string)
    (fresh : nat -> nat -> Q) (st : Controller) (raw : list Q) :
  m_usingManualParams st = false ->
  length (clusters st) = nClusters -> length (prisms st) = nPrisms ->
  (forall c, c < nClusters -> length (findCluster subject (c + 1)) = musclesPerCluster)%nat ->
  nth_error step 0 = Some raw ->
  acceptedLength (length raw) ->
  exists st',
    onSetup atof subject step rand infile fresh st
    = (inr tt, st', setupCommands subject st) /\
    isSetUp st' /\
    m_actions st' = channelsOf raw /\
    (forall i, (i < nActions - 1)%nat ->
       cell (amplitude st') i = nth 0 (channelOf raw i) 0 /\
       cell (angularFrequency st') i = nth 1 (channelOf raw i) 0 /\
       cell (phaseChange st') i = nth 2 (channelOf raw i) 0 /\
       cell (dcOffset st') i = nth 3 (channelOf raw i) 0) /\
    m_totalTime st' = m_totalTime st /\
    m_bRecordedStart st' = m_bRecordedStart st /\
    m_bBottomPaused st' = m_bBottomPaused st /\ m_bTopPaused st' = m_bTopPaused st /\
    bottomCounter st' = bottomCounter st /\ topCounter st' = topCounter st /\
    isLocked_maxCount st' = isLocked_maxCount st.
Proof.
  intros Hman Hc Hp Hfind Hstep Hacc.
  exists (setUpState subject step fresh raw st).
  split; [now apply onSetup_ok|].
  split; [now apply setUpState_isSetUp|].
  unfold setUpState, decodedFlags, copiedChannels.
  destruct (length raw mod 4 =? 0)%nat.
  all: split; [reflexivity|].
  all: split; [intros i Hi; repeat split; apply cell_copied; exact Hi|].
  all: repeat split; reflexivity.
Qed.

(* ================================================================= *)
(** ** onStep *)

(** The cases of one evaluation of [isLocked] on a state given by its members. *)
Ltac isLocked_cases subject :=
  destruct (shouldPause (topTouchSensors subject)),
           (shouldPause (bottomTouchSensors subject));
  cbn -[Qgtb inject_Z Z.add Qmult Qplus];
  match goal with
  | m_bTopPaused0 : bool, m_bBottomPaused0 : bool |- _ =>
      destruct m_bTopPaused0, m_bBottomPaused0; cbn -[Qgtb inject_Z Z.add Qmult Qplus]
  end;
  repeat match goal with
         | |- context [Qgtb ?a ?b] =>
             destruct (Qgtb a b); cbn -[Qgtb inject_Z Z.add Qmult Qplus]
         end.

Lemma isLocked_lockOnly (subject : DuCTTRobotModel) (isTop : bool) (st : Controller) :
  lockOnly (snd (isLocked subject isTop st)) st.
Proof.
  unfold lockOnly, isLocked. destruct st.
  destruct isTop; cbn -[Qgtb inject_Z Z.add Qmult Qplus]; isLocked_cases subject;
    reflexivity.
Qed.

Lemma lockOnly_refl (st : Controller) : lockOnly st st.
Proof. unfold lockOnly. destruct st. reflexivity. Qed.

Lemma lockOnly_trans (st2 st1 st : Controller) :
  lockOnly st2 st1 -> lockOnly st1 st -> lockOnly st2 st.
Proof.
  unfold lockOnly. intros H2 H1. rewrite H2. rewrite H1 at 1.
  destruct st. reflexivity.
Qed.

(** The time does not enter the lock state machine. *)
Lemma isLocked_set_m_totalTime (subject : DuCTTRobotModel) (isTop : bool)
    (st : Controller) (t : Q) :
  isLocked subject isTop (set_m_totalTime t st)
  = (fst (isLocked subject isTop st), set_m_totalTime t (snd (isLocked subject isTop st))).
Proof.
  unfold isLocked. destruct st.
  destruct isTop; cbn -[Qgtb inject_Z Z.add Qmult Qplus]; isLocked_cases subject;
    reflexivity.
Qed.

Lemma lockOnly_set_m_totalTime (st1 st : Controller) (t : Q) :
  lockOnly st1 st -> lockOnly (set_m_totalTime t st1) (set_m_totalTime t st).
Proof.
  unfold lockOnly. intros H. destruct st1, st. cbn in H |- *.
  injection H; intros; subst. reflexivity.
Qed.

Lemma Qle_bool_false (x y : Q) : y < x -> Qle_bool x y = false.
Proof.
  intros H. destruct (Qle_bool x y) eqn:E; [|reflexivity].
  apply Qle_bool_iff in E. exfalso. exact (Qlt_not_le _ _ H E).
Qed.

Lemma positive_dt (dt : Q) : 0 < dt -> Qle_bool dt 0.0 = false.
Proof. intros H. apply Qle_bool_false. unfold Qlt in *. simpl in *. lia. Qed.

(** Property X16.  During the warm-up (the time after the tick is below 3
    seconds) [onStep] returns, whether or not the controller was set up.  It
    advances the time by [dt], evaluates the lock state of the bottom joint
    only, and sends at most one command: the bottom joint is told to hold its
    actual length on the tick on which it is found locked.  The top joint's
    lock state and every other member are unchanged. *)
Theorem onStep_warm_up (sqrt : Q -> Q) (subject : DuCTTRobotModel) (dt : Q)
    (st : Controller) :
  0 < dt -> m_totalTime st + dt < 3 ->
  let locked := fst (isLocked subject false st) in
  let st' := set_m_totalTime (m_totalTime st + dt) (snd (isLocked subject false st)) in
  onStep sqrt subject dt st
  = (inr tt, st',
     if locked
     then [setPreferredLength BottomPrismatic
             (Plain (getActualLength subject BottomPrismatic))]
     else []) /\
  lockOnly st' (set_m_totalTime (m_totalTime st + dt) st) /\
  m_bTopPaused st' = m_bTopPaused st /\ topCounter st' = topCounter st.
Proof.
  intros Hdt Hwarm locked st'. split; [|split].
  - unfold onStep. rewrite (positive_dt Hdt).
    change (m_totalTime (set_m_totalTime (m_totalTime st + dt) st))
      with (m_totalTime st + dt).
    assert (E : Qltb (m_totalTime st + dt) 3 = true) by now apply Qltb_lt.
    rewrite E, isLocked_set_m_totalTime. reflexivity.
  - subst st'. apply lockOnly_set_m_totalTime, isLocked_lockOnly.
  - destruct (isLocked_other_joint subject false st) as [H1 H2].
    cbn [negb isPaused debounceCounter] in H1, H2.
    subst st'. split.
    + rewrite <- H1. now destruct (snd (isLocked subject false st)).
    + rewrite <- H2. now destruct (snd (isLocked subject false st)).
Qed.

Lemma prismLoop_step (subject : DuCTTRobotModel) (prism : nat) (ps : list nat)
    (phase : Q) (st0 st : Controller) (p : Prismatic) :
  sameFrame st0 st -> isSetUp st -> (prism < nPrisms)%nat ->
  nth_error (prisms st) prism = Some (Some p) ->
  let isTop := match p with TopPrismatic => true | BottomPrismatic => false end in
  let go := m_bIgnoreTouchSensors st || negb (fst (isLocked subject isTop st0)) in
  let st1 := if m_bIgnoreTouchSensors st then st0 else snd (isLocked subject isTop st0) in
  prismLoop subject (prism :: ps) phase st0
  = ('(st2, more) <-
       prismLoop subject ps (phase + cell (phaseChange st) (prismChannel st prism)) st1 ;;
     ret (st2, jointCommand go p (sineTarget st (prismChannel st prism) phase) ++ more)).
Proof.
  intros Hf Hset Hp Hnth isTop go st1.
  pose proof Hf as (_ & _ & F3 & _ & _ & _ & F7 & F8).
  pose proof Hset as (_ & _ & Hpc & _ & Hlen & _).
  assert (Hidx : (prismChannel st prism < nActions)%nat).
  { rewrite prismChannel_setUp by assumption. unfold nActions, nClusters, nPrisms in *. lia. }
  cbn [prismLoop]. rewrite F7, (vec_at_inr _ _ Hnth). cbn [bind].
  rewrite (sameFrame_prismChannel _ Hf), F8.
  fold isTop. subst go st1.
  destruct (m_bIgnoreTouchSensors st) eqn:Eig; cbn [orb].
  - rewrite (sineOf_sineTarget _ (sameFrame_isSetUp Hf Hset) Hidx).
    cbn [bind]. rewrite F3, (allocated_cell Hpc Hidx). cbn [bind].
    rewrite (sameFrame_sineTarget _ _ Hf). reflexivity.
  - pose proof (isLocked_frame subject isTop st0) as Hf1.
    destruct (isLocked subject isTop st0) as [locked st1]. cbn [fst snd] in Hf1 |- *.
    pose proof (sameFrame_trans Hf1 Hf) as Hf1'.
    pose proof Hf1' as (_ & _ & G3 & _).
    destruct locked; cbn [negb jointCommand].
    + cbn [bind ret]. rewrite G3, (allocated_cell Hpc Hidx). reflexivity.
    + rewrite (sineOf_sineTarget _ (sameFrame_isSetUp Hf1' Hset) Hidx).
      cbn [bind]. rewrite G3, (allocated_cell Hpc Hidx). cbn [bind].
      rewrite (sameFrame_sineTarget _ _ Hf1'). reflexivity.
Qed.

Lemma setPrismaticLengths_ok (subject : DuCTTRobotModel) (st : Controller) :
  isSetUp st ->
  setPrismaticLengths subject st
  = inr (snd (jointDecisions subject st),
         jointCommand (fst (fst (jointDecisions subject st))) BottomPrismatic
           (sineTarget st (prismChannel st 0) (phaseAfter st []))
         ++ jointCommand (snd (fst (jointDecisions subject st))) TopPrismatic
              (sineTarget st (prismChannel st 1) (phaseAfter st [prismChannel st 0]))).
Proof.
  intros Hset.
  pose proof Hset as (_ & _ & _ & _ & _ & _ & Hprisms).
  unfold setPrismaticLengths. change (seq 0 nPrisms) with [0; 1]%nat.
  rewrite (@prismLoop_step subject 0%nat [1%nat] 0 st st BottomPrismatic);
    [| apply sameFrame_refl | exact Hset | unfold nPrisms; lia
     | rewrite Hprisms; reflexivity].
  set (st1 := if m_bIgnoreTouchSensors st then st else snd (isLocked subject false st)).
  assert (Hf1 : sameFrame st1 st).
  { subst st1. destruct (m_bIgnoreTouchSensors st);
      [apply sameFrame_refl | apply isLocked_frame]. }
  rewrite (@prismLoop_step subject 1%nat [] (0 + cell (phaseChange st) (prismChannel st 0))
             st1 st TopPrismatic);
    [| exact Hf1 | exact Hset | unfold nPrisms; lia | rewrite Hprisms; reflexivity].
  cbn [prismLoop bind ret]. rewrite app_nil_r.
  unfold jointDecisions. subst st1.
  destruct (m_bIgnoreTouchSensors st); reflexivity.
Qed.

Lemma isLocked_false_when_paused (subject : DuCTTRobotModel) (isTop : bool)
    (st : Controller) :
  isPaused isTop st = true -> fst (isLocked subject isTop st) = false.
Proof.
  intros Hp. destruct (isLocked_step isTop subject st) as (H1 & _).
  rewrite H1, Hp. now rewrite andb_false_r.
Qed.

(** Property X17.  On a set-up controller [setPrismaticLengths] returns.  A
    joint gets no target only on the tick on which [isLocked] answers true for
    it; a joint that is already paused when the call starts is driven like an
    unpaused one, and a joint that got no target is paused on return. *)
Theorem setPrismaticLengths_skips_only_the_pausing_tick (subject : DuCTTRobotModel)
    (st : Controller) :
  isSetUp st ->
  let go0 := fst (fst (jointDecisions subject st)) in
  let go1 := snd (fst (jointDecisions subject st)) in
  setPrismaticLengths subject st
  = inr (snd (jointDecisions subject st),
         jointCommand go0 BottomPrismatic
           (sineTarget st (prismChannel st 0) (phaseAfter st []))
         ++ jointCommand go1 TopPrismatic
              (sineTarget st (prismChannel st 1) (phaseAfter st [prismChannel st 0]))) /\
  (m_bBottomPaused st = true -> go0 = true) /\
  (m_bTopPaused st = true -> go1 = true) /\
  (go0 = false -> m_bBottomPaused (snd (jointDecisions subject st)) = true) /\
  (go1 = false -> m_bTopPaused (snd (jointDecisions subject st)) = true).
Proof.
  intros Hset go0 go1. split; [now apply setPrismaticLengths_ok|].
  subst go0 go1. unfold jointDecisions.
  destruct (m_bIgnoreTouchSensors st); cbn [fst snd].
  { repeat split; auto; discriminate. }
  pose proof (isLocked_other_joint subject false st) as [O1 O2].
  pose proof (isLocked_other_joint subject true (snd (isLocked subject false st)))
    as [P1 P2].
  cbn [negb isPaused debounceCounter] in O1, O2, P1, P2.
  repeat split.
  - intros Hp. now rewrite (@isLocked_false_when_paused subject false st Hp).
  - intros Hp.
    rewrite (@isLocked_false_when_paused subject true (snd (isLocked subject false st)));
      [reflexivity|]. cbn [isPaused]. now rewrite O1.
  - intros Hgo. apply negb_false_iff in Hgo.
    destruct (isLocked_step false subject st) as (H1 & H2 & _).
    rewrite Hgo in H1. symmetry in H1. apply andb_true_iff in H1. destruct H1 as [Hf Hn].
    apply negb_true_iff in Hn. rewrite Hf, Hn in H2. cbn [isPaused xorb] in H2.
    now rewrite P1.
  - intros Hgo. apply negb_false_iff in Hgo.
    destruct (isLocked_step true subject (snd (isLocked subject false st))) as (H1 & H2 & _).
    rewrite Hgo in H1. symmetry in H1. apply andb_true_iff in H1. destruct H1 as [Hf Hn].
    apply negb_true_iff in Hn. rewrite Hf, Hn in H2. exact H2.
Qed.

Lemma steppedState_isSetUp (subject : DuCTTRobotModel) (dt : Q) (st : Controller) :
  isSetUp st -> isSetUp (steppedState subject dt st).
Proof.
  unfold steppedState, isSetUp.
  change (m_bRecordedStart (set_m_totalTime (m_totalTime st + dt) st))
    with (m_bRecordedStart st).
  destruct (m_bRecordedStart st); intros H; exact H.
Qed.

Lemma onStep_active_ok (sqrt : Q -> Q) (subject : DuCTTRobotModel) (dt : Q)
    (st : Controller) :
  isSetUp st -> 0 < dt -> 3 <= m_totalTime st + dt ->
  let s := steppedState subject dt st in
  onStep sqrt subject dt st
  = (inr tt, snd (jointDecisions subject s),
     activeCommands subject dt s (fst (fst (jointDecisions subject s)))
                    (snd (fst (jointDecisions subject s)))).
Proof.
  intros Hset Hdt Hact s.
  pose proof (steppedState_isSetUp subject dt Hset) as Hs. fold s in Hs.
  unfold onStep. rewrite (positive_dt Hdt).
  change (m_totalTime (set_m_totalTime (m_totalTime st + dt) st))
    with (m_totalTime st + dt).
  assert (E : Qltb (m_totalTime st + dt) 3 = false) by now apply Qltb_ge.
  rewrite E. fold (steppedState subject dt st). fold s.
  unfold setPreferredMuscleLengths.
  change 0 with (phaseAfter s []) at 1.
  rewrite (@muscleLoop_commands s dt (seq 0 nClusters) [] Hs)
    by (apply Forall_forall; intros c Hc; apply in_seq in Hc; lia).
  rewrite (setPrismaticLengths_ok subject Hs).
  reflexivity.
Qed.

(** Property X18.  Past the warm-up, on a set-up controller, [onStep] returns:
    it sends the targets of the clusters, then those of the joints, then the
    motor commands, in this order.  The time has advanced by [dt], the start
    position is recorded on the first such tick and kept afterwards, and
    beyond that only the lock state may have changed; with touch sensors
    ignored the lock state is unchanged as well. *)
Theorem onStep_active (sqrt : Q -> Q) (subject : DuCTTRobotModel) (dt : Q)
    (st : Controller) :
  isSetUp st -> 0 < dt -> 3 <= m_totalTime st + dt ->
  let s := steppedState subject dt st in
  let st' := snd (jointDecisions subject s) in
  onStep sqrt subject dt st
  = (inr tt, st',
     activeCommands subject dt s (fst (fst (jointDecisions subject s)))
                    (snd (fst (jointDecisions subject s)))) /\
  lockOnly st' s /\
  m_totalTime st' = m_totalTime st + dt /\
  m_bRecordedStart st' = true /\
  initPosition st' = (if m_bRecordedStart st then initPosition st else getCOM subject) /\
  (m_bIgnoreTouchSensors st = true -> st' = s).
Proof.
  intros Hset Hdt Hact s st'.
  split; [now apply onStep_active_ok|].
  assert (Hlock : lockOnly st' s).
  { subst st'. unfold jointDecisions.
    destruct (m_bIgnoreTouchSensors s); cbn [snd]; [apply lockOnly_refl|].
    eapply lockOnly_trans; apply isLocked_lockOnly. }
  split; [exact Hlock|].
  unfold lockOnly in Hlock.
  assert (Hfields : m_totalTime st' = m_totalTime s /\
                    m_bRecordedStart st' = m_bRecordedStart s /\
                    initPosition st' = initPosition s).
  { rewrite Hlock. destruct s. repeat split; reflexivity. }
  destruct Hfields as (F1 & F2 & F3). rewrite F1, F2, F3.
  subst s. unfold steppedState.
  change (m_bRecordedStart (set_m_totalTime (m_totalTime st + dt) st))
    with (m_bRecordedStart st).
  split; [destruct (m_bRecordedStart st); reflexivity|].
  split; [destruct (m_bRecordedStart st) eqn:Er; cbn [negb]; [exact Er|reflexivity]|].
  split; [destruct (m_bRecordedStart st); reflexivity|].
  intros Hig. subst st'. unfold jointDecisions.
  change (steppedState subject dt st)
    with (if negb (m_bRecordedStart st)
          then set_m_bRecordedStart true
                 (set_initPosition (getCOM subject)
                    (set_m_totalTime (m_totalTime st + dt) st))
          else set_m_totalTime (m_totalTime st + dt) st).
  destruct (m_bRecordedStart st); cbn [negb];
    match goal with
    | |- snd (if m_bIgnoreTouchSensors ?x then _ else _) = _ =>
        change (m_bIgnoreTouchSensors x) with (m_bIgnoreTouchSensors st)
    end; rewrite Hig; reflexivity.
Qed.

(** Property X19.  On a set-up controller every [onStep] with a positive [dt]
    returns without a fault and leaves the controller set up, so any number
    of ticks can follow one [onSetup]. *)
Theorem onStep_returns_once_set_up (sqrt : Q -> Q) (subject : DuCTTRobotModel) (dt : Q)
    (st : Controller) :
  isSetUp st -> 0 < dt ->
  fst (fst (onStep sqrt subject dt st)) = inr tt /\
  isSetUp (snd (fst (onStep sqrt subject dt st))).
Proof.
  intros Hset Hdt.
  destruct (Qlt_le_dec (m_totalTime st + dt) 3) as [Hwarm|Hact].
  - unfold onStep. rewrite (positive_dt Hdt).
    change (m_totalTime (set_m_totalTime (m_totalTime st + dt) st))
      with (m_totalTime st + dt).
    assert (E : Qltb (m_totalTime st + dt) 3 = true) by now apply Qltb_lt.
    rewrite E.
    pose proof (isLocked_frame subject false (set_m_totalTime (m_totalTime st + dt) st))
      as Hf.
    destruct (isLocked subject false _) as [locked st1]. cbn [fst snd] in *.
    split; [reflexivity|].
    apply (sameFrame_isSetUp Hf). exact Hset.
  - rewrite (onStep_active_ok sqrt subject Hset Hdt Hact). cbn [fst snd].
    split; [reflexivity|].
    pose proof (steppedState_isSetUp subject dt Hset) as Hs.
    unfold jointDecisions.
    destruct (m_bIgnoreTouchSensors (steppedState subject dt st)); cbn [snd];
      [exact Hs|].
    eapply sameFrame_isSetUp; [|exact Hs].
    eapply sameFrame_trans; apply isLocked_frame.
Qed.

Lemma prismLoop_lockOnly (subject : DuCTTRobotModel) (ps : list nat) :
  forall phase st0 st1 cmds,
    prismLoop subject ps phase st0 = inr (st1, cmds) -> lockOnly st1 st0.
Proof.
  induction ps as [|prism ps IH]; intros phase st0 st1 cmds E; cbn [prismLoop] in E.
  - injection E as <- _. apply lockOnly_refl.
  - destruct (vec_at (prisms st0) prism) as [f|pPrism]; [discriminate|]. cbn [bind] in E.
    set (isTop := match pPrism with Some TopPrismatic => true | _ => false end) in E.
    assert (Hmid : exists go s,
               (if m_bIgnoreTouchSensors st0 then (true, st0)
                else let '(locked, st') := isLocked subject isTop st0 in (negb locked, st'))
               = (go, s) /\ lockOnly s st0).
    { destruct (m_bIgnoreTouchSensors st0).
      - exists true, st0. split; [reflexivity|apply lockOnly_refl].
      - pose proof (isLocked_lockOnly subject isTop st0) as H.
        destruct (isLocked subject isTop st0) as [locked s]. cbn [snd] in H.
        exists (negb locked), s. split; [reflexivity|exact H]. }
    destruct Hmid as (go & s & Emid & Hs). rewrite Emid in E.
    destruct (if go then _ else _) as [f|c]; [discriminate|]. cbn [bind] in E.
    destruct (arr_at (phaseChange s) (prismChannel st0 prism)) as [f|pc]; [discriminate|].
    cbn [bind] in E.
    destruct (prismLoop subject ps (phase + pc) s) as [f|[st2 more]] eqn:Erec;
      [discriminate|].
    cbn [bind ret] in E. injection E as <- _.
    eapply lockOnly_trans; [eapply IH; exact Erec|exact Hs].
Qed.

(** Property X20.  Whatever the robot does and however the call ends, [onStep]
    never sets [m_bBadRun] (the tilt it computes and the displacement it
    reads are dropped), and never changes the axis, the two flags decoded by
    [onSetup], the four arrays, the bound clusters and joints, or
    [m_actions]. *)
Theorem onStep_never_flags_a_bad_run (sqrt : Q -> Q) (subject : DuCTTRobotModel)
    (dt : Q) (st : Controller) :
  let st' := snd (fst (onStep sqrt subject dt st)) in
  m_bBadRun st' = m_bBadRun st /\
  m_axis st' = m_axis st /\
  m_bIgnoreTouchSensors st' = m_bIgnoreTouchSensors st /\
  m_dHistorisisSeconds st' = m_dHistorisisSeconds st /\
  amplitude st' = amplitude st /\ angularFrequency st' = angularFrequency st /\
  phaseChange st' = phaseChange st /\ dcOffset st' = dcOffset st /\
  clusters st' = clusters st /\ prisms st' = prisms st /\ m_actions st' = m_actions st.
Proof.
  assert (Hlock : forall s1 s0, lockOnly s1 s0 ->
            m_bBadRun s1 = m_bBadRun s0 /\ m_axis s1 = m_axis s0 /\
            m_bIgnoreTouchSensors s1 = m_bIgnoreTouchSensors s0 /\
            m_dHistorisisSeconds s1 = m_dHistorisisSeconds s0 /\
            amplitude s1 = amplitude s0 /\ angularFrequency s1 = angularFrequency s0 /\
            phaseChange s1 = phaseChange s0 /\ dcOffset s1 = dcOffset s0 /\
            clusters s1 = clusters s0 /\ prisms s1 = prisms s0 /\
            m_actions s1 = m_actions s0).
  { intros s1 s0 H. unfold lockOnly in H. rewrite H. destruct s0.
    repeat split; reflexivity. }
  cbv zeta. unfold onStep.
  destruct (Qle_bool dt 0.0); [cbn [fst snd]; repeat split; reflexivity|].
  destruct (Qltb _ 3).
  - pose proof (isLocked_lockOnly subject false (set_m_totalTime (m_totalTime st + dt) st))
      as H.
    destruct (isLocked subject false _) as [locked st1]. cbn [fst snd] in *.
    exact (Hlock _ _ H).
  - fold (steppedState subject dt st).
    assert (Hs : lockOnly (steppedState subject dt st) (steppedState subject dt st))
      by apply lockOnly_refl.
    assert (Hbase : forall s1, lockOnly s1 (steppedState subject dt st) ->
              m_bBadRun s1 = m_bBadRun st /\ m_axis s1 = m_axis st /\
              m_bIgnoreTouchSensors s1 = m_bIgnoreTouchSensors st /\
              m_dHistorisisSeconds s1 = m_dHistorisisSeconds st /\
              amplitude s1 = amplitude st /\ angularFrequency s1 = angularFrequency st /\
              phaseChange s1 = phaseChange st /\ dcOffset s1 = dcOffset st /\
              clusters s1 = clusters st /\ prisms s1 = prisms st /\
              m_actions s1 = m_actions st).
    { intros s1 H1. apply Hlock in H1.
      destruct H1 as (B1 & B2 & B3 & B4 & B5 & B6 & B7 & B8 & B9 & B10 & B11).
      rewrite B1, B2, B3, B4, B5, B6, B7, B8, B9, B10, B11.
      unfold steppedState.
      change (m_bRecordedStart (set_m_totalTime (m_totalTime st + dt) st))
        with (m_bRecordedStart st).
      destruct (m_bRecordedStart st); repeat split; reflexivity. }
    destruct (setPreferredMuscleLengths dt _) as [f|mc]; [exact (Hbase _ Hs)|].
    destruct (setPrismaticLengths subject _) as [f|[st1 pc]] eqn:E; [exact (Hbase _ Hs)|].
    cbn [fst snd]. apply Hbase. unfold setPrismaticLengths in E.
    eapply prismLoop_lockOnly. exact E.
Qed.

(* ================================================================= *)
(** ** The scores *)

(** Property X21.  For the axes 0, 2 and 3 the displacement score is never
    negative (for a square root that is never negative), so it cannot be
    mistaken for the score -1 of a bad run. *)
Theorem displacement_is_nonnegative_off_the_y_axis (sqrt : Q -> Q)
    (subject : DuCTTRobotModel) (st : Controller) :
  (forall x, 0 <= sqrt x) ->
  m_axis st = 0%Z \/ m_axis st = 2%Z \/ m_axis st = 3%Z ->
  0 <= displacement sqrt subject st /\ ~ displacement sqrt subject st == -1.
Proof.
  intros Hsqrt Haxis.
  assert (H : 0 <= displacement sqrt subject st).
  { unfold displacement. destruct Haxis as [-> | [-> | ->]].
    - apply Qabs_nonneg.
    - apply Qabs_nonneg.
    - apply Hsqrt. }
  split; [exact H|]. intros E. rewrite E in H. lra.
Qed.

Lemma contractionWork_nonpositive (T : list Q) :
  forall R, Forall (fun tension => 0 <= tension) T -> contractionWork T R <= 0.
Proof.
  induction T as [|t0 T IH]; intros R Hpos.
  - discriminate.
  - inversion Hpos as [|? ? Ht0 HT]; subst.
    destruct T as [|t1 T']; [destruct R as [|? [|? ?]]; discriminate|].
    destruct R as [|r0 [|r1 R']]; try discriminate.
    change (contractionWork (t0 :: t1 :: T') (r0 :: r1 :: R'))
      with (t0 * Qmin 0 (r1 - r0) + contractionWork (t1 :: T') (r1 :: R')).
    pose proof (IH (r1 :: R') HT) as Hrest.
    pose proof (Q.le_min_l 0 (r1 - r0)) as Hmin.
    assert (Hterm : t0 * Qmin 0 (r1 - r0) <= 0).
    { rewrite (Qmult_comm t0). apply Qle_trans with (0 * t0).
      - apply Qmult_le_compat_r; assumption.
      - rewrite Qmult_0_l. apply Qle_refl. }
    set (a := t0 * Qmin 0 (r1 - r0)) in *.
    set (b := contractionWork (t1 :: T') (r1 :: R')) in *. lra.
Qed.

Lemma energyMetric_nonpositive (hs : list SpringCableActuatorHistory) :
  Forall tensionsNonnegative hs -> energyMetric hs <= 0.
Proof.
  induction 1 as [|h hs Hh _ IH]; cbn [energyMetric].
  - discriminate.
  - pose proof (contractionWork_nonpositive (restLengths h) Hh). lra.
Qed.

(** Property X22.  When every muscle has one rest length per recorded tension
    and no recorded tension is negative, [totalEnergySpent] returns a value
    that is never positive: the energy score is zero or negative. *)
Theorem totalEnergySpent_is_nonpositive (subject : DuCTTRobotModel) :
  Forall parallelHistory (getAllMuscles subject) ->
  Forall tensionsNonnegative (getAllMuscles subject) ->
  exists energySpent,
    totalEnergySpent subject = inr energySpent /\ energySpent <= 0.
Proof.
  intros Hpar Hpos. unfold totalEnergySpent.
  destruct (energyOfStrings_metric 0 Hpar) as (e & He & Heq).
  exists e. split; [exact He|].
  rewrite Heq. pose proof (energyMetric_nonpositive Hpos). lra.
Qed.

(** The loop over a history whose rest lengths run out. *)
Lemma energyOfString_runs_out (T R : list Q) :
  (length R < length T)%nat -> (2 <= length T)%nat ->
  forall acc,
    energyOfString (mkHistory T R) (seq 1 (length T - 1)) acc
    = inl (out_of_range (length R) (length R)).
Proof.
  intros HR HT acc.
  destruct (Nat.eq_dec (length R) 0) as [E0|Hn0].
  - destruct R; [|discriminate E0].
    destruct (length T - 1)%nat as [|n] eqn:En; [lia|].
    cbn [seq energyOfString]. unfold workDone. cbn [tensionHistory restLengths].
    rewrite (@vec_at_nth Q T (1 - 1) 0) by (cbn; lia). reflexivity.
  - (* the samples before [length R] are read, sample [length R] is not *)
    replace (length T - 1)%nat
      with ((length R - 1) + S (length T - 1 - length R))%nat by lia.
    rewrite seq_app.
    assert (Hpre : forall js a,
               Forall (fun j => 1 <= j < length R)%nat js ->
               forall rest,
                 energyOfString (mkHistory T R) (js ++ rest) a
                 = energyOfString (mkHistory T R) rest
                     (fold_left (fun a j => a + work T R j) js a)).
    { induction js as [|j js IH]; intros a Hall rest; [reflexivity|].
      inversion Hall as [|? ? Hj Hall']; subst.
      cbn [app energyOfString fold_left].
      rewrite workDone_work by lia. cbn [bind]. now apply IH. }
    rewrite Hpre by (apply Forall_forall; intros j Hj; apply in_seq in Hj; lia).
    cbn [seq energyOfString]. unfold workDone. cbn [tensionHistory restLengths].
    replace (1 + (length R - 1))%nat with (length R) by lia.
    rewrite (@vec_at_nth Q T (length R - 1) 0) by lia.
    rewrite (@vec_at_nth Q R (length R - 1) 0) by lia.
    cbn [bind]. unfold vec_at.
    assert (Hnone : nth_error R (length R) = None) by (apply nth_error_None; lia).
    rewrite Hnone. reflexivity.
Qed.

Lemma energyOfStrings_runs_out (before after : list SpringCableActuatorHistory)
    (h : SpringCableActuatorHistory) :
  Forall parallelHistory before ->
  (length (restLengths h) < length (tensionHistory h))%nat ->
  (2 <= length (tensionHistory h))%nat ->
  forall acc,
    energyOfStrings (before ++ h :: after) acc
    = inl (out_of_range (length (restLengths h)) (length (restLengths h))).
Proof.
  intros Hpar HR HT.
  induction Hpar as [|b before Hb _ IH]; intros acc.
  - cbn [app energyOfStrings]. destruct h as [T R]. cbn [tensionHistory restLengths] in *.
    rewrite energyOfString_runs_out by assumption. reflexivity.
  - cbn [app energyOfStrings].
    destruct b as [T R]. unfold parallelHistory in Hb. cbn [tensionHistory restLengths] in *.
    rewrite energyOfString_fold
      by (apply Forall_forall; intros j Hj; apply in_seq in Hj; lia).
    cbn [bind]. apply IH.
Qed.

(** Property X23.  [totalEnergySpent] bounds its loop by the number of
    recorded tensions only.  For the first muscle with fewer rest lengths
    than tensions (and at least two tensions) it reads [restLengths]
    at index [length restLengths], past the end. *)
Theorem totalEnergySpent_overruns_short_rest_lengths (subject : DuCTTRobotModel)
    (before after : list SpringCableActuatorHistory) (h : SpringCableActuatorHistory) :
  getAllMuscles subject = before ++ h :: after ->
  Forall parallelHistory before ->
  (length (restLengths h) < length (tensionHistory h))%nat ->
  (2 <= length (tensionHistory h))%nat ->
  totalEnergySpent subject
  = inl (out_of_range (length (restLengths h)) (length (restLengths h))).
Proof.
  intros Hm Hpar HR HT. unfold totalEnergySpent. rewrite Hm.
  now apply energyOfStrings_runs_out.
Qed.

(* ================================================================= *)
(** ** From one episode to the next *)

Lemma onTeardown_state (sqrt : Q -> Q) (subject : DuCTTRobotModel) (st : Controller)
    (energySpent : Q) :
  totalEnergySpent subject = inr energySpent ->
  snd (fst (onTeardown sqrt subject st))
  = set_m_bBadRun false
      (set_m_bRecordedStart false
        (set_m_totalTime 0.0
          (set_dcOffset None (set_phaseChange None
            (set_angularFrequency None (set_amplitude None st)))))).
Proof. intros E. unfold onTeardown. rewrite E. reflexivity. Qed.

(** Property X24.  After an [onTeardown] that returned, an [onSetup] for the
    next episode returns and leaves the controller set up again, with the
    time at 0, no recorded start and no bad run; the paused flags, the
    debounce counters and the latched threshold are those the previous
    episode ended with. *)
Theorem onSetup_after_onTeardown (atof : string -> Q) (sqrt : Q -> Q)
    (ended next : DuCTTRobotModel) (step : list (list Q)) (rand : nat -> Z)
    (infile : option string) (fresh : nat -> nat -> Q) (st : Controller)
    (raw : list Q) (energySpent : Q) :
  m_usingManualParams st = false ->
  length (clusters st) = nClusters -> length (prisms st) = nPrisms ->
  totalEnergySpent ended = inr energySpent ->
  (forall c, c < nClusters -> length (findCluster next (c + 1)) = musclesPerCluster)%nat ->
  nth_error step 0 = Some raw ->
  acceptedLength (length raw) ->
  let st1 := snd (fst (onTeardown sqrt ended st)) in
  exists st2,
    onSetup atof next step rand infile fresh st1
    = (inr tt, st2, setupCommands next st) /\
    isSetUp st2 /\
    m_totalTime st2 = 0.0 /\ m_bRecordedStart st2 = false /\ m_bBadRun st2 = false /\
    m_bBottomPaused st2 = m_bBottomPaused st /\ m_bTopPaused st2 = m_bTopPaused st /\
    bottomCounter st2 = bottomCounter st /\ topCounter st2 = topCounter st /\
    isLocked_maxCount st2 = isLocked_maxCount st.
Proof.
  intros Hman Hc Hp He Hfind Hstep Hacc st1.
  subst st1. rewrite (@onTeardown_state sqrt ended st energySpent He).
  set (st1 := set_m_bBadRun false _).
  exists (setUpState next step fresh raw st1).
  split.
  - change (setupCommands next st) with (setupCommands next st1).
    apply onSetup_ok; auto.
  - split; [now apply setUpState_isSetUp|].
    unfold setUpState, decodedFlags, copiedChannels.
    destruct (length raw mod 4 =? 0)%nat; repeat split; reflexivity.
Qed.

Lemma onStep_unallocated (sqrt : Q -> Q) (subject : DuCTTRobotModel) (dt : Q)
    (st : Controller) (rows : list (list (option Muscle)))
    (m : Muscle) (ms : list (option Muscle)) :
  amplitude st = None -> clusters st = (Some m :: ms) :: rows ->
  0 < dt -> 3 <= m_totalTime st + dt ->
  onStep sqrt subject dt st = (inl bad_pointer, steppedState subject dt st, []).
Proof.
  intros Ha Hc Hdt Hact.
  unfold onStep. rewrite (positive_dt Hdt).
  change (m_totalTime (set_m_totalTime (m_totalTime st + dt) st))
    with (m_totalTime st + dt).
  assert (E : Qltb (m_totalTime st + dt) 3 = false) by now apply Qltb_ge.
  rewrite E. fold (steppedState subject dt st).
  assert (Hm : setPreferredMuscleLengths dt (steppedState subject dt st) = inl bad_pointer).
  { assert (Hc' : clusters (steppedState subject dt st) = (Some m :: ms) :: rows).
    { rewrite <- Hc. unfold steppedState.
      destruct (negb (m_bRecordedStart _)); reflexivity. }
    assert (Ha' : amplitude (steppedState subject dt st) = None).
    { rewrite <- Ha. unfold steppedState.
      destruct (negb (m_bRecordedStart _)); reflexivity. }
    unfold setPreferredMuscleLengths. change (seq 0 nClusters) with [0; 1]%nat.
    cbn [muscleLoop]. change (seq 0 musclesPerCluster) with [0; 1; 2; 3]%nat.
    cbn [mapM]. unfold controlNode at 1. rewrite Hc'. cbn [vec_at nth_error bind].
    unfold sineOf. rewrite Ha'. reflexivity. }
  rewrite Hm. reflexivity.
Qed.

(** Property X25.  [onTeardown] deletes the four arrays and resets the time.
    An [onStep] that follows it without a new [onSetup] and goes past the
    warm-up ([dt >= 3]) reads the deleted [amplitude] array. *)
Theorem onStep_after_onTeardown_reads_deleted_arrays (sqrt : Q -> Q)
    (ended subject : DuCTTRobotModel) (dt : Q) (st : Controller) (energySpent : Q) :
  isSetUp st ->
  totalEnergySpent ended = inr energySpent ->
  3 <= dt ->
  let st1 := snd (fst (onTeardown sqrt ended st)) in
  m_totalTime st1 = 0.0 /\
  amplitude st1 = None /\
  onStep sqrt subject dt st1 = (inl bad_pointer, steppedState subject dt st1, []).
Proof.
  intros Hset He Hdt st1. subst st1.
  rewrite (@onTeardown_state sqrt ended st energySpent He).
  split; [reflexivity|]. split; [reflexivity|].
  destruct Hset as (_ & _ & _ & _ & Hlen & Hrows & _).
  destruct (clusters st) as [|row rows] eqn:Ec; [discriminate Hlen|].
  inversion Hrows as [|? ? [Hrl Hnn] _]; subst.
  destruct row as [|m ms]; [discriminate Hrl|].
  inversion Hnn as [|? ? Hm0 _]; subst.
  destruct m as [m|]; [|congruence].
  apply (@onStep_unallocated sqrt subject dt _ rows m ms).
  - reflexivity.
  - exact Ec.
  - lra.
  - change (3 <= 0.0 + dt). lra.
Qed.

Lemma onStep_unpopulated (sqrt : Q -> Q) (subject : DuCTTRobotModel) (dt : Q)
    (st : Controller) (rows : list (list (option Muscle))) (ms : list (option Muscle)) :
  clusters st = (None :: ms) :: rows ->
  0 < dt -> 3 <= m_totalTime st + dt ->
  onStep sqrt subject dt st
  = (inl (assertion_failure "pMuscle != NULL"), steppedState subject dt st, []).
Proof.
  intros Hc Hdt Hact.
  unfold onStep. rewrite (positive_dt Hdt).
  change (m_totalTime (set_m_totalTime (m_totalTime st + dt) st))
    with (m_totalTime st + dt).
  assert (E : Qltb (m_totalTime st + dt) 3 = false) by now apply Qltb_ge.
  rewrite E. fold (steppedState subject dt st).
  assert (Hm : setPreferredMuscleLengths dt (steppedState subject dt st)
               = inl (assertion_failure "pMuscle != NULL")).
  { assert (Hc' : clusters (steppedState subject dt st) = (None :: ms) :: rows).
    { rewrite <- Hc. unfold steppedState.
      destruct (negb (m_bRecordedStart _)); reflexivity. }
    unfold setPreferredMuscleLengths. change (seq 0 nClusters) with [0; 1]%nat.
    cbn [muscleLoop]. change (seq 0 musclesPerCluster) with [0; 1; 2; 3]%nat.
    cbn [mapM]. unfold controlNode at 1. rewrite Hc'. reflexivity. }
  rewrite Hm. reflexivity.
Qed.

(** Property X26.  On a controller that was constructed and never set up, a
    first tick within the warm-up ([dt < 3]) returns, and a first tick past
    it stops at [assert(pMuscle != NULL)] for the first muscle of the first
    cluster, before any command is sent. *)
Theorem onStep_before_onSetup (sqrt : Q -> Q) (subject : DuCTTRobotModel) (dt : Q)
    (initialLength : Q) (useManualParams : bool) (axis : Z) (neuro learning : bool)
    (start : btVector3) :
  0 < dt ->
  let st := DuCTTLearningController initialLength useManualParams axis neuro learning
                                    start in
  (dt < 3 -> fst (fst (onStep sqrt subject dt st)) = inr tt) /\
  (3 <= dt ->
   onStep sqrt subject dt st
   = (inl (assertion_failure "pMuscle != NULL"), steppedState subject dt st, [])).
Proof.
  intros Hdt st. split.
  - intros Hwarm. unfold onStep. rewrite (positive_dt Hdt).
    change (m_totalTime (set_m_totalTime (m_totalTime st + dt) st)) with (0.0 + dt).
    assert (E : Qltb (0.0 + dt) 3 = true) by (apply Qltb_lt; lra).
    rewrite E. destruct (isLocked subject false _) as [locked st1]. reflexivity.
  - intros Hact.
    apply (@onStep_unpopulated sqrt subject dt st
             (repeat (repeat None musclesPerCluster) (nClusters - 1))
             (repeat None (musclesPerCluster - 1))).
    + reflexivity.
    + exact Hdt.
    + change (3 <= 0.0 + dt). lra.
Qed.

(* ================================================================= *)
(** ** The further properties at concrete inputs *)

Lemma readManualParams_stays_near_the_line_witness :
  exists result,
    readManualParams (fun _ => 0) (fun _ => 0%Z) 1 (Some twoFields) = inr result /\
    length result = numParams /\
    forall i, (i < numParams)%nat ->
      nth i (map (fun _ : string => 0)
               (getlines "," (grabLine (Some twoFields) (Z.to_nat 1)) EmptyString)) 1.0
      - 0.005 <= nth i result 0
      /\ nth i result 0
         <= nth i (map (fun _ : string => 0)
                     (getlines "," (grabLine (Some twoFields) (Z.to_nat 1)) EmptyString)) 1.0
            + 0.0049.
Proof.
  apply (@readManualParams_stays_near_the_line (fun _ => 0) (fun _ => 0%Z) 1
           (Some twoFields)).
  - reflexivity.
  - intros k. discriminate.
  - vm_compute. lia.
Defined.

Lemma readManualParams_defaults_without_a_line_witness :
  exists result,
    readManualParams (fun _ => 0) (fun _ => 0%Z) 1 None = inr result /\
    length result = numParams /\
    Forall (fun x => 0.995 <= x /\ x <= 1.0049) result.
Proof.
  apply (@readManualParams_defaults_without_a_line (fun _ => 0) (fun _ => 0%Z) 1 None).
  - reflexivity.
  - intros k. discriminate.
  - reflexivity.
Defined.

Lemma transformActions_ignores_slots_beyond_the_channels_witness :
  transformActions (fun _ => 0) newController (fun _ => 0%Z) None [rawTwenty]
  = inr (channelsOf rawTwenty, newController).
Proof.
  apply (@transformActions_ignores_slots_beyond_the_channels (fun _ => 0) newController
           (fun _ => 0%Z) None [rawTwenty] rawTwenty).
  - reflexivity.
  - vm_compute. lia.
  - reflexivity.
Defined.

Lemma transformActions_reads_flags_at_fixed_slots_witness :
  transformActions (fun _ => 0) newController (fun _ => 0%Z) None [rawNineteen]
  = inr (channelsOf rawNineteen,
         set_m_dHistorisisSeconds (nth (4 * nActions + 1) rawNineteen 0 * (2.0 - 0.0) + 0.0)
           (set_m_bIgnoreTouchSensors (Qltb (nth (4 * nActions) rawNineteen 0) 0.5)
              newController)).
Proof.
  apply (@transformActions_reads_flags_at_fixed_slots (fun _ => 0) newController
           (fun _ => 0%Z) None [rawNineteen] rawNineteen rawNineteen).
  - reflexivity.
  - reflexivity.
  - reflexivity.
  - vm_compute. lia.
  - vm_compute. discriminate.
  - vm_compute. reflexivity.
Defined.

Lemma transformActions_overruns_on_one_trailing_slot_witness :
  transformActions (fun _ => 0) newController (fun _ => 0%Z) None [rawSeventeen]
  = inl (out_of_range (4 * nActions + 1) (4 * nActions + 1)).
Proof.
  apply (@transformActions_overruns_on_one_trailing_slot (fun _ => 0) newController
           (fun _ => 0%Z) None [rawSeventeen] rawSeventeen).
  - reflexivity.
  - reflexivity.
  - reflexivity.
Defined.

Lemma transformActions_overruns_on_a_short_vector_witness :
  transformActions (fun _ => 0) newController (fun _ => 0%Z) None []
  = inl (out_of_range 0 0) /\
  transformActions (fun _ => 0) newController (fun _ => 0%Z) None [rawThree]
  = inl (out_of_range (length rawThree) (length rawThree)).
Proof.
  split.
  - apply (@transformActions_overruns_on_a_short_vector (fun _ => 0) newController
             (fun _ => 0%Z) None []); reflexivity.
  - apply (@transformActions_overruns_on_a_short_vector (fun _ => 0) newController
             (fun _ => 0%Z) None [rawThree]).
    + reflexivity.
    + reflexivity.
    + vm_compute. lia.
Defined.

Lemma transformActions_manual_needs_the_flag_slots_witness :
  readManualParams (fun _ => 0) (fun _ => 0%Z) 1 (Some twoFields)
  = inr (tweakFrom (fun _ => 0%Z) 0 ([0; 0] ++ repeat 1.0 16)) /\
  transformActions (fun _ => 0) manualController (fun _ => 0%Z) (Some twoFields)
                   [rawDistinct]
  = inl (out_of_range (4 * nActions + 2) (4 * nActions + 2)).
Proof.
  assert (H : readManualParams (fun _ => 0) (fun _ => 0%Z) 1 (Some twoFields)
              = inr (tweakFrom (fun _ => 0%Z) 0 ([0; 0] ++ repeat 1.0 16)))
    by reflexivity.
  split; [exact H|].
  apply (@transformActions_manual_needs_the_flag_slots (fun _ => 0) manualController
           (fun _ => 0%Z) (Some twoFields) [rawDistinct] rawDistinct
           (tweakFrom (fun _ => 0%Z) 0 ([0; 0] ++ repeat 1.0 16))).
  - reflexivity.
  - exact H.
  - reflexivity.
  - reflexivity.
Defined.

Lemma rawPhases_isSetUp : isSetUp (afterSetup (fun _ => 0) rawPhases).
Proof.
  unfold isSetUp, allocated.
  repeat split; try (eexists; split; reflexivity); try reflexivity.
  repeat constructor; discriminate.
Defined.

Lemma isLocked_true_only_on_the_pausing_tick_witness :
  let subject := robot true false origin in
  let st := afterSetup (fun _ => 0) rawFlags in
  pauseSignal false subject = true /\
  isPaused false st = false /\
  maxCountOf st < inject_Z (debounceCounter false st + 1) /\
  isPaused false (snd (isLocked subject false st)) = true /\
  debounceCounter false (snd (isLocked subject false st)) = 0%Z.
Proof.
  apply (@isLocked_true_only_on_the_pausing_tick (robot true false origin) false
           (afterSetup (fun _ => 0) rawFlags)).
  vm_compute. reflexivity.
Defined.

Lemma isLocked_needs_the_pause_signal_witness :
  let subject := robot false true origin in
  fst (isLocked subject false newController) = false /\
  isPaused false (snd (isLocked subject false newController)) = isPaused false newController /\
  debounceCounter false (snd (isLocked subject false newController))
  = (if unpauseSignal false subject && isPaused false newController
     then debounceCounter false newController + 1
     else debounceCounter false newController)%Z.
Proof.
  apply (@isLocked_needs_the_pause_signal (robot false true origin) false newController).
  reflexivity.
Defined.

Lemma isLocked_threshold_is_latched_witness :
  let subject := robot true false origin in
  let st := snd (isLocked subject false newController) in
  isLocked subject false (set_m_dHistorisisSeconds 2.0 st)
  = (fst (isLocked subject false st),
     set_m_dHistorisisSeconds 2.0 (snd (isLocked subject false st))) /\
  isLocked_maxCount (snd (isLocked subject false st)) = Some (0.5 * 1000).
Proof.
  apply (@isLocked_threshold_is_latched (robot true false origin) false
           (snd (isLocked (robot true false origin) false newController))
           (0.5 * 1000) 2.0).
  reflexivity.
Defined.

Lemma applyActions_copies_all_rows_but_the_last_witness :
  let actions := channelsOf rawDistinct in
  let st := initializeSineWaves (fun _ _ => 7) newController in
  let st' := copiedChannels actions st in
  applyActions actions st = inr st' /\
  (forall i, (i < nActions - 1)%nat ->
     cell (amplitude st') i = nth 0 (nth i actions []) 0 /\
     cell (angularFrequency st') i = nth 1 (nth i actions []) 0 /\
     cell (phaseChange st') i = nth 2 (nth i actions []) 0 /\
     cell (dcOffset st') i = nth 3 (nth i actions []) 0) /\
  cell (amplitude st') (nActions - 1) = cell (amplitude st) (nActions - 1) /\
  cell (angularFrequency st') (nActions - 1) = cell (angularFrequency st) (nActions - 1) /\
  cell (phaseChange st') (nActions - 1) = cell (phaseChange st) (nActions - 1) /\
  cell (dcOffset st') (nActions - 1) = cell (dcOffset st) (nActions - 1).
Proof.
  apply (@applyActions_copies_all_rows_but_the_last (channelsOf rawDistinct)
           (initializeSineWaves (fun _ _ => 7) newController)).
  1-4: eexists; split; reflexivity.
  - reflexivity.
  - reflexivity.
  - reflexivity.
  - repeat constructor.
Defined.

Lemma populateClusters_binds_clusters_and_joints_witness :
  populateClusters (robot false false origin) newController
  = inr (set_prisms boundPrisms
           (set_clusters (boundClusters (robot false false origin)) newController)) /\
  populateClusters (robot false false origin) (set_clusters [[]] newController)
  = inl (out_of_range 1 1).
Proof.
  split.
  - apply (proj1 (@populateClusters_binds_clusters_and_joints
                    (robot false false origin) newController)); reflexivity.
  - apply (proj2 (@populateClusters_binds_clusters_and_joints
                    (robot false false origin) (set_clusters [[]] newController))).
    vm_compute. lia.
Defined.

Lemma robot_clusters (bottomTouching topTouching : bool) (com : btVector3) :
  forall c, (c < nClusters)%nat ->
    length (findCluster (robot bottomTouching topTouching com) (c + 1)) = musclesPerCluster.
Proof. intros c _. reflexivity. Defined.

Lemma accepted_sixteen : acceptedLength 16.
Proof. split; [vm_compute; lia | left; reflexivity]. Defined.

Lemma onSetup_sets_up_witness :
  let subject := robot false false origin in
  let st := newController in
  let raw := rawDistinct in
  exists st',
    onSetup (fun _ => 0) subject [raw] (fun _ => 0%Z) None (fun _ _ => 7) st
    = (inr tt, st', setupCommands subject st) /\
    isSetUp st' /\
    m_actions st' = channelsOf raw /\
    (forall i, (i < nActions - 1)%nat ->
       cell (amplitude st') i = nth 0 (channelOf raw i) 0 /\
       cell (angularFrequency st') i = nth 1 (channelOf raw i) 0 /\
       cell (phaseChange st') i = nth 2 (channelOf raw i) 0 /\
       cell (dcOffset st') i = nth 3 (channelOf raw i) 0) /\
    m_totalTime st' = m_totalTime st /\
    m_bRecordedStart st' = m_bRecordedStart st /\
    m_bBottomPaused st' = m_bBottomPaused st /\ m_bTopPaused st' = m_bTopPaused st /\
    bottomCounter st' = bottomCounter st /\ topCounter st' = topCounter st /\
    isLocked_maxCount st' = isLocked_maxCount st.
Proof.
  apply (@onSetup_sets_up (fun _ => 0) (robot false false origin) [rawDistinct]
           (fun _ => 0%Z) None (fun _ _ => 7) newController rawDistinct).
  - reflexivity.
  - reflexivity.
  - reflexivity.
  - apply robot_clusters.
  - reflexivity.
  - exact accepted_sixteen.
Defined.

Lemma onStep_warm_up_witness :
  let subject := robot true false origin in
  let st := newController in
  let dt := 1 in
  let locked := fst (isLocked subject false st) in
  let st' := set_m_totalTime (m_totalTime st + dt) (snd (isLocked subject false st)) in
  onStep (fun x => x) subject dt st
  = (inr tt, st',
     if locked
     then [setPreferredLength BottomPrismatic
             (Plain (getActualLength subject BottomPrismatic))]
     else []) /\
  lockOnly st' (set_m_totalTime (m_totalTime st + dt) st) /\
  m_bTopPaused st' = m_bTopPaused st /\ topCounter st' = topCounter st.
Proof.
  apply (@onStep_warm_up (fun x => x) (robot true false origin) 1 newController).
  - reflexivity.
  - reflexivity.
Defined.

Lemma setPrismaticLengths_skips_only_the_pausing_tick_witness :
  let subject := robot false false origin in
  let st := afterSetup (fun _ => 0) rawPhases in
  let go0 := fst (fst (jointDecisions subject st)) in
  let go1 := snd (fst (jointDecisions subject st)) in
  setPrismaticLengths subject st
  = inr (snd (jointDecisions subject st),
         jointCommand go0 BottomPrismatic
           (sineTarget st (prismChannel st 0) (phaseAfter st []))
         ++ jointCommand go1 TopPrismatic
              (sineTarget st (prismChannel st 1) (phaseAfter st [prismChannel st 0]))) /\
  (m_bBottomPaused st = true -> go0 = true) /\
  (m_bTopPaused st = true -> go1 = true) /\
  (go0 = false -> m_bBottomPaused (snd (jointDecisions subject st)) = true) /\
  (go1 = false -> m_bTopPaused (snd (jointDecisions subject st)) = true).
Proof.
  apply (@setPrismaticLengths_skips_only_the_pausing_tick (robot false false origin)
           (afterSetup (fun _ => 0) rawPhases)).
  exact rawPhases_isSetUp.
Defined.

Lemma onStep_active_witness :
  let subject := robot false false origin in
  let st := afterSetup (fun _ => 0) rawPhases in
  let dt := 3 in
  let s := steppedState subject dt st in
  let st' := snd (jointDecisions subject s) in
  onStep (fun x => x) subject dt st
  = (inr tt, st',
     activeCommands subject dt s (fst (fst (jointDecisions subject s)))
                    (snd (fst (jointDecisions subject s)))) /\
  lockOnly st' s /\
  m_totalTime st' = m_totalTime st + dt /\
  m_bRecordedStart st' = true /\
  initPosition st' = (if m_bRecordedStart st then initPosition st else getCOM subject) /\
  (m_bIgnoreTouchSensors st = true -> st' = s).
Proof.
  apply (@onStep_active (fun x => x) (robot false false origin) 3
           (afterSetup (fun _ => 0) rawPhases)).
  - exact rawPhases_isSetUp.
  - reflexivity.
  - vm_compute. discriminate.
Defined.

Lemma onStep_returns_once_set_up_witness :
  let subject := robot false false origin in
  let st := afterSetup (fun _ => 0) rawPhases in
  fst (fst (onStep (fun x => x) subject 3 st)) = inr tt /\
  isSetUp (snd (fst (onStep (fun x => x) subject 3 st))).
Proof.
  apply (@onStep_returns_once_set_up (fun x => x) (robot false false origin) 3
           (afterSetup (fun _ => 0) rawPhases)).
  - exact rawPhases_isSetUp.
  - reflexivity.
Defined.

Lemma displacement_is_nonnegative_off_the_y_axis_witness :
  0 <= displacement Qabs contractingRobot xAxisController /\
  ~ displacement Qabs contractingRobot xAxisController == -1.
Proof.
  apply (@displacement_is_nonnegative_off_the_y_axis Qabs contractingRobot
           xAxisController).
  - exact Qabs_nonneg.
  - left. reflexivity.
Defined.

Lemma totalEnergySpent_is_nonpositive_witness :
  exists energySpent,
    totalEnergySpent contractingRobot = inr energySpent /\ energySpent <= 0.
Proof.
  apply (@totalEnergySpent_is_nonpositive contractingRobot).
  - repeat constructor.
  - repeat constructor; discriminate.
Defined.

Lemma totalEnergySpent_overruns_short_rest_lengths_witness :
  totalEnergySpent shortRestRobot
  = inl (out_of_range (length (restLengths (mkHistory [1; 2] [5])))
                      (length (restLengths (mkHistory [1; 2] [5])))).
Proof.
  apply (@totalEnergySpent_overruns_short_rest_lengths shortRestRobot [] []
           (mkHistory [1; 2] [5])).
  - reflexivity.
  - constructor.
  - vm_compute. lia.
  - vm_compute. lia.
Defined.

Lemma onSetup_after_onTeardown_witness :
  let ended := robot false false origin in
  let next := robot false false origin in
  let st := afterSetup (fun _ => 0) rawPhases in
  let st1 := snd (fst (onTeardown (fun x => x) ended st)) in
  exists st2,
    onSetup (fun _ => 0) next [rawDistinct] (fun _ => 0%Z) None (fun _ _ => 7) st1
    = (inr tt, st2, setupCommands next st) /\
    isSetUp st2 /\
    m_totalTime st2 = 0.0 /\ m_bRecordedStart st2 = false /\ m_bBadRun st2 = false /\
    m_bBottomPaused st2 = m_bBottomPaused st /\ m_bTopPaused st2 = m_bTopPaused st /\
    bottomCounter st2 = bottomCounter st /\ topCounter st2 = topCounter st /\
    isLocked_maxCount st2 = isLocked_maxCount st.
Proof.
  apply (@onSetup_after_onTeardown (fun _ => 0) (fun x => x) (robot false false origin)
           (robot false false origin) [rawDistinct] (fun _ => 0%Z) None (fun _ _ => 7)
           (afterSetup (fun _ => 0) rawPhases) rawDistinct 0).
  - reflexivity.
  - reflexivity.
  - reflexivity.
  - reflexivity.
  - apply robot_clusters.
  - reflexivity.
  - exact accepted_sixteen.
Defined.

Lemma onStep_after_onTeardown_reads_deleted_arrays_witness :
  let ended := robot false false origin in
  let subject := robot false false origin in
  let st := afterSetup (fun _ => 0) rawPhases in
  let st1 := snd (fst (onTeardown (fun x => x) ended st)) in
  m_totalTime st1 = 0.0 /\
  amplitude st1 = None /\
  onStep (fun x => x) subject 3 st1 = (inl bad_pointer, steppedState subject 3 st1, []).
Proof.
  apply (@onStep_after_onTeardown_reads_deleted_arrays (fun x => x)
           (robot false false origin) (robot false false origin) 3
           (afterSetup (fun _ => 0) rawPhases) 0).
  - exact rawPhases_isSetUp.
  - reflexivity.
  - vm_compute. discriminate.
Defined.

Lemma onStep_before_onSetup_witness :
  fst (fst (onStep (fun x => x) (robot false false origin) 1 newController)) = inr tt /\
  onStep (fun x => x) (robot false false origin) 3 newController
  = (inl (assertion_failure "pMuscle != NULL"),
     steppedState (robot false false origin) 3 newController, []).
Proof.
  split.
  - apply (@onStep_before_onSetup (fun x => x) (robot false false origin) 1
             1 false 1 false true origin); reflexivity.
  - apply (@onStep_before_onSetup (fun x => x) (robot false false origin) 3
             1 false 1 false true origin).
    + reflexivity.
    + vm_compute. discriminate.
Defined.

(* ================================================================= *)
(** ** The touch flag with manual parameters *)

(** Claim C4, at manual parameters.  The file line has eighteen fields in
    [0,1] (sixteen zeros, then the flags 0 and 1) and [rand()] returns 50, so
    the decoded vector [params] has [4*nActions + 2] slots, slot [4*nActions]
    being 0 and slot [4*nActions + 1] being 1: by the claim the touch sensors
    are ignored.  The index of the touch flag is computed from the size of
    the adapter's vector [actions[0]], not from [params.size()] as the index
    of the hysteresis is.  When the adapter hands out 18 slots the flag is
    read at slot 16; when it hands out 17 slots the flag is read at slot 17
    and the touch sensors are not ignored; when it hands out 16 slots the
    flag is read at slot 18, past the end of [params]. *)
Theorem touch_flag_index_follows_the_adapter (atof : string -> Q) :
  atof "0"%string = 0 -> atof "1"%string = 1 ->
  let rand := fun _ : nat => 50%Z in
  let params := tweakFrom rand 0 (repeat 0 17 ++ [1]) in
  let touchSlot := nth (4 * nActions) params 0 in
  let hysteresisSlot := nth (4 * nActions + 1) params 0 in
  let decoded (slot : Q) :=
    set_m_dHistorisisSeconds (hysteresisSlot * (2.0 - 0.0) + 0.0)
      (set_m_bIgnoreTouchSensors (Qltb slot 0.5) manualController) in
  readManualParams atof rand 1 (Some eighteenFields) = inr params /\
  length params = (4 * nActions + 2)%nat /\
  Forall unitInterval params /\
  touchSlot == 0 /\ hysteresisSlot == 1 /\
  Qltb touchSlot 0.5 = true /\ Qltb hysteresisSlot 0.5 = false /\
  length rawFlags = 18%nat /\ length rawSeventeen = 17%nat /\
  length rawDistinct = 16%nat /\
  transformActions atof manualController rand (Some eighteenFields) [rawFlags]
  = inr (channelsOf params, decoded touchSlot) /\
  transformActions atof manualController rand (Some eighteenFields) [rawSeventeen]
  = inr (channelsOf params, decoded hysteresisSlot) /\
  m_bIgnoreTouchSensors (decoded hysteresisSlot) = false /\
  transformActions atof manualController rand (Some eighteenFields) [rawDistinct]
  = inl (out_of_range (4 * nActions + 2) (4 * nActions + 2)).
Proof.
  intros H0 H1 rand params touchSlot hysteresisSlot decoded.
  assert (E : readManualParams atof rand 1 (Some eighteenFields) = inr params).
  { pose proof (@readManualParams_fits atof rand 1 (Some eighteenFields) eq_refl) as E.
    cbv zeta in E.
    assert (Hcells : getlines "," (grabLine (Some eighteenFields) (Z.to_nat 1)) EmptyString
                     = repeat "0"%string 17 ++ ["1"%string]) by (vm_compute; reflexivity).
    rewrite Hcells in E. specialize (E ltac:(vm_compute; lia)).
    rewrite E. cbn [repeat app map]. rewrite H0, H1. reflexivity. }
  split; [exact E|].
  split; [reflexivity|].
  split; [subst params rand; repeat constructor; vm_compute; discriminate|].
  split; [vm_compute; reflexivity|]. split; [vm_compute; reflexivity|].
  split; [vm_compute; reflexivity|]. split; [vm_compute; reflexivity|].
  split; [reflexivity|]. split; [reflexivity|]. split; [reflexivity|].
  unfold transformActions, chooseParams.
  change (m_usingManualParams manualController) with true. cbn iota.
  rewrite E. cbn [bind].
  split; [vm_compute; reflexivity|].
  split; [vm_compute; reflexivity|].
  split; [vm_compute; reflexivity|].
  vm_compute. reflexivity.
Qed.

Lemma touch_flag_index_follows_the_adapter_witness :
  let atof := fun cell : string => if String.eqb cell "1" then 1 else 0 in
  let rand := fun _ : nat => 50%Z in
  let params := tweakFrom rand 0 (repeat 0 17 ++ [1]) in
  let touchSlot := nth (4 * nActions) params 0 in
  let hysteresisSlot := nth (4 * nActions + 1) params 0 in
  let decoded (slot : Q) :=
    set_m_dHistorisisSeconds (hysteresisSlot * (2.0 - 0.0) + 0.0)
      (set_m_bIgnoreTouchSensors (Qltb slot 0.5) manualController) in
  readManualParams atof rand 1 (Some eighteenFields) = inr params /\
  length params = (4 * nActions + 2)%nat /\
  Forall unitInterval params /\
  touchSlot == 0 /\ hysteresisSlot == 1 /\
  Qltb touchSlot 0.5 = true /\ Qltb hysteresisSlot 0.5 = false /\
  length rawFlags = 18%nat /\ length rawSeventeen = 17%nat /\
  length rawDistinct = 16%nat /\
  transformActions atof manualController rand (Some eighteenFields) [rawFlags]
  = inr (channelsOf params, decoded touchSlot) /\
  transformActions atof manualController rand (Some eighteenFields) [rawSeventeen]
  = inr (channelsOf params, decoded hysteresisSlot) /\
  m_bIgnoreTouchSensors (decoded hysteresisSlot) = false /\
  transformActions atof manualController rand (Some eighteenFields) [rawDistinct]
  = inl (out_of_range (4 * nActions + 2) (4 * nActions + 2)).
Proof.
  apply (@touch_flag_index_follows_the_adapter
           (fun cell : string => if String.eqb cell "1" then 1 else 0)).
  - reflexivity.
  - reflexivity.
Defined.

(* ================================================================= *)
(** ** The two phase accumulators *)

(** Claim C5, as the code has it.  Each traversal has an accumulator of its
    own that starts at 0, and adds a channel's [phaseChange] only after that
    channel has been evaluated.  Cluster [c] is evaluated at the sum of the
    [phaseChange] of the clusters before it.  The first joint is evaluated at
    phase 0, whatever the clusters have accumulated, and the second at the
    [phaseChange] of the first joint's channel, which is not its own channel.
    A joint for which [isLocked] answers true (touch sensors not ignored) is
    sent no target and every other joint is sent its target; the accumulator
    advances in both cases. *)
Theorem phase_accumulates_within_each_traversal (subject : DuCTTRobotModel) (dt : Q)
    (st : Controller) :
  isSetUp st ->
  let watching := negb (m_bIgnoreTouchSensors st) in
  let bottom := isLocked subject false st in
  let st1 := if watching then snd bottom else st in
  let top := isLocked subject true st1 in
  let st2 := if watching then snd top else st1 in
  let locked0 := watching && fst bottom in
  let locked1 := watching && fst top in
  (* clusters: an accumulator that starts at 0 *)
  setPreferredMuscleLengths dt st
  = inr (flat_map (fun cluster =>
                     clusterCommands st dt cluster (phaseAfter st (seq 0 cluster)))
                  (seq 0 nClusters)) /\
  (* joints: another accumulator that starts at 0 *)
  setPrismaticLengths subject st
  = inr (st2,
         (if locked0 then []
          else [setPreferredLength BottomPrismatic
                  (sineTarget st (prismChannel st 0) (phaseAfter st []))])
         ++ (if locked1 then []
             else [setPreferredLength TopPrismatic
                     (sineTarget st (prismChannel st 1)
                                 (phaseAfter st [prismChannel st 0]))])) /\
  phaseAfter st [] = 0 /\
  phaseAfter st [prismChannel st 0] == cell (phaseChange st) (prismChannel st 0) /\
  prismChannel st 0 <> prismChannel st 1 /\
  sameFrame st2 st.
Proof.
  intros Hset watching bottom st1 top st2 locked0 locked1.
  split; [|split; [|split; [|split; [|split]]]].
  - unfold setPreferredMuscleLengths.
    change 0 with (phaseAfter st []) at 1.
    rewrite (@muscleLoop_commands st dt (seq 0 nClusters) [] Hset).
    + reflexivity.
    + apply Forall_forall. intros c Hc. apply in_seq in Hc. lia.
  - rewrite (setPrismaticLengths_ok subject Hset).
    subst watching bottom st1 top st2 locked0 locked1.
    unfold jointDecisions, jointCommand.
    destruct (m_bIgnoreTouchSensors st); cbn [negb andb fst snd]; [reflexivity|].
    destruct (fst (isLocked subject false st)),
             (fst (isLocked subject true (snd (isLocked subject false st))));
      reflexivity.
  - reflexivity.
  - unfold phaseAfter. cbn [fold_left]. ring.
  - pose proof Hset as (_ & _ & _ & _ & Hlen & _).
    rewrite !prismChannel_setUp by (assumption || (unfold nPrisms; lia)).
    unfold nClusters. lia.
  - subst watching bottom st1 top st2.
    destruct (m_bIgnoreTouchSensors st); cbn [negb]; [apply sameFrame_refl|].
    eapply sameFrame_trans; apply isLocked_frame.
Qed.

(** With every [phaseChange] equal to [M_PI / 4] and every amplitude equal to
    40, the bottom joint is sent a target evaluated at phase 0, while the sum
    of the [phaseChange] of the cluster channels traversed before it is
    [M_PI / 2]. *)
Lemma joint_phase_restarts_at_zero :
  let st := afterSetup (fun _ => 0) rawLagged in
  exists st' a w t d rest,
    setPrismaticLengths (robot false false origin) st
    = inr (st', setPreferredLength BottomPrismatic (Sine a w t 0 d) :: rest) /\
    a == 40 /\
    phaseAfter st (seq 0 nClusters) == M_PI / 2 /\
    ~ 0 == M_PI / 2.
Proof.
  cbv zeta. do 6 eexists. split; [|split; [|split]].
  - vm_compute. reflexivity.
  - vm_compute. reflexivity.
  - vm_compute. reflexivity.
  - vm_compute. discriminate.
Qed.

Lemma rawLaggedFlags_isSetUp : isSetUp (afterSetup (fun _ => 0) rawLaggedFlags).
Proof.
  unfold isSetUp, allocated.
  repeat split; try (eexists; split; reflexivity); try reflexivity.
  repeat constructor; discriminate.
Defined.

Lemma phase_accumulates_within_each_traversal_witness :
  let subject := robot true false origin in
  let st := afterSetup (fun _ => 0) rawLaggedFlags in
  let watching := negb (m_bIgnoreTouchSensors st) in
  let bottom := isLocked subject false st in
  let st1 := if watching then snd bottom else st in
  let top := isLocked subject true st1 in
  let st2 := if watching then snd top else st1 in
  let locked0 := watching && fst bottom in
  let locked1 := watching && fst top in
  (locked0 = true /\ locked1 = false) /\
  setPreferredMuscleLengths 3 st
  = inr (flat_map (fun cluster =>
                     clusterCommands st 3 cluster (phaseAfter st (seq 0 cluster)))
                  (seq 0 nClusters)) /\
  setPrismaticLengths subject st
  = inr (st2,
         (if locked0 then []
          else [setPreferredLength BottomPrismatic
                  (sineTarget st (prismChannel st 0) (phaseAfter st []))])
         ++ (if locked1 then []
             else [setPreferredLength TopPrismatic
                     (sineTarget st (prismChannel st 1)
                                 (phaseAfter st [prismChannel st 0]))])) /\
  phaseAfter st [] = 0 /\
  phaseAfter st [prismChannel st 0] == cell (phaseChange st) (prismChannel st 0) /\
  prismChannel st 0 <> prismChannel st 1 /\
  sameFrame st2 st.
Proof.
  cbv zeta. split; [split; vm_compute; reflexivity|].
  apply (@phase_accumulates_within_each_traversal (robot true false origin) 3
           (afterSetup (fun _ => 0) rawLaggedFlags)).
  exact rawLaggedFlags_isSetUp.
Defined.
